(** * tightrope: the analysis reconciler, the workspace handlers and the poller

    A shallow embedding of the request handlers
    - GET status, called checkStatus: [pages/api/workspaces/[id]/status.ts],
    - GET workspace, in its two revisions (the same source file carries
      them),
    - POST workspace, in its two revisions: [pages/api/workspaces/create.ts],
    - POST sign-in: [pages/api/auth/signin.ts],
    of the polling loop of [pages/workspaces/[id].tsx] and of the form of
    the dashboard.

    Handlers are programs in a small state-and-exception monad over a world
    made of the three Prisma tables and a log of the effects performed
    (analyzer HTTP calls and table writes, in order).  The analyzer, the
    clock and the identifier generator are read from an environment.

    Conventions of the embedding:
    - JavaScript's three ways of having no value are kept apart where the
      code can tell them apart: a property read from a body is missing
      ([undefined]), [null], or a value; a nullable column is an [option].
    - The bodies of the analyzer's status and submit endpoints carry no
      type in the source.  They are read through the properties the
      handlers use, and each property is missing or an arbitrary JSON
      value.  The body of a create request has the type the handler
      declares for it ([name?: string], [github_repository?: string]).
    - The store checks what the migrations declare: the type of the value
      written to a column (a string for TEXT, a 32-bit integer for INTEGER,
      anything for JSONB), primary keys, the unique index and the foreign
      keys.  It raises no other exception, and it answers every query.
    - Strings are strings of characters below 256; [trim] knows the white
      space among them.
    - One reading of the clock serves a whole request, and requests are
      served one at a time.  [getServerSession] does not throw. *)

From Stdlib Require Import ZArith Ascii String List Bool Lia.
From stdpp Require Import base option strings pretty gmap.

Set Warnings "-register-all".

Local Open Scope string_scope.
Local Open Scope Z_scope.

(** ** JavaScript values *)

(** A parsed JSON document.  [JNum n] is a number that JavaScript prints in
    decimal digits, an integer; [JReal shown] is any other number, given by
    the text JavaScript prints for it ([50.5], [1e+21]).  What the code asks
    of a number is whether it is zero, whether a column can hold it, and how
    it prints. *)
Inductive Json : Type :=
| JNull
| JBool (b : bool)
| JNum (n : Z)
| JReal (shown : string)
| JStr (s : string)
| JArr (l : list Json)
| JObj (l : list (string * Json)).

(** A property of the typed request body: missing ([undefined]), [null],
    or a value. *)
Inductive Opt (A : Type) : Type :=
| Missing
| IsNull
| Has (a : A).
Arguments Missing {A}.
Arguments IsNull {A}.
Arguments Has {A} a.

(** [!!s] for a string. *)
Definition truthy_str (s : string) : bool := negb (String.eqb s "").

(** [!!v] for a JSON value: [null], [false], [0] and [""] are falsy, every
    other number, every object and every array is truthy. *)
Definition truthy (v : Json) : bool :=
  match v with
  | JNull => false
  | JBool b => b
  | JNum n => negb (n =? 0)
  | JReal _ => true
  | JStr s => truthy_str s
  | JArr _ => true
  | JObj _ => true
  end.

(** [!!r] for a value that may be absent: a nullable JSON column as Prisma
    hands it over ([None] is [null]), or a property read from a parsed body
    ([None] is [undefined]). *)
Definition truthy_result (r : option Json) : bool :=
  match r with
  | Some v => truthy v
  | None => false
  end.

(** [r] is neither [null] nor [undefined]. *)
Definition non_null (r : option Json) : bool :=
  match r with
  | None | Some JNull => false
  | Some _ => true
  end.

(** [!!x] for a nullable string column. *)
Definition truthy_col (x : option string) : bool :=
  match x with
  | Some s => truthy_str s
  | None => false
  end.

(** [x || d] for strings. *)
Definition or_str (x : Opt string) (d : string) : string :=
  match x with
  | Has s => if truthy_str s then s else d
  | _ => d
  end.

(** [x || d] and [x ?? d] where [x] is a property of a parsed body. *)
Definition js_or (x : option Json) (d : Json) : Json :=
  match x with
  | Some v => if truthy v then v else d
  | None => d
  end.

Definition js_nullish (x : option Json) (d : Json) : Json :=
  match x with
  | Some JNull | None => d
  | Some v => v
  end.

(** A nullable column as a JavaScript value. *)
Definition of_text (x : option string) : Json :=
  match x with
  | Some s => JStr s
  | None => JNull
  end.

Definition of_int (x : option Z) : Json :=
  match x with
  | Some n => JNum n
  | None => JNull
  end.

(** [String(v)], which is what a template literal puts in for [v]: an
    array prints its elements with commas between them, [null] among them
    as nothing. *)
Fixpoint toString (v : Json) : string :=
  match v with
  | JNull => "null"
  | JBool true => "true"
  | JBool false => "false"
  | JNum n => pretty n
  | JReal shown => shown
  | JStr s => s
  | JArr l =>
      String.concat ","
        (map (fun x => match x with
                       | JNull => ""
                       | _ => toString x
                       end) l)
  | JObj _ => "[object Object]"
  end.

(** [`${x}`] inside a template literal. *)
Definition render (x : option Json) : string :=
  match x with
  | None => "undefined"
  | Some v => toString v
  end.

(** [x === 'completed'] *)
Definition is_completed (x : option Json) : bool :=
  match x with
  | Some (JStr s) => String.eqb s "completed"
  | _ => false
  end.

(** ** The Prisma tables *)

Definition Time := Z.

(** A row of table [User] (the first migration). *)
Record User : Type := mkUser {
  u_email : string;
  u_createdAt : Time;
  u_updatedAt : Time
}.

(** A row of table [Analysis] (the migration
    [20251115222552_add_analysis_model]). *)
Record Analysis : Type := mkAnalysis {
  an_id : string;
  workspaceId : string;
  external_workspace_id : option string;
  status : string;
  progress : option Z;
  message : option string;
  current_step : option string;
  status_url : option string;
  result_url : option string;
  result : option Json;
  startedAt : Time;
  completedAt : option Time;
  updatedAt : Time
}.

(** A row of table [Workspace] (the first migration), with the column
    [name] that the handlers write and select; its migration is not among
    the sources. *)
Record Workspace : Type := mkWorkspace {
  workspace_id : string;
  ws_name : string;
  github_repository : string;
  ws_email : string;
  createdAt : Time;
  ws_updatedAt : Time
}.

(** The tables.  [User] is keyed by the e-mail address, its primary key.
    The other two are keyed by the workspace identifier: it is the primary
    key of [Workspace] and carries a unique index in [Analysis]. *)
Record Db : Type := mkDb {
  users : gmap string User;
  workspaces : gmap string Workspace;
  analyses : gmap string Analysis
}.

Definition empty_db : Db := mkDb ∅ ∅ ∅.

(** ** Effects *)

(** What a handler does to the outside, in the order it does it. *)
Inductive Event : Type :=
| EvGet (url : string)
| EvPost (url : string)
| EvCreateUser (email : string)
| EvCreateWorkspace (wid : string)
| EvCreateAnalysis (wid : string)
| EvUpdateAnalysis (wid : string).

(** The outcome of [fetch]: the promise rejects, or it resolves to a
    response with its [ok] flag and a body; [body = None] is a body on which
    [.json()] rejects. *)
Inductive Fetched (A : Type) : Type :=
| NetworkError
| Resp (ok : bool) (body : option A).
Arguments NetworkError {A}.
Arguments Resp {A} ok body.

(** The body of the analyzer's status endpoint, read through the properties
    the handler looks at; each is absent ([None]) or whatever JSON value the
    analyzer put there.  (A body that is JSON but no object has none of
    them; a body that is the JSON [null] makes the first property access
    throw, like a body that is not JSON: both are [body = None].) *)
Record StatusData : Type := mkStatusData {
  sd_status : option Json;
  sd_progress : option Json;
  sd_message : option Json;
  sd_current_step : option Json;
  sd_workspace_id : option Json
}.

(** The body of the analyzer's submit endpoint, read in the same way;
    [None] stands for the [null] that [.json().catch(() => null)] yields on
    a body that is not JSON (and for a body that is the JSON [null]). *)
Record AnalyzeData : Type := mkAnalyzeData {
  ad_workspace_id : option Json;
  ad_status : option Json;
  ad_status_url : option Json;
  ad_result_url : option Json
}.

(** Everything a handler reads from outside the tables. *)
Record Env : Type := mkEnv {
  analyze_reply : string -> string -> Fetched AnalyzeData;
  status_reply : string -> Fetched StatusData;
  result_reply : string -> Fetched Json;
  now : Time;
  new_workspace_id : string;
  new_analysis_id : string
}.

(** The world of a request: the tables, the effects so far, and every state
    of the tables that a write has left behind (oldest first), which is what
    another request may get to see in between. *)
Record World : Type := mkWorld {
  db : Db;
  log : list Event;
  seen : list Db
}.

Inductive Outcome (A : Type) : Type :=
| Val (a : A)
| Exn.
Arguments Val {A} a.
Arguments Exn {A}.

(** A handler fragment: it reads the environment, changes the world, and
    returns or throws.  What was written before a throw stays written. *)
Definition M (A : Type) : Type := Env -> World -> Outcome A * World.

Definition ret {A : Type} (a : A) : M A := fun _ w => (Val a, w).

Definition throw {A : Type} : M A := fun _ w => (Exn, w).

Definition bind {A B : Type} (m : M A) (k : A -> M B) : M B :=
  fun e w =>
    match m e w with
    | (Val a, w') => k a e w'
    | (Exn, w') => (Exn, w')
    end.

(** [try { m } catch { h }] *)
Definition try_catch {A : Type} (m : M A) (h : M A) : M A :=
  fun e w =>
    match m e w with
    | (Val a, w') => (Val a, w')
    | (Exn, w') => h e w'
    end.

Notation "x <- m ;; k" := (bind m (fun x => k))
  (at level 100, m at next level, right associativity).
Notation "m ;;; k" := (bind m (fun _ => k))
  (at level 100, right associativity).

Definition emit (ev : Event) : M unit :=
  fun _ w => (Val tt, mkWorld (db w) (log w ++ [ev]) (seen w)).

Definition ask {A : Type} (f : Env -> A) : M A := fun e w => (Val (f e), w).

Definition get_db : M Db := fun _ w => (Val (db w), w).

Definition put_db (d : Db) : M unit :=
  fun _ w => (Val tt, mkWorld d (log w) (seen w ++ [d])).

(** An expression that yields a value or throws ([None]). *)
Definition eval {A : Type} (x : option A) : M A :=
  match x with
  | Some a => ret a
  | None => throw
  end.

(** [await fetch(url)] followed by the use the caller makes of it. *)
Definition fetch {A : Type} (ev : Event) (reply : Env -> Fetched A)
  : M (bool * option A) :=
  emit ev ;;;
  r <- ask reply ;;
  match r with
  | NetworkError => throw
  | Resp ok body => ret (ok, body)
  end.

(** [await resp.json()] *)
Definition json {A : Type} (body : option A) : M A := eval body.

(** ** Prisma operations *)

(** What the client makes of a value given for a column: the value to
    store, or [None] where it is of the wrong type or out of range, and the
    call throws before anything is written.  A TEXT column takes a string,
    an INTEGER column an integer of 32 bits, and a column that may be null
    takes [null] as well. *)
Definition int32 (n : Z) : bool :=
  (-2147483648 <=? n) && (n <=? 2147483647).

Definition text_column (v : Json) : option string :=
  match v with
  | JStr s => Some s
  | _ => None
  end.

Definition text_column_null (v : Json) : option (option string) :=
  match v with
  | JNull => Some None
  | JStr s => Some (Some s)
  | _ => None
  end.

Definition int_column_null (v : Json) : option (option Z) :=
  match v with
  | JNull => Some None
  | JNum n => if int32 n then Some (Some n) else None
  | _ => None
  end.

(** A JSONB column takes every document; a [null] document reads back as
    [null]. *)
Definition json_column (v : Json) : option Json :=
  match v with
  | JNull => None
  | _ => Some v
  end.

(** [prisma.user.findUnique({ where: { email } })] *)
Definition user_findUnique (email : string) : M (option User) :=
  d <- get_db ;; ret (users d !! email).

(** [prisma.user.create({ data: { email } })]: the two time stamps are
    filled in by the store; a second row for the same address violates the
    primary key. *)
Definition user_create (email : string) : M User :=
  d <- get_db ;;
  t <- ask now ;;
  match users d !! email with
  | Some _ => throw
  | None =>
      let u := mkUser email t t in
      emit (EvCreateUser email) ;;;
      put_db (mkDb (<[email := u]> (users d)) (workspaces d) (analyses d)) ;;;
      ret u
  end.

(** [prisma.analysis.findUnique({ where: { workspaceId } })] *)
Definition analysis_findUnique (wid : string) : M (option Analysis) :=
  d <- get_db ;; ret (analyses d !! wid).

(** [prisma.workspace.findUnique({ where: { workspace_id } })] *)
Definition workspace_findUnique (wid : string) : M (option Workspace) :=
  d <- get_db ;; ret (workspaces d !! wid).

(** [prisma.analysis.update({ where: { workspaceId }, data })]: [data] is
    given as the function it applies to the row, or as [None] when a value
    in it does not fit its column; the column [updatedAt] is maintained by
    Prisma.  Data that does not fit, and a row that does not exist, make the
    call throw with nothing written. *)
Definition touch (t : Time) (a : Analysis) : Analysis :=
  mkAnalysis (an_id a) (workspaceId a) (external_workspace_id a) (status a)
    (progress a) (message a) (current_step a) (status_url a) (result_url a)
    (result a) (startedAt a) (completedAt a) t.

Definition analysis_update (wid : string)
  (data : option (Analysis -> Analysis)) : M unit :=
  match data with
  | None => throw
  | Some data =>
      d <- get_db ;;
      match analyses d !! wid with
      | None => throw
      | Some a =>
          t <- ask now ;;
          emit (EvUpdateAnalysis wid) ;;;
          put_db (mkDb (users d) (workspaces d)
                    (<[wid := touch t (data a)]> (analyses d)))
      end
  end.

(** ** Requests and responses *)

(** [req.query.id]: Next.js hands over a string, an array of strings, or
    nothing. *)
Inductive QueryParam : Type :=
| QMissing
| QOne (s : string)
| QMany (l : list string).

(** [req.body] of the create endpoint, with the type the handler gives
    it. *)
Record Body : Type := mkBody {
  body_name : Opt string;
  body_github_repository : Opt string
}.

(** A request together with what [getServerSession] finds for it: the e-mail
    address of the signed-in user, if any. *)
Record Request : Type := mkRequest {
  method : string;
  query_id : QueryParam;
  session_email : option string;
  body : option Body
}.

(** The analysis summary of the create endpoint. *)
Record CreatedSummary : Type := mkCreatedSummary {
  cs_id : string;
  cs_status : string;
  cs_status_url : option string;
  cs_result_url : option string;
  cs_hasResult : bool
}.

(** The analysis summary of the workspace endpoint. *)
Record AnalysisSummary : Type := mkAnalysisSummary {
  as_id : string;
  as_status : string;
  as_progress : option Z;
  as_message : option string;
  as_current_step : option string;
  as_status_url : option string;
  as_result_url : option string;
  as_startedAt : option Time;
  as_completedAt : option Time;
  as_hasResult : bool;
  as_result : option Json
}.

(** What sign-in selects of a workspace. *)
Record WorkspaceItem : Type := mkWorkspaceItem {
  wi_workspace_id : string;
  wi_name : string;
  wi_github_repository : string;
  wi_createdAt : Time
}.

(** The bodies of the responses.  [PStatus st analysis] is
    [{ success: true, status: st, analysis }], where [st = None] leaves the
    property out; [PRefused] is the [{ success: false, error }] of
    sign-in, [PSignedIn] its
    [{ success: true, message, user: { email }, workspaces }]. *)
Inductive Payload : Type :=
| PError (error : string)
| PStatus (st : option Json) (analysis : Opt Analysis)
| PWorkspace (w : Workspace)
| PWorkspaceAnalysis (w : Workspace) (analysis : option AnalysisSummary)
| PCreated (w : Workspace) (analysis : CreatedSummary)
| PRefused (error : string)
| PSignedIn (email : string) (items : list WorkspaceItem).

Record HttpResponse : Type := mkResponse {
  code : Z;
  payload : Payload
}.

(** [res.status(c).json(p)] *)
Definition respond (c : Z) (p : Payload) : M HttpResponse :=
  ret (mkResponse c p).

Definition of_col {A : Type} (x : option A) : Opt A :=
  match x with
  | Some a => Has a
  | None => IsNull
  end.

(** ** checkStatus: [pages/api/workspaces/[id]/status.ts] *)

Definition base : string := "http://0.0.0.0:8000".

(** The four fields of the first update as the store takes them. *)
Record StatusFields : Type := mkStatusFields {
  f_status : string;
  f_progress : option Z;
  f_message : option string;
  f_current_step : option string
}.

(** The [data] of the first update: each field is the analyzer's value or
    else the value of the row as it was read at the start, and the store
    has to accept all four. *)
Definition merged_fields (sd : StatusData) (analysis : Analysis)
  : option StatusFields :=
  st ← text_column (js_or (sd_status sd) (JStr (status analysis)));
  pr ← int_column_null
         (js_nullish (sd_progress sd) (of_int (progress analysis)));
  ms ← text_column_null
         (js_nullish (sd_message sd) (of_text (message analysis)));
  cs ← text_column_null
         (js_nullish (sd_current_step sd) (of_text (current_step analysis)));
  Some (mkStatusFields st pr ms cs).

(** Writing these four fields into a row. *)
Definition set_status_fields (f : StatusFields) (a : Analysis) : Analysis :=
  mkAnalysis (an_id a) (workspaceId a) (external_workspace_id a)
    (f_status f) (f_progress f) (f_message f) (f_current_step f)
    (status_url a) (result_url a) (result a) (startedAt a) (completedAt a)
    (updatedAt a).

(** The [data] of the second update: the result, the completion time and the
    status, in one write.  The document is stored whatever it is. *)
Definition store_result (doc : Json) (t : Time) (a : Analysis) : Analysis :=
  mkAnalysis (an_id a) (workspaceId a) (external_workspace_id a)
    "completed" (progress a) (message a) (current_step a)
    (status_url a) (result_url a) (json_column doc) (startedAt a) (Some t)
    (updatedAt a).

Definition statusUrl_of (a : Analysis) : string :=
  match status_url a with
  | Some u => u
  | None =>
      base +:+ "/api/status/"
        +:+ render (Some (of_text (external_workspace_id a)))
  end.

Definition resultUrl_of (a : Analysis) (sd : StatusData) : string :=
  let externalId :=
    match external_workspace_id a with
    | Some x => Some (JStr x)
    | None => sd_workspace_id sd
    end in
  match result_url a with
  | Some u => u
  | None => base +:+ "/api/result/" +:+ render externalId
  end.

Definition status_handler (req : Request) : M HttpResponse :=
  match query_id req with
  | QOne id =>
    if negb (truthy_str id) then respond 400 (PError "Invalid id") else
    try_catch
      (if negb (truthy_col (session_email req))
       then respond 401 (PError "Unauthorized") else
       (* [const email = session.user.email] is read here and never used *)
       analysis <- analysis_findUnique id ;;
       match analysis with
       | None => respond 404 (PError "No analysis record")
       | Some analysis =>
         if truthy_result (result analysis)
         then respond 200 (PStatus (Some (JStr "completed")) (Has analysis))
         else
         if negb (truthy_col (status_url analysis))
            && negb (truthy_col (external_workspace_id analysis))
         then respond 200
                (PStatus
                   (Some (JStr (or_str (Has (status analysis)) "pending")))
                   Missing)
         else
         let statusUrl := statusUrl_of analysis in
         statusResp <- fetch (EvGet statusUrl)
                         (fun e => status_reply e statusUrl) ;;
         if negb (fst statusResp)
         then respond 502 (PError "Failed to fetch status from analyzer") else
         statusData <- json (snd statusResp) ;;
         analysis_update id
           (option_map set_status_fields
              (merged_fields statusData analysis)) ;;;
         if is_completed (sd_status statusData) then
           let resultUrl := resultUrl_of analysis statusData in
           resultResp <- fetch (EvGet resultUrl)
                           (fun e => result_reply e resultUrl) ;;
           if fst resultResp then
             resultData <- json (snd resultResp) ;;
             t <- ask now ;;
             analysis_update id (Some (store_result resultData t)) ;;;
             updated <- analysis_findUnique id ;;
             respond 200 (PStatus (Some (JStr "completed")) (of_col updated))
           else respond 502 (PError "Failed to fetch result from analyzer")
         else
           updated <- analysis_findUnique id ;;
           respond 200 (PStatus (sd_status statusData) (of_col updated))
       end)
      (respond 500 (PError "Internal server error"))
  | _ => respond 400 (PError "Invalid id")
  end.

(** Running a handler on a database: the response (or an escaped exception),
    the database afterwards, and the effects in order. *)
Definition run {A : Type} (m : M A) (e : Env) (d : Db)
  : Outcome A * Db * list Event :=
  let '(o, w) := m e (mkWorld d [] []) in (o, db w, log w).

Definition checkStatus (e : Env) (req : Request) (d : Db)
  : Outcome HttpResponse * Db * list Event :=
  run (status_handler req) e d.

(** ** GET workspace *)

(** The first revision: the workspace alone. *)
Definition workspace_handler_plain (req : Request) : M HttpResponse :=
  match query_id req with
  | QOne id =>
    if negb (truthy_str id) then respond 400 (PError "Invalid id") else
    try_catch
      (match session_email req with
       | None => respond 401 (PError "Unauthorized")
       | Some email =>
         if negb (truthy_str email)
         then respond 401 (PError "Unauthorized") else
         workspace <- workspace_findUnique id ;;
         match workspace with
         | None => respond 404 (PError "Workspace not found")
         | Some workspace =>
           if negb (String.eqb (ws_email workspace) email)
           then respond 404 (PError "Workspace not found")
           else respond 200 (PWorkspace workspace)
         end
       end)
      (respond 500 (PError "Internal server error"))
  | _ => respond 400 (PError "Invalid id")
  end.

Definition summary_of (a : Analysis) : AnalysisSummary :=
  mkAnalysisSummary (an_id a) (status a) (progress a) (message a)
    (current_step a) (status_url a) (result_url a) (Some (startedAt a))
    (completedAt a) (truthy_result (result a)) (result a).

(** The second revision: the workspace with the summary of its analysis. *)
Definition workspace_handler (req : Request) : M HttpResponse :=
  match query_id req with
  | QOne id =>
    if negb (truthy_str id) then respond 400 (PError "Invalid id") else
    try_catch
      (match session_email req with
       | None => respond 401 (PError "Unauthorized")
       | Some email =>
         if negb (truthy_str email)
         then respond 401 (PError "Unauthorized") else
         workspace <- workspace_findUnique id ;;
         match workspace with
         | None => respond 404 (PError "Workspace not found")
         | Some workspace =>
           if negb (String.eqb (ws_email workspace) email)
           then respond 404 (PError "Workspace not found") else
           analysis <- analysis_findUnique id ;;
           respond 200
             (PWorkspaceAnalysis workspace (option_map summary_of analysis))
         end
       end)
      (respond 500 (PError "Internal server error"))
  | _ => respond 400 (PError "Invalid id")
  end.

Definition getWorkspace (e : Env) (req : Request) (d : Db)
  : Outcome HttpResponse * Db * list Event :=
  run (workspace_handler req) e d.

(** ** POST workspace: [pages/api/workspaces/create.ts] *)

(** White space as [String.prototype.trim] sees it, among the characters
    below 256: the tab, the line feed, the two other feeds, the carriage
    return, the space and the no-break space. *)
Definition is_space (c : ascii) : bool :=
  let n := nat_of_ascii c in
  (Nat.eqb n 32 || Nat.eqb n 160 || (Nat.leb 9 n && Nat.leb n 13))%bool.

Fixpoint trimStart (s : string) : string :=
  match s with
  | String c s' => if is_space c then trimStart s' else s
  | EmptyString => EmptyString
  end.

Fixpoint trimEnd (s : string) : string :=
  match s with
  | String c s' =>
      let r := trimEnd s' in
      if is_space c && negb (truthy_str r) then EmptyString else String c r
  | EmptyString => EmptyString
  end.

Definition trim (s : string) : string := trimEnd (trimStart s).

Definition startsWith (s p : string) : bool := String.prefix p s.

Fixpoint includes (s p : string) : bool :=
  startsWith s p ||
  match s with
  | String _ s' => includes s' p
  | EmptyString => false
  end.

(** [prisma.workspace.create({ data })]: the identifier and the two time
    stamps are filled in by the store.  An e-mail address without a row in
    [User] violates the foreign key, an identifier already in use the
    primary key. *)
Definition workspace_create (name repo email : string) : M Workspace :=
  d <- get_db ;;
  wid <- ask new_workspace_id ;;
  t <- ask now ;;
  match users d !! email, workspaces d !! wid with
  | Some _, None =>
      let w := mkWorkspace wid name repo email t t in
      emit (EvCreateWorkspace wid) ;;;
      put_db (mkDb (users d) (<[wid := w]> (workspaces d)) (analyses d)) ;;;
      ret w
  | _, _ => throw
  end.

(** An analysis carries this identifier already. *)
Definition analysis_id_used (aid : string) (d : Db) : bool :=
  existsb (fun a => String.eqb (an_id a) aid)
    (map snd (map_to_list (analyses d))).

(** [prisma.analysis.create({ data })]: the identifier and the time stamps
    are filled in by the store, the columns not given take their defaults.
    The external identifier and the status have to fit their columns.  A
    second analysis for the same workspace violates the unique index, one
    for no workspace the foreign key, an identifier already in use the
    primary key. *)
Definition analysis_create (wid : string) (ext st : Json)
  (su ru : option string) : M Analysis :=
  match text_column_null ext, text_column st with
  | Some ext, Some st =>
      d <- get_db ;;
      aid <- ask new_analysis_id ;;
      t <- ask now ;;
      if analysis_id_used aid d then throw else
      match analyses d !! wid, workspaces d !! wid with
      | None, Some _ =>
          let a :=
            mkAnalysis aid wid ext st None None None su ru None t None t in
          emit (EvCreateAnalysis wid) ;;;
          put_db (mkDb (users d) (workspaces d) (<[wid := a]> (analyses d)))
          ;;;
          ret a
      | _, _ => throw
      end
  | _, _ => throw
  end.

(** [analyzeData?.f] *)
Definition chain (f : AnalyzeData -> option Json) (ad : option AnalyzeData)
  : option Json :=
  match ad with
  | Some a => f a
  | None => None
  end.

(** [u ? (u.startsWith('http') ? u : `${base}${u}`) : null]: the URL to
    store, which may be [null]; or [None] where the expression throws,
    because [u] is truthy and has no method [startsWith]. *)
Definition normalize_url (u : option Json) : option (option string) :=
  match u with
  | Some (JStr s) =>
      if truthy_str s
      then Some (Some (if startsWith s "http" then s else base +:+ s))
      else Some None
  | Some v => if truthy v then None else Some None
  | None => Some None
  end.

Definition analyze_endpoint : string := "http://0.0.0.0:8000/api/analyze".

(** The first revision: no analysis is started. *)
Definition create_handler_plain (req : Request) : M HttpResponse :=
  if negb (String.eqb (method req) "POST")
  then respond 405 (PError "Method not allowed") else
  try_catch
    (match session_email req with
     | None => respond 401 (PError "Unauthorized")
     | Some email =>
       if negb (truthy_str email)
       then respond 401 (PError "Unauthorized") else
       match body req with
       | None => throw
       | Some b =>
         match body_name b, body_github_repository b with
         | Has name, repo =>
           if negb (truthy_str name) || negb (truthy_str (trim name))
           then respond 400 (PError "Workspace name is required") else
           match repo with
           | Has repo =>
             if negb (truthy_str repo) || negb (includes repo "github.com")
             then respond 400 (PError "Invalid GitHub repository URL") else
             workspace <- workspace_create (trim name) (trim repo) email ;;
             respond 201 (PWorkspace workspace)
           | _ => respond 400 (PError "Invalid GitHub repository URL")
           end
         | _, _ => respond 400 (PError "Workspace name is required")
         end
       end
     end)
    (respond 500 (PError "Internal server error")).

(** The part of the second revision that talks to the analyzer, inside its
    own [try]. *)
Definition start_analysis (workspace : Workspace) (repo : string)
  : M HttpResponse :=
  try_catch
    (analyzeResp <- fetch (EvPost analyze_endpoint)
                      (fun e => analyze_reply e (trim repo)
                                  (workspace_id workspace)) ;;
     let analyzeData := snd analyzeResp in
     statusUrl <- eval (normalize_url (chain ad_status_url analyzeData)) ;;
     resultUrl <- eval (normalize_url (chain ad_result_url analyzeData)) ;;
     analysis <- analysis_create (workspace_id workspace)
                   (js_nullish (chain ad_workspace_id analyzeData) JNull)
                   (js_nullish (chain ad_status analyzeData)
                      (JStr "pending"))
                   statusUrl resultUrl ;;
     respond 201
       (PCreated workspace
          (mkCreatedSummary (an_id analysis) (status analysis)
             (status_url analysis) (result_url analysis)
             (truthy_result (result analysis)))))
    (respond 201 (PWorkspace workspace)).

(** The second revision. *)
Definition create_handler (req : Request) : M HttpResponse :=
  if negb (String.eqb (method req) "POST")
  then respond 405 (PError "Method not allowed") else
  try_catch
    (match session_email req with
     | None => respond 401 (PError "Unauthorized")
     | Some email =>
       if negb (truthy_str email)
       then respond 401 (PError "Unauthorized") else
       match body req with
       | None => throw
       | Some b =>
         match body_name b, body_github_repository b with
         | Has name, repo =>
           if negb (truthy_str name) || negb (truthy_str (trim name))
           then respond 400 (PError "Workspace name is required") else
           match repo with
           | Has repo =>
             if negb (truthy_str repo) || negb (includes repo "github.com")
             then respond 400 (PError "Invalid GitHub repository URL") else
             workspace <- workspace_create (trim name) (trim repo) email ;;
             start_analysis workspace repo
           | _ => respond 400 (PError "Invalid GitHub repository URL")
           end
         | _, _ => respond 400 (PError "Workspace name is required")
         end
       end
     end)
    (respond 500 (PError "Internal server error")).

Definition createWorkspace (e : Env) (req : Request) (d : Db)
  : Outcome HttpResponse * Db * list Event :=
  run (create_handler req) e d.

(** ** POST sign-in: [pages/api/auth/signin.ts] *)

Definition item_of (w : Workspace) : WorkspaceItem :=
  mkWorkspaceItem (workspace_id w) (ws_name w) (github_repository w)
    (createdAt w).

(** [prisma.workspace.findMany({ where: { email }, select })]; the query
    names no order, and the rows come in the one the store keeps them
    in. *)
Definition workspace_findMany (email : string) : M (list WorkspaceItem) :=
  d <- get_db ;;
  ret (map item_of
         (List.filter (fun w => String.eqb (ws_email w) email)
            (map snd (map_to_list (workspaces d))))).

Definition signin_handler (req : Request) : M HttpResponse :=
  if negb (String.eqb (method req) "POST")
  then respond 405 (PRefused "Method not allowed") else
  try_catch
    (match session_email req with
     | None => respond 401 (PRefused "Unauthorized")
     | Some email =>
       if negb (truthy_str email)
       then respond 401 (PRefused "Unauthorized") else
       user <- user_findUnique email ;;
       match user with
       | None => user_create email
       | Some user => ret user
       end ;;;
       workspacesRaw <- workspace_findMany email ;;
       respond 200 (PSignedIn email workspacesRaw)
     end)
    (respond 500 (PRefused "Internal server error")).

Definition signIn (e : Env) (req : Request) (d : Db)
  : Outcome HttpResponse * Db * list Event :=
  run (signin_handler req) e d.

(** ** The polling loop: [pages/workspaces/[id].tsx] *)

(** The [analysis] property of the page's workspace: what GET workspace
    sends (a summary), or what GET status sends (the row). *)
Inductive ViewAnalysis : Type :=
| VNone
| VSummary (s : AnalysisSummary)
| VFull (a : Analysis).

Record WorkspaceData : Type := mkWorkspaceData {
  wd_workspace : Workspace;
  wd_analysis : ViewAnalysis
}.

Inductive PageRequest : Type :=
| ReqWorkspace
| ReqStatus.

(** The page: the ref and the React state of [WorkspacePage], the interval
    timers alive in the window, the requests sent so far (oldest first), and
    the number of callbacks suspended at each [await]. *)
Record Page : Type := mkPage {
  pollingRef : option positive;
  timers : list positive;
  next_handle : positive;
  workspace : option WorkspaceData;
  loading : bool;
  error : string;
  requests : list PageRequest;
  awaiting_load : nat;
  awaiting_status : nat;
  awaiting_final : nat
}.

Definition initial_page : Page :=
  mkPage None [] 1%positive None true "" [] 0 0 0.

Definition setWorkspace (f : option WorkspaceData -> option WorkspaceData)
  (p : Page) : Page :=
  mkPage (pollingRef p) (timers p) (next_handle p) (f (workspace p))
    (loading p) (error p) (requests p) (awaiting_load p) (awaiting_status p)
    (awaiting_final p).

Definition setLoading (b : bool) (p : Page) : Page :=
  mkPage (pollingRef p) (timers p) (next_handle p) (workspace p) b (error p)
    (requests p) (awaiting_load p) (awaiting_status p) (awaiting_final p).

Definition setError (s : string) (p : Page) : Page :=
  mkPage (pollingRef p) (timers p) (next_handle p) (workspace p) (loading p)
    s (requests p) (awaiting_load p) (awaiting_status p) (awaiting_final p).

(** [window.setInterval(callback, 2000)]: a fresh positive handle, stored in
    the ref. *)
Definition setInterval (p : Page) : Page :=
  mkPage (Some (next_handle p)) (next_handle p :: timers p)
    (Pos.succ (next_handle p)) (workspace p) (loading p) (error p)
    (requests p) (awaiting_load p) (awaiting_status p) (awaiting_final p).

(** [if (pollingRef.current) { clearInterval(pollingRef.current);
    pollingRef.current = null }] *)
Definition clear_polling (p : Page) : Page :=
  match pollingRef p with
  | Some h =>
      mkPage None (List.filter (fun h' => negb (Pos.eqb h' h)) (timers p))
        (next_handle p) (workspace p) (loading p) (error p) (requests p)
        (awaiting_load p) (awaiting_status p) (awaiting_final p)
  | None => p
  end.

(** [fetch(...)]: the request leaves. *)
Definition request (r : PageRequest) (p : Page) : Page :=
  mkPage (pollingRef p) (timers p) (next_handle p) (workspace p) (loading p)
    (error p) (requests p ++ [r]) (awaiting_load p) (awaiting_status p)
    (awaiting_final p).

(** Callbacks suspending at, or resuming from, an [await]. *)
Definition set_awaiting (l s f : nat) (p : Page) : Page :=
  mkPage (pollingRef p) (timers p) (next_handle p) (workspace p) (loading p)
    (error p) (requests p) l s f.

Definition pollStatus (p : Page) : Page :=
  match pollingRef p with
  | Some _ => p
  | None => setInterval (setLoading true (setError "" p))
  end.

(** [data.workspace], [data?.error], [data.status], [data.analysis] *)
Definition workspace_of (data : Payload) : option WorkspaceData :=
  match data with
  | PWorkspace w => Some (mkWorkspaceData w VNone)
  | PWorkspaceAnalysis w (Some s) => Some (mkWorkspaceData w (VSummary s))
  | PWorkspaceAnalysis w None => Some (mkWorkspaceData w VNone)
  | _ => None
  end.

Definition error_of (data : Payload) : Opt string :=
  match data with
  | PError msg | PRefused msg => Has msg
  | _ => Missing
  end.

Definition status_of (data : Payload) : option Json :=
  match data with
  | PStatus st _ => st
  | _ => None
  end.

Definition analysis_of (data : Payload) : Opt Analysis :=
  match data with
  | PStatus _ an => an
  | _ => Missing
  end.

(** [analysis && analysis.result], as a condition. *)
Definition carries_result (analysis : Opt Analysis) : bool :=
  match analysis with
  | Has a => truthy_result (result a)
  | _ => false
  end.

(** [!analysis || !analysis.hasResult] on the workspace just loaded. *)
Definition wants_polling (w : WorkspaceData) : bool :=
  match wd_analysis w with
  | VNone => true
  | VSummary s => negb (as_hasResult s)
  | VFull _ => true
  end.

(** The stop condition of the interval callback. *)
Definition terminal (data : Payload) : bool :=
  is_completed (status_of data) || carries_result (analysis_of data).

(** [fetchWorkspace] after its [await]s. *)
Definition on_loaded (r : Fetched Payload) (p : Page) : Page :=
  match r with
  | Resp false (Some data) =>
      setLoading false
        (setError (or_str (error_of data) "Failed to load workspace") p)
  | Resp true (Some data) =>
      match workspace_of data with
      | Some w =>
          let p := setWorkspace (fun _ => Some w) p in
          setLoading false (if wants_polling w then pollStatus p else p)
      | None =>
          setLoading false
            (setError "Failed to load workspace"
               (setWorkspace (fun _ => None) p))
      end
  | _ => setLoading false (setError "Failed to load workspace" p)
  end.

(** The interval callback after [await fetch] and [await res.json()]. *)
Definition on_polled (r : Fetched Payload) (p : Page) : Page :=
  match r with
  | Resp false (Some data) =>
      setLoading false
        (clear_polling
           (setError (or_str (error_of data) "Failed to fetch status") p))
  | Resp true (Some data) =>
      let analysis := analysis_of data in
      let p :=
        match analysis with
        | Has a =>
            setWorkspace
              (option_map (fun prev =>
                 mkWorkspaceData (wd_workspace prev) (VFull a))) p
        | _ => p
        end in
      if terminal data then
        let p := clear_polling p in
        if negb (carries_result analysis)
        then set_awaiting (awaiting_load p) (awaiting_status p)
               (S (awaiting_final p)) (request ReqWorkspace p)
        else setLoading false p
      else p
  | _ => clear_polling (setLoading false (setError "Polling failed" p))
  end.

(** The interval callback after the [await]s of its last fetch. *)
Definition on_final (r : Fetched Payload) (p : Page) : Page :=
  match r with
  | Resp true (Some data) =>
      setLoading false (setWorkspace (fun _ => workspace_of data) p)
  | _ => setLoading false p
  end.

Inductive PageEvent : Type :=
| Mount
| Loaded (r : Fetched Payload)
| Tick (h : positive)
| Polled (r : Fetched Payload)
| Finalised (r : Fetched Payload)
| Unmount.

(** One turn of the event loop; [None] when the event cannot happen in this
    state: a timer that is not alive does not fire, and nothing resumes that
    was not suspended.  [Mount] is the effect on the route's [id] running
    [fetchWorkspace]; [Tick h] is timer [h] firing, which sends the status
    request. *)
Definition page_step (p : Page) (ev : PageEvent) : option Page :=
  match ev with
  | Mount =>
      let p := request ReqWorkspace (setLoading true p) in
      Some (set_awaiting (S (awaiting_load p)) (awaiting_status p)
              (awaiting_final p) p)
  | Loaded r =>
      match awaiting_load p with
      | S n =>
          Some (on_loaded r
                  (set_awaiting n (awaiting_status p) (awaiting_final p) p))
      | O => None
      end
  | Tick h =>
      if existsb (Pos.eqb h) (timers p)
      then Some (set_awaiting (awaiting_load p) (S (awaiting_status p))
                   (awaiting_final p) (request ReqStatus p))
      else None
  | Polled r =>
      match awaiting_status p with
      | S n =>
          Some (on_polled r
                  (set_awaiting (awaiting_load p) n (awaiting_final p) p))
      | O => None
      end
  | Finalised r =>
      match awaiting_final p with
      | S n =>
          Some (on_final r
                  (set_awaiting (awaiting_load p) (awaiting_status p) n p))
      | O => None
      end
  | Unmount => Some (clear_polling p)
  end.

Fixpoint page_run (p : Page) (evs : list PageEvent) : option Page :=
  match evs with
  | [] => Some p
  | ev :: evs' =>
      match page_step p ev with
      | Some p' => page_run p' evs'
      | None => None
      end
  end.

(** The states the page can be in. *)
Definition page_reachable (p : Page) : Prop :=
  exists evs, page_run initial_page evs = Some p.

(** Status requests sent so far. *)
Definition status_requests (p : Page) : nat :=
  length (List.filter
            (fun r => match r with ReqStatus => true | _ => false end)
            (requests p)).

(** An event that starts a poll loop anew. *)
Definition is_load (ev : PageEvent) : bool :=
  match ev with
  | Loaded _ => true
  | _ => false
  end.

(** ** Vocabulary of the properties *)

(** A status request that passes the checks on [id] and on the session. *)
Definition valid_status_request (req : Request) (id : string) : Prop :=
  query_id req = QOne id /\ truthy_str id = true /\
  truthy_col (session_email req) = true.

(** The row knows where to ask: it has a status URL or an external id. *)
Definition has_job (a : Analysis) : bool :=
  truthy_col (status_url a) || truthy_col (external_workspace_id a).

(** What the analyzer may put into a property for the store to take it:
    nothing, [null] or a string for a TEXT column; nothing, [null] or an
    integer of 32 bits for the INTEGER column; and for a property that is
    used only when truthy, anything falsy or a string. *)
Definition is_string (x : option Json) : bool :=
  match x with
  | Some (JStr _) => true
  | _ => false
  end.

Definition null_or_string (x : option Json) : bool :=
  negb (non_null x) || is_string x.

Definition falsy_or_string (x : option Json) : bool :=
  negb (truthy_result x) || is_string x.

Definition null_or_int32 (x : option Json) : bool :=
  match x with
  | None | Some JNull => true
  | Some (JNum n) => int32 n
  | Some _ => false
  end.

(** The status response carries nothing that its column cannot hold. *)
Definition storable (sd : StatusData) : bool :=
  falsy_or_string (sd_status sd) && null_or_int32 (sd_progress sd)
  && null_or_string (sd_message sd) && null_or_string (sd_current_step sd).

(** The progress of a stored row is one the column can hold. *)
Definition progress_ok (a : Analysis) : bool :=
  match progress a with
  | Some n => int32 n
  | None => true
  end.

(** The submit response carries nothing the create endpoint stumbles
    over. *)
Definition usable (analyzeData : option AnalyzeData) : bool :=
  match analyzeData with
  | Some ad =>
      null_or_string (ad_workspace_id ad) && null_or_string (ad_status ad)
      && falsy_or_string (ad_status_url ad)
      && falsy_or_string (ad_result_url ad)
  | None => true
  end.

(** The row once the status merge [f] is written, and the database then. *)
Definition merged_row (e : Env) (f : StatusFields) (a : Analysis)
  : Analysis :=
  touch (now e) (set_status_fields f a).

Definition merged_db (e : Env) (id : string) (f : StatusFields)
  (a : Analysis) (d : Db) : Db :=
  mkDb (users d) (workspaces d) (<[id := merged_row e f a]> (analyses d)).

(** The row once the result is written on top of the merge. *)
Definition completed_row (e : Env) (f : StatusFields) (doc : Json)
  (a : Analysis) : Analysis :=
  touch (now e) (store_result doc (now e) (merged_row e f a)).

(** [checkStatus] called again and again, each time against whatever the
    analyzer and the clock are then: the responses, the database at the end,
    all effects. *)
Fixpoint checkStatus_many (es : list Env) (req : Request) (d : Db)
  : list (Outcome HttpResponse) * Db * list Event :=
  match es with
  | [] => ([], d, [])
  | e :: es' =>
      let '(o, d1, l1) := checkStatus e req d in
      let '(os, d2, l2) := checkStatus_many es' req d1 in
      (o :: os, d2, (l1 ++ l2)%list)
  end.

(** A create request that passes the checks on the method, the session and
    the body. *)
Definition valid_create_request (req : Request) (email name repo : string)
  : Prop :=
  method req = "POST" /\ session_email req = Some email /\
  truthy_str email = true /\
  body req = Some (mkBody (Has name) (Has repo)) /\
  truthy_str name = true /\ truthy_str (trim name) = true /\
  truthy_str repo = true /\ includes repo "github.com" = true.

(** The workspace that a valid create request stores. *)
Definition new_workspace (e : Env) (email name repo : string) : Workspace :=
  mkWorkspace (new_workspace_id e) (trim name) (trim repo) email (now e)
    (now e).

(** The row that the create endpoint stores for an analyzer reply, where it
    stores one. *)
Definition initial_analysis (aid wid : string) (t : Time)
  (analyzeData : option AnalyzeData) : option Analysis :=
  su ← normalize_url (chain ad_status_url analyzeData);
  ru ← normalize_url (chain ad_result_url analyzeData);
  ext ← text_column_null
          (js_nullish (chain ad_workspace_id analyzeData) JNull);
  st ← text_column
         (js_nullish (chain ad_status analyzeData) (JStr "pending"));
  Some (mkAnalysis aid wid ext st None None None su ru None t None t).

(** The endpoints. *)
Inductive Endpoint : Type :=
| GetStatus
| GetWorkspace
| GetWorkspacePlain
| PostWorkspace
| PostWorkspacePlain
| PostSignin.

Definition handler (ep : Endpoint) : Request -> M HttpResponse :=
  match ep with
  | GetStatus => status_handler
  | GetWorkspace => workspace_handler
  | GetWorkspacePlain => workspace_handler_plain
  | PostWorkspace => create_handler
  | PostWorkspacePlain => create_handler_plain
  | PostSignin => signin_handler
  end.

Definition db_after (ep : Endpoint) (e : Env) (req : Request) (d : Db) : Db :=
  snd (fst (run (handler ep req) e d)).

(** The databases that requests can produce, starting from empty tables. *)
Inductive db_reachable : Db -> Prop :=
| reach_empty : db_reachable empty_db
| reach_request ep e req d :
    db_reachable d -> db_reachable (db_after ep e req d).

(** The foreign key of [Analysis]: every analysis belongs to a workspace. *)
Definition db_wf (d : Db) : Prop :=
  forall id, is_Some (analyses d !! id) -> is_Some (workspaces d !! id).

(** The foreign key of [Workspace]: every workspace belongs to a user. *)
Definition owners_exist (d : Db) : Prop :=
  forall id w, workspaces d !! id = Some w ->
    is_Some (users d !! ws_email w).

(** A row that has a result has its completion time. *)
Definition completed_if_result (a : Analysis) : Prop :=
  result a <> Some JNull /\
  (result a <> None -> completedAt a <> None).

Definition rows_ok (P : Analysis -> Prop) (d : Db) : Prop :=
  forall id a, analyses d !! id = Some a -> P a.

(** The states of the tables that a request leaves behind on its way. *)
Definition states_written (ep : Endpoint) (e : Env) (req : Request) (d : Db)
  : list Db :=
  seen (snd (handler ep req e (mkWorld d [] []))).

(** The databases that can be observed: the reachable ones, and the ones a
    request writes on its way from a reachable one. *)
Definition db_observable (d' : Db) : Prop :=
  db_reachable d' \/
  exists ep e req d, db_reachable d /\ In d' (states_written ep e req d).

(** [I] holds of the tables now and held after every write so far. *)
Definition world_ok (I : Db -> Prop) (w : World) : Prop :=
  I (db w) /\ Forall I (seen w).

(** A Hoare triple for handler fragments: from a world in which the tables
    satisfied [I] all along, the fragment leaves such a world, whether it
    returns or throws, and a returned value satisfies [Q]. *)
Definition triple {A : Type} (I : Db -> Prop) (m : M A) (Q : A -> Prop)
  : Prop :=
  forall e w, world_ok I w ->
    world_ok I (snd (m e w)) /\
    match fst (m e w) with
    | Val a => Q a
    | Exn => True
    end.

Ltac hsimpl :=
  cbv beta iota zeta delta
    [checkStatus getWorkspace createWorkspace signIn run status_handler
     workspace_handler workspace_handler_plain create_handler
     create_handler_plain start_analysis signin_handler try_catch bind ret
     throw respond fetch json eval emit ask get_db put_db
     analysis_findUnique workspace_findUnique user_findUnique
     workspace_findMany analysis_update analysis_create workspace_create
     user_create];
  cbn [db log seen fst snd analyses workspaces users workspace_id body_name
       body_github_repository negb andb orb app option_map].

Ltac hrew H := rewrite H; hsimpl.

Ltac enter_status H :=
  let Hq := fresh "Hq" in
  let Hid := fresh "Hid" in
  let Hs := fresh "Hs" in
  destruct H as (Hq & Hid & Hs); hsimpl; rewrite Hq, Hid, Hs; hsimpl.



(** A relative path, as in ["/api/status/abc"], and an absolute URL of the
    analyzer. *)
Definition relative_path (p : string) : bool := startsWith p "/".

Definition absolute_url (u : string) : bool :=
  startsWith u "http://" || startsWith u "https://".

(** The caller has a row in [User]. *)
Definition has_user (d : Db) (email : string) : Prop :=
  is_Some (users d !! email).

(** The identifiers the store is about to hand out are not in use. *)
Definition fresh_id (e : Env) (d : Db) : Prop :=
  workspaces d !! new_workspace_id e = None.

Definition fresh_analysis_id (e : Env) (d : Db) : Prop :=
  analysis_id_used (new_analysis_id e) d = false.

(** The database once the new workspace is written. *)
Definition with_workspace (w : Workspace) (d : Db) : Db :=
  mkDb (users d) (<[workspace_id w := w]> (workspaces d)) (analyses d).

(** The database once the new workspace and its analysis are written. *)
Definition with_analysis (w : Workspace) (a : Analysis) (d : Db) : Db :=
  mkDb (users d) (<[workspace_id w := w]> (workspaces d))
    (<[workspace_id w := a]> (analyses d)).

(** The only interval timer alive is the one the ref points to. *)
Definition page_inv (p : Page) : Prop :=
  timers p = match pollingRef p with
             | Some h => [h]
             | None => []
             end.

(** The poll loop is off: no timer alive, nothing in the ref. *)
Definition stopped (p : Page) : Prop :=
  pollingRef p = None /\ timers p = [].

(** What the interval callback got back makes it stop: a transport or
    backend error, or a terminal response. *)
Definition stops (r : Fetched Payload) : bool :=
  match r with
  | Resp true (Some data) => terminal data
  | _ => true
  end.

(** ** checkStatus as a decision table *)

(** Every path of the status handler side by side: the response, the
    tables afterwards and the effects, read off the handler's branches. *)
Definition checkStatus_table (e : Env) (req : Request) (d : Db)
  : Outcome HttpResponse * Db * list Event :=
  let answer c p := (Val (mkResponse c p), d, @nil Event) in
  match query_id req with
  | QOne id =>
    if negb (truthy_str id) then answer 400 (PError "Invalid id") else
    if negb (truthy_col (session_email req))
    then answer 401 (PError "Unauthorized") else
    match analyses d !! id with
    | None => answer 404 (PError "No analysis record")
    | Some a =>
      if truthy_result (result a)
      then answer 200 (PStatus (Some (JStr "completed")) (Has a)) else
      if negb (has_job a)
      then answer 200
             (PStatus (Some (JStr (or_str (Has (status a)) "pending")))
                Missing)
      else
      let s := EvGet (statusUrl_of a) in
      let internal := mkResponse 500 (PError "Internal server error") in
      match status_reply e (statusUrl_of a) with
      | Resp true (Some sd) =>
        match merged_fields sd a with
        | Some f =>
          let d1 := merged_db e id f a d in
          let u := EvUpdateAnalysis id in
          if is_completed (sd_status sd) then
            let r := EvGet (resultUrl_of a sd) in
            match result_reply e (resultUrl_of a sd) with
            | Resp true (Some doc) =>
                (Val (mkResponse 200
                        (PStatus (Some (JStr "completed"))
                           (Has (completed_row e f doc a)))),
                 mkDb (users d) (workspaces d)
                   (<[id := completed_row e f doc a]> (analyses d)),
                 [s; u; r; u])
            | Resp false _ =>
                (Val (mkResponse 502
                        (PError "Failed to fetch result from analyzer")),
                 d1, [s; u; r])
            | _ => (Val internal, d1, [s; u; r])
            end
          else
            (Val (mkResponse 200
                    (PStatus (sd_status sd) (Has (merged_row e f a)))),
             d1, [s; u])
        | None => (Val internal, d, [s])
        end
      | Resp false _ =>
          (Val (mkResponse 502
                  (PError "Failed to fetch status from analyzer")), d, [s])
      | _ => (Val internal, d, [s])
      end
    end
  | _ => answer 400 (PError "Invalid id")
  end.

(** The columns of a row that checkStatus never writes. *)
Definition same_identity (a a' : Analysis) : Prop :=
  an_id a' = an_id a /\ workspaceId a' = workspaceId a /\
  external_workspace_id a' = external_workspace_id a /\
  status_url a' = status_url a /\ result_url a' = result_url a /\
  startedAt a' = startedAt a.

(** The shapes the effects of one checkStatus can take. *)
Definition status_effects_shape (id : string) (l : list Event) : Prop :=
  l = [] \/
  (exists s, l = [EvGet s]) \/
  (exists s, l = [EvGet s; EvUpdateAnalysis id]) \/
  (exists s r, l = [EvGet s; EvUpdateAnalysis id; EvGet r]) \/
  (exists s r,
     l = [EvGet s; EvUpdateAnalysis id; EvGet r; EvUpdateAnalysis id]).

(** [session.user.email] is missing or empty. *)
Definition signed_out (req : Request) : Prop :=
  truthy_col (session_email req) = false.

(** A GET workspace request that passes the checks on [id] and on the
    session. *)
Definition valid_workspace_request (req : Request) (id email : string)
  : Prop :=
  query_id req = QOne id /\ truthy_str id = true /\
  session_email req = Some email /\ truthy_str email = true.

(** The workspace exists and belongs to [email]. *)
Definition owned_by (d : Db) (id email : string) (w : Workspace) : Prop :=
  workspaces d !! id = Some w /\ String.eqb (ws_email w) email = true.

(** No white space at either end. *)
Definition starts_clean (s : string) : Prop :=
  match s with
  | String c _ => is_space c = false
  | EmptyString => True
  end.

Fixpoint ends_clean (s : string) : Prop :=
  match s with
  | EmptyString => True
  | String c EmptyString => is_space c = false
  | String _ s' => ends_clean s'
  end.

(** Keys and rows agree: a workspace sits under its own id, an analysis
    under the id of its workspace, and that workspace exists. *)
Definition keys_agree (d : Db) : Prop :=
  (forall id w, workspaces d !! id = Some w -> workspace_id w = id) /\
  (forall id a, analyses d !! id = Some a ->
     workspaceId a = id /\ is_Some (workspaces d !! id)).

(** ** The dashboard form *)

(** [formData] *)
Record FormData : Type := mkFormData {
  fd_name : string;
  fd_github_repository : string
}.

(** [validateForm]: its verdict and the [formError] it leaves. *)
Definition validateForm (fd : FormData) : bool * string :=
  if negb (truthy_str (trim (fd_name fd)))
  then (false, "Workspace name is required") else
  if negb (truthy_str (trim (fd_github_repository fd)))
  then (false, "GitHub URL is required") else
  if negb (includes (fd_github_repository fd) "github.com")
     && negb (includes (fd_github_repository fd) "github.com/")
  then (false, "Please enter a valid GitHub URL")
  else (true, "").

(** The request that [handleConnect] sends, if the form lets it: a POST of
    [formData] as it stands, under the browser's session. *)
Definition handleConnect (fd : FormData) (session : option string)
  : option Request :=
  if fst (validateForm fd)
  then Some (mkRequest "POST" QMissing session
               (Some (mkBody (Has (fd_name fd))
                        (Has (fd_github_repository fd)))))
  else None.

(** ** The page and the server together *)

(** [res.ok] *)
Definition is_ok (c : Z) : bool := (200 <=? c) && (c <=? 299).

(** A handler's answer as the page's [fetch] receives it. *)
Definition deliver (o : Outcome HttpResponse * Db * list Event)
  : Fetched Payload :=
  match fst (fst o) with
  | Val r => Resp (is_ok (code r)) (Some (payload r))
  | Exn => NetworkError
  end.

(** Timer firings in a run of events. *)
Definition ticks (evs : list PageEvent) : nat :=
  length (List.filter (fun ev => match ev with Tick _ => true | _ => false end)
            evs).

(** ** Sample data *)

Module Sample.

Definition alice : string := "alice@example.com".
Definition bob : string := "bob@example.com".

(** Both have signed in before. *)
Definition people : gmap string User :=
  <[ bob := mkUser bob 20 20 ]> {[ alice := mkUser alice 10 10 ]}.

Definition ws : Workspace :=
  mkWorkspace "w1" "demo" "https://github.com/x/y" alice 100 100.

(** A submitted analysis with progress 40 and no result. *)
Definition submitted : Analysis :=
  mkAnalysis "a1" "w1" (Some "ext-1") "running" (Some 40) None None None None
    None 100 None 100.

(** A completed analysis whose result document is an object. *)
Definition done : Analysis :=
  mkAnalysis "a1" "w1" (Some "ext-1") "completed" (Some 100) None None None
    None (Some (JObj [("project_summary", JStr "ok")])) 100 (Some 200) 200.

Definition db_with (a : Analysis) : Db :=
  mkDb people {[ "w1" := ws ]} {[ "w1" := a ]}.

Definition db_no_analysis : Db := mkDb people {[ "w1" := ws ]} ∅.

Definition get_status (who : string) : Request :=
  mkRequest "GET" (QOne "w1") (Some who) None.

Definition post_demo : Request :=
  mkRequest "POST" QMissing (Some alice)
    (Some (mkBody (Has "demo") (Has "https://github.com/x/y"))).

Definition signin_request (who : string) : Request :=
  mkRequest "POST" QMissing (Some who) None.

(** An analyzer that cannot be reached. *)
Definition offline : Env :=
  mkEnv (fun _ _ => NetworkError) (fun _ => NetworkError)
    (fun _ => NetworkError) 300 "w2" "a2".

(** An analyzer that answers every request with a non-success response. *)
Definition failing : Env :=
  mkEnv (fun _ _ => Resp false None) (fun _ => Resp false None)
    (fun _ => Resp false None) 300 "w2" "a2".

(** An analyzer whose status endpoint says [running] with no progress, and
    whose other endpoints fail. *)
Definition running_sd : StatusData :=
  mkStatusData (Some (JStr "running")) None None None None.

Definition running : Env :=
  mkEnv (fun _ _ => Resp false None) (fun _ => Resp true (Some running_sd))
    (fun _ => Resp false None) 300 "w2" "a2".

(** An analyzer whose status endpoint says [running] with a progress of
    55, a message and a [null] step. *)
Definition progress_sd : StatusData :=
  mkStatusData (Some (JStr "running")) (Some (JNum 55))
    (Some (JStr "cloning")) (Some JNull) None.

Definition progressing : Env :=
  mkEnv (fun _ _ => Resp false None) (fun _ => Resp true (Some progress_sd))
    (fun _ => Resp false None) 300 "w2" "a2".



(** An analyzer whose status endpoint says [completed] and whose result
    endpoint fails. *)
Definition completed_sd : StatusData :=
  mkStatusData (Some (JStr "completed")) (Some (JNum 100)) None None None.

Definition result_down : Env :=
  mkEnv (fun _ _ => Resp false None) (fun _ => Resp true (Some completed_sd))
    (fun _ => Resp false None) 300 "w2" "a2".

(** An analyzer that accepts a submission and names a relative status URL. *)
Definition accepted_ad : AnalyzeData :=
  mkAnalyzeData (Some (JStr "ext-1")) (Some (JStr "pending"))
    (Some (JStr "/api/status/abc"))
    (Some (JStr "https://analyzer.example/api/result/abc")).

Definition accepting : Env :=
  mkEnv (fun _ _ => Resp true (Some accepted_ad)) (fun _ => NetworkError)
    (fun _ => NetworkError) 300 "w2" "a2".

(** An analyzer that turns a submission down with a non-success status and
    the same body. *)
Definition refusing : Env :=
  mkEnv (fun _ _ => Resp false (Some accepted_ad)) (fun _ => NetworkError)
    (fun _ => NetworkError) 300 "w2" "a2".

(** An analyzer that answers a submission with a number where the status
    URL should be. *)
Definition odd_ad : AnalyzeData :=
  mkAnalyzeData (Some (JStr "ext-1")) (Some (JStr "pending"))
    (Some (JNum 5)) None.

Definition answering_odd : Env :=
  mkEnv (fun _ _ => Resp true (Some odd_ad)) (fun _ => NetworkError)
    (fun _ => NetworkError) 300 "w2" "a2".

(** An analyzer that names a path without a leading slash and an absolute
    URL whose scheme is written in capitals. *)
Definition loose_ad : AnalyzeData :=
  mkAnalyzeData (Some (JStr "ext-1")) (Some (JStr "pending"))
    (Some (JStr "api/status/abc"))
    (Some (JStr "HTTPS://analyzer.example/api/result/abc")).

Definition answering_loose : Env :=
  mkEnv (fun _ _ => Resp true (Some loose_ad)) (fun _ => NetworkError)
    (fun _ => NetworkError) 300 "w2" "a2".

(** The tables after alice has signed in, and after her submission to
    [accepting], starting from empty ones. *)
Definition db_signed : Db :=
  db_after PostSignin offline (signin_request alice) empty_db.

Definition db_created : Db :=
  db_after PostWorkspace accepting post_demo db_signed.

(** The analyzer reports [completed] and serves the number 0 as the result
    document. *)
Definition serving_zero : Env :=
  mkEnv (fun _ _ => Resp false None) (fun _ => Resp true (Some completed_sd))
    (fun _ => Resp true (Some (JNum 0))) 400 "w3" "a3".

(** The analyzer reports [completed] and serves [null] as the result
    document. *)
Definition serving_null : Env :=
  mkEnv (fun _ _ => Resp false None) (fun _ => Resp true (Some completed_sd))
    (fun _ => Resp true (Some JNull)) 400 "w3" "a3".

Definition get_status_w2 : Request :=
  mkRequest "GET" (QOne "w2") (Some alice) None.

(** The tables after the submission above and one status check against
    [serving_zero]; the row they hold for [w2]. *)
Definition db_zero : Db :=
  db_after GetStatus serving_zero get_status_w2 db_created.

Definition zero_row : Analysis :=
  mkAnalysis "a2" "w2" (Some "ext-1") "completed" (Some 100) None None
    (Some "http://0.0.0.0:8000/api/status/abc")
    (Some "https://analyzer.example/api/result/abc") (Some (JNum 0)) 300
    (Some 400) 400.

(** The same after a status check against [serving_null]. *)
Definition db_null : Db :=
  db_after GetStatus serving_null get_status_w2 db_created.

Definition null_row : Analysis :=
  mkAnalysis "a2" "w2" (Some "ext-1") "completed" (Some 100) None None
    (Some "http://0.0.0.0:8000/api/status/abc")
    (Some "https://analyzer.example/api/result/abc") None 300
    (Some 400) 400.

(** The row as a later status check returns it when the analyzer says
    [running] again. *)
Definition zero_row_running : Analysis :=
  mkAnalysis "a2" "w2" (Some "ext-1") "running" (Some 100) None None
    (Some "http://0.0.0.0:8000/api/status/abc")
    (Some "https://analyzer.example/api/result/abc") (Some (JNum 0)) 300
    (Some 400) 300.

(** What GET workspace sends for a workspace without an analysis, and what
    GET status sends for [zero_row] while the analyzer says [running]. *)
Definition loaded : Fetched Payload :=
  Resp true (Some (PWorkspaceAnalysis ws None)).

Definition running_with_zero : Fetched Payload :=
  Resp true
    (Some (PStatus (Some (JStr "running")) (Has zero_row_running))).

Definition completed_reply : Fetched Payload :=
  Resp true (Some (PStatus (Some (JStr "completed")) (Has done))).

(** The page once it has loaded that workspace and its timer has fired
    once; the page after each of the two replies. *)
Definition polling : Page :=
  Eval cbv in
    default initial_page
      (page_run initial_page [Mount; Loaded loaded; Tick 1%positive]).

Definition after_completed : Page :=
  Eval cbv in default polling (page_step polling (Polled completed_reply)).

Definition after_zero : Page :=
  Eval cbv in default polling (page_step polling (Polled running_with_zero)).

End Sample.

(** ** More sample data *)

Module More.

(** The analyzer reports [completed] and serves an object as the result. *)
Definition serving : Env :=
  mkEnv (fun _ _ => Resp false None)
    (fun _ => Resp true (Some Sample.completed_sd))
    (fun _ => Resp true (Some (JObj [("project_summary", JStr "ok")])))
    400 "w3" "a3".


(** The analyzer accepts a submission and names a status URL and nothing
    else; the tables after that submission. *)
Definition bare_ad : AnalyzeData :=
  mkAnalyzeData None None (Some (JStr "/api/status/abc")) None.

Definition accepting_bare : Env :=
  mkEnv (fun _ _ => Resp true (Some bare_ad)) (fun _ => NetworkError)
    (fun _ => NetworkError) 300 "w2" "a2".

Definition db_bare : Db :=
  db_after PostWorkspace accepting_bare Sample.post_demo Sample.db_signed.

Definition bare_row : Analysis :=
  mkAnalysis "a2" "w2" None "pending" None None None
    (Some "http://0.0.0.0:8000/api/status/abc") None None 300 None 300.

(** A create request whose name and URL come with white space around. *)
Definition post_padded : Request :=
  mkRequest "POST" QMissing (Some Sample.alice)
    (Some (mkBody (Has "  demo ") (Has " https://github.com/x/y  "))).

(** GET workspace for [w2], asked by [who]. *)
Definition get_w2 (who : string) : Request :=
  mkRequest "GET" (QOne "w2") (Some who) None.

(** Tables in which alice owns [w1] and bob owns [w9]. *)
Definition bobs : Workspace :=
  mkWorkspace "w9" "other" "https://github.com/b/c" Sample.bob 50 50.

Definition shared : Db :=
  mkDb Sample.people (<[ "w9" := bobs ]> {[ "w1" := Sample.ws ]}) ∅.

Definition demo_form : FormData :=
  mkFormData "demo" "https://github.com/x/y".

(** The page once its effect has run and [fetchWorkspace] is waiting. *)
Definition mounted : Page :=
  Eval cbv in default initial_page (page_run initial_page [Mount]).

End More.

(** * Properties *)

(** ** What the store takes *)

(** The value each column gets in the merge, by what the analyzer sent. *)
Lemma status_column (x : option Json) (stored : string) :
  text_column (js_or x (JStr stored))
  = if falsy_or_string x
    then Some (match x with
               | Some (JStr s) => if truthy_str s then s else stored
               | _ => stored
               end)
    else None.
Proof.
  unfold falsy_or_string, js_or.
  destruct x as [[|b|n|r|s|l|l]|]; cbn; try reflexivity.
  - destruct b; reflexivity.
  - destruct (n =? 0); reflexivity.
  - rewrite orb_true_r. destruct (truthy_str s); reflexivity.
Qed.

Lemma text_null_column (x : option Json) (stored : option string) :
  text_column_null (js_nullish x (of_text stored))
  = if null_or_string x
    then Some (match x with
               | Some (JStr s) => Some s
               | _ => stored
               end)
    else None.
Proof.
  destruct x as [[|b|n|r|s|l|l]|]; cbn; try reflexivity;
    destruct stored; reflexivity.
Qed.

Lemma int_null_column (x : option Json) (stored : option Z) :
  int_column_null (js_nullish x (of_int stored))
  = match x with
    | Some (JNum n) => if int32 n then Some (Some n) else None
    | Some JNull | None =>
        match stored with
        | Some n => if int32 n then Some stored else None
        | None => Some None
        end
    | Some _ => None
    end.
Proof.
  destruct x as [[|b|n|r|s|l|l]|]; cbn; try reflexivity;
    destruct stored; reflexivity.
Qed.


Lemma merged_fields_storable (sd : StatusData) (a : Analysis) :
  storable sd = true -> progress_ok a = true ->
  exists f, merged_fields sd a = Some f.
Proof.
  unfold storable, progress_ok, merged_fields. intros H Hp.
  apply andb_true_iff in H as [H Hcs]. apply andb_true_iff in H as [H Hms].
  apply andb_true_iff in H as [Hst Hpr].
  rewrite status_column, int_null_column, !text_null_column.
  rewrite Hst, Hms, Hcs. cbn.
  destruct (sd_progress sd) as [[|b|n|r|s|l|l]|]; cbn in Hpr;
    try discriminate; rewrite ?Hpr; cbn;
    try (destruct (progress a); rewrite ?Hp; cbn); eauto.
Qed.


(** ** checkStatus, branch by branch *)

Lemma checkStatus_cached e req id d a :
  valid_status_request req id -> analyses d !! id = Some a ->
  truthy_result (result a) = true ->
  checkStatus e req d
  = (Val (mkResponse 200 (PStatus (Some (JStr "completed")) (Has a))), d,
     []).
Proof.
  intros Hv Ha Hr. enter_status Hv. hrew Ha. hrew Hr. reflexivity.
Qed.

Lemma checkStatus_no_record e req id d :
  valid_status_request req id -> analyses d !! id = None ->
  checkStatus e req d
  = (Val (mkResponse 404 (PError "No analysis record")), d, []).
Proof.
  intros Hv Ha. enter_status Hv. hrew Ha. reflexivity.
Qed.

Lemma checkStatus_not_submitted e req id d a :
  valid_status_request req id -> analyses d !! id = Some a ->
  truthy_result (result a) = false -> has_job a = false ->
  checkStatus e req d
  = (Val (mkResponse 200
            (PStatus (Some (JStr (or_str (Has (status a)) "pending")))
               Missing)),
     d, []).
Proof.
  intros Hv Ha Hr Hj. enter_status Hv. hrew Ha. hrew Hr.
  unfold has_job in Hj. rewrite <- negb_orb, Hj. reflexivity.
Qed.

(** The handler up to the status fetch. *)
Ltac to_fetch Hv Ha Hr Hj :=
  enter_status Hv; hrew Ha; hrew Hr;
  unfold has_job in Hj; rewrite <- negb_orb, Hj; hsimpl.

Lemma checkStatus_not_ok e req id d a b :
  valid_status_request req id -> analyses d !! id = Some a ->
  truthy_result (result a) = false -> has_job a = true ->
  status_reply e (statusUrl_of a) = Resp false b ->
  checkStatus e req d
  = (Val (mkResponse 502 (PError "Failed to fetch status from analyzer")),
     d, [EvGet (statusUrl_of a)]).
Proof.
  intros Hv Ha Hr Hj Hrep. to_fetch Hv Ha Hr Hj. hrew Hrep. reflexivity.
Qed.

Lemma checkStatus_thrown e req id d a :
  valid_status_request req id -> analyses d !! id = Some a ->
  truthy_result (result a) = false -> has_job a = true ->
  status_reply e (statusUrl_of a) = NetworkError \/
  status_reply e (statusUrl_of a) = Resp true None ->
  checkStatus e req d
  = (Val (mkResponse 500 (PError "Internal server error")), d,
     [EvGet (statusUrl_of a)]).
Proof.
  intros Hv Ha Hr Hj [Hrep|Hrep]; to_fetch Hv Ha Hr Hj; hrew Hrep;
    reflexivity.
Qed.

Lemma checkStatus_rejected e req id d a sd :
  valid_status_request req id -> analyses d !! id = Some a ->
  truthy_result (result a) = false -> has_job a = true ->
  status_reply e (statusUrl_of a) = Resp true (Some sd) ->
  merged_fields sd a = None ->
  checkStatus e req d
  = (Val (mkResponse 500 (PError "Internal server error")), d,
     [EvGet (statusUrl_of a)]).
Proof.
  intros Hv Ha Hr Hj Hrep Hf. to_fetch Hv Ha Hr Hj. hrew Hrep.
  rewrite Hf. reflexivity.
Qed.

Lemma checkStatus_running e req id d a sd f :
  valid_status_request req id -> analyses d !! id = Some a ->
  truthy_result (result a) = false -> has_job a = true ->
  status_reply e (statusUrl_of a) = Resp true (Some sd) ->
  merged_fields sd a = Some f ->
  is_completed (sd_status sd) = false ->
  checkStatus e req d
  = (Val (mkResponse 200 (PStatus (sd_status sd) (Has (merged_row e f a)))),
     merged_db e id f a d, [EvGet (statusUrl_of a); EvUpdateAnalysis id]).
Proof.
  intros Hv Ha Hr Hj Hrep Hf Hc. to_fetch Hv Ha Hr Hj. hrew Hrep.
  rewrite Hf. hsimpl. hrew Ha. hrew Hc. rewrite lookup_insert_eq.
  reflexivity.
Qed.

Lemma checkStatus_result_not_ok e req id d a sd f b :
  valid_status_request req id -> analyses d !! id = Some a ->
  truthy_result (result a) = false -> has_job a = true ->
  status_reply e (statusUrl_of a) = Resp true (Some sd) ->
  merged_fields sd a = Some f ->
  is_completed (sd_status sd) = true ->
  result_reply e (resultUrl_of a sd) = Resp false b ->
  checkStatus e req d
  = (Val (mkResponse 502 (PError "Failed to fetch result from analyzer")),
     merged_db e id f a d,
     [EvGet (statusUrl_of a); EvUpdateAnalysis id;
      EvGet (resultUrl_of a sd)]).
Proof.
  intros Hv Ha Hr Hj Hrep Hf Hc Hres. to_fetch Hv Ha Hr Hj. hrew Hrep.
  rewrite Hf. hsimpl. hrew Ha. rewrite Hc, Hres. hsimpl. reflexivity.
Qed.

Lemma checkStatus_result_thrown e req id d a sd f :
  valid_status_request req id -> analyses d !! id = Some a ->
  truthy_result (result a) = false -> has_job a = true ->
  status_reply e (statusUrl_of a) = Resp true (Some sd) ->
  merged_fields sd a = Some f ->
  is_completed (sd_status sd) = true ->
  result_reply e (resultUrl_of a sd) = NetworkError \/
  result_reply e (resultUrl_of a sd) = Resp true None ->
  checkStatus e req d
  = (Val (mkResponse 500 (PError "Internal server error")),
     merged_db e id f a d,
     [EvGet (statusUrl_of a); EvUpdateAnalysis id;
      EvGet (resultUrl_of a sd)]).
Proof.
  intros Hv Ha Hr Hj Hrep Hf Hc [Hres|Hres]; to_fetch Hv Ha Hr Hj;
    hrew Hrep; rewrite Hf; hsimpl; hrew Ha; rewrite Hc, Hres; hsimpl;
    reflexivity.
Qed.

Lemma checkStatus_completed e req id d a sd f doc :
  valid_status_request req id -> analyses d !! id = Some a ->
  truthy_result (result a) = false -> has_job a = true ->
  status_reply e (statusUrl_of a) = Resp true (Some sd) ->
  merged_fields sd a = Some f ->
  is_completed (sd_status sd) = true ->
  result_reply e (resultUrl_of a sd) = Resp true (Some doc) ->
  checkStatus e req d
  = (Val (mkResponse 200
            (PStatus (Some (JStr "completed"))
               (Has (completed_row e f doc a)))),
     mkDb (users d) (workspaces d)
       (<[id := completed_row e f doc a]> (analyses d)),
     [EvGet (statusUrl_of a); EvUpdateAnalysis id;
      EvGet (resultUrl_of a sd); EvUpdateAnalysis id]).
Proof.
  intros Hv Ha Hr Hj Hrep Hf Hc Hres. to_fetch Hv Ha Hr Hj. hrew Hrep.
  rewrite Hf. hsimpl. hrew Ha. rewrite Hc, Hres. hsimpl.
  rewrite lookup_insert_eq. hsimpl. rewrite lookup_insert_eq.
  rewrite insert_insert_eq. reflexivity.
Qed.

(** The decision table is the handler. *)
Lemma checkStatus_is_table e req d :
  checkStatus e req d = checkStatus_table e req d.
Proof.
  unfold checkStatus_table.
  destruct (query_id req) as [|id|l] eqn:Hq;
    [hsimpl; rewrite Hq; reflexivity| |hsimpl; rewrite Hq; reflexivity].
  destruct (truthy_str id) eqn:Hid; cbn [negb];
    [|hsimpl; rewrite Hq, Hid; reflexivity].
  destruct (truthy_col (session_email req)) eqn:Hs; cbn [negb];
    [|hsimpl; rewrite Hq, Hid, Hs; reflexivity].
  assert (valid_status_request req id) as Hv by (repeat split; assumption).
  destruct (analyses d !! id) as [a|] eqn:Ha;
    [|eapply checkStatus_no_record; eassumption].
  destruct (truthy_result (result a)) eqn:Hr;
    [eapply checkStatus_cached; eassumption|].
  destruct (has_job a) eqn:Hj; cbn [negb];
    [|eapply checkStatus_not_submitted; eassumption].
  destruct (status_reply e (statusUrl_of a)) as [|[|] [sd|]] eqn:Hrep.
  - eapply checkStatus_thrown; eauto.
  - destruct (merged_fields sd a) as [f|] eqn:Hf;
      [|eapply checkStatus_rejected; eassumption].
    destruct (is_completed (sd_status sd)) eqn:Hc;
      [|eapply checkStatus_running; eassumption].
    destruct (result_reply e (resultUrl_of a sd)) as [|[|] [doc|]] eqn:Hres.
    + eapply checkStatus_result_thrown; eauto.
    + eapply checkStatus_completed; eassumption.
    + eapply checkStatus_result_thrown; eauto.
    + eapply checkStatus_result_not_ok; eassumption.
    + eapply checkStatus_result_not_ok; eassumption.
  - eapply checkStatus_thrown; eauto.
  - eapply checkStatus_not_ok; eassumption.
  - eapply checkStatus_not_ok; eassumption.
Qed.


(** ** The claims about checkStatus *)

(** C1 (as the code has it).  For every workspace whose Analysis has a
    truthy result (a result that is not [null], [false], [0] or the empty
    string; every object and array is truthy), every valid call to
    checkStatus short-circuits: it answers 200 with status [completed] and
    the stored Analysis, issues no analyzer call and performs no write; and
    calls repeated any number of times, whatever the analyzer and the clock
    are by then, give that same response each time and leave the database as
    it was. *)
Theorem C1_truthy_result_short_circuits e req id d a :
  valid_status_request req id -> analyses d !! id = Some a ->
  truthy_result (result a) = true ->
  checkStatus e req d
  = (Val (mkResponse 200 (PStatus (Some (JStr "completed")) (Has a))), d,
     []) /\
  forall es,
    checkStatus_many es req d
    = (map (fun _ =>
              Val (mkResponse 200
                     (PStatus (Some (JStr "completed")) (Has a))))
         es, d, []).
Proof.
  intros Hv Ha Hr. split.
  - eapply checkStatus_cached; eassumption.
  - induction es as [|e' es IH]; [reflexivity|].
    cbn [checkStatus_many map].
    rewrite (checkStatus_cached e' req id d a Hv Ha Hr), IH. reflexivity.
Qed.

Lemma C1_truthy_result_short_circuits_witness :
  checkStatus Sample.offline (Sample.get_status Sample.alice)
    (Sample.db_with Sample.done)
  = (Val (mkResponse 200
            (PStatus (Some (JStr "completed")) (Has Sample.done))),
     Sample.db_with Sample.done, []) /\
  forall es,
    checkStatus_many es (Sample.get_status Sample.alice)
      (Sample.db_with Sample.done)
    = (map (fun _ =>
              Val (mkResponse 200
                     (PStatus (Some (JStr "completed")) (Has Sample.done))))
         es, Sample.db_with Sample.done, []).
Proof.
  apply (C1_truthy_result_short_circuits Sample.offline
           (Sample.get_status Sample.alice) "w1"
           (Sample.db_with Sample.done) Sample.done).
  - repeat split; reflexivity.
  - reflexivity.
  - reflexivity.
Defined.

(** C1 as stated fails.  The analyzer serves the JSON number 0 as the result
    document; the handlers store it, so the Analysis has a result that is not
    null.  The next checkStatus does not short-circuit: it calls the
    analyzer again. *)
Lemma C1_counterexample :
  db_reachable Sample.db_zero /\
  valid_status_request Sample.get_status_w2 "w2" /\
  analyses Sample.db_zero !! "w2" = Some Sample.zero_row /\
  non_null (result Sample.zero_row) = true /\
  checkStatus Sample.failing Sample.get_status_w2 Sample.db_zero
  = (Val (mkResponse 502 (PError "Failed to fetch status from analyzer")),
     Sample.db_zero, [EvGet "http://0.0.0.0:8000/api/status/abc"]).
Proof.
  split; [do 3 apply reach_request; apply reach_empty|].
  split; [repeat split; reflexivity|].
  split; [vm_compute; reflexivity|]. split; [reflexivity|].
  vm_compute. reflexivity.
Qed.

(** C2 (as the code has it).  For every workspace id with no Analysis
    record, a valid call to checkStatus answers 404 with the error
    [No analysis record], issues no network call and writes nothing: the
    absence of a record is signalled as an error response. *)
Theorem C2_no_record_is_404 e req id d :
  valid_status_request req id -> analyses d !! id = None ->
  checkStatus e req d
  = (Val (mkResponse 404 (PError "No analysis record")), d, []).
Proof.
  intros Hv Ha. eapply checkStatus_no_record; eassumption.
Qed.

Lemma C2_no_record_is_404_witness :
  checkStatus Sample.offline (Sample.get_status Sample.alice)
    Sample.db_no_analysis
  = (Val (mkResponse 404 (PError "No analysis record")),
     Sample.db_no_analysis, []).
Proof.
  apply (C2_no_record_is_404 Sample.offline (Sample.get_status Sample.alice)
           "w1" Sample.db_no_analysis).
  - repeat split; reflexivity.
  - reflexivity.
Defined.

(** C2 as stated fails: with no Analysis record the response is not a
    [pending] status but the 404 error. *)
Lemma C2_counterexample :
  valid_status_request (Sample.get_status Sample.alice) "w1" /\
  analyses Sample.db_no_analysis !! "w1" = None /\
  fst (fst (checkStatus Sample.offline (Sample.get_status Sample.alice)
              Sample.db_no_analysis))
  = Val (mkResponse 404 (PError "No analysis record")) /\
  forall c an,
    fst (fst (checkStatus Sample.offline (Sample.get_status Sample.alice)
                Sample.db_no_analysis))
    <> Val (mkResponse c (PStatus (Some (JStr "pending")) an)).
Proof.
  split; [repeat split; reflexivity|]. split; [reflexivity|].
  split; [reflexivity|]. intros c an. vm_compute. discriminate.
Qed.

(** *** The merge *)










(** C6, where the code departs from it.  The workspace [w1] belongs to
    alice.  Asked by bob, GET workspace answers 404, but GET status answers
    200 with alice's analysis: the status handler reads the caller's e-mail
    and never compares it with the owner's. *)
Theorem C6_status_skips_ownership_check :
  ws_email Sample.ws = Sample.alice /\
  String.eqb Sample.bob Sample.alice = false /\
  workspaces (Sample.db_with Sample.done) !! "w1" = Some Sample.ws /\
  getWorkspace Sample.offline (Sample.get_status Sample.bob)
    (Sample.db_with Sample.done)
  = (Val (mkResponse 404 (PError "Workspace not found")),
     Sample.db_with Sample.done, []) /\
  checkStatus Sample.offline (Sample.get_status Sample.bob)
    (Sample.db_with Sample.done)
  = (Val (mkResponse 200
            (PStatus (Some (JStr "completed")) (Has Sample.done))),
     Sample.db_with Sample.done, []).
Proof.
  repeat split; vm_compute; reflexivity.
Qed.

(** What the workspace endpoints do, and the status endpoint does not: a
    workspace that is absent or owned by someone else is a 404. *)
Lemma getWorkspace_checks_owner e req id d email :
  query_id req = QOne id -> truthy_str id = true ->
  session_email req = Some email -> truthy_str email = true ->
  (workspaces d !! id = None \/
   exists w, workspaces d !! id = Some w /\
     String.eqb (ws_email w) email = false) ->
  getWorkspace e req d
  = (Val (mkResponse 404 (PError "Workspace not found")), d, []) /\
  run (workspace_handler_plain req) e d
  = (Val (mkResponse 404 (PError "Workspace not found")), d, []).
Proof.
  intros Hq Hid Hs He Hw. hsimpl. rewrite Hq, Hid, Hs, He. hsimpl.
  destruct Hw as [Hw | (w & Hw & Hne)]; rewrite Hw; hsimpl.
  - split; reflexivity.
  - rewrite Hne. split; reflexivity.
Qed.

(** The status endpoint answers the same whoever is signed in. *)
Lemma checkStatus_ignores_caller e req req' d :
  query_id req = query_id req' ->
  truthy_col (session_email req) = true ->
  truthy_col (session_email req') = true ->
  checkStatus e req d = checkStatus e req' d.
Proof.
  intros Hq Hs Hs'. hsimpl. rewrite Hq, Hs, Hs'. reflexivity.
Qed.

(** ** POST workspace *)

Lemma wf_fresh_analysis e d :
  db_wf d -> fresh_id e d -> analyses d !! new_workspace_id e = None.
Proof.
  intros Hwf Hfresh. destruct (analyses d !! new_workspace_id e) eqn:Ha; auto.
  destruct (Hwf (new_workspace_id e)) as [w Hw]; [eauto|].
  unfold fresh_id in Hfresh. congruence.
Qed.

(** What the create endpoint makes of each property of the analyzer's
    answer. *)
Lemma url_column (x : option Json) :
  normalize_url x
  = if falsy_or_string x
    then Some (match x with
               | Some (JStr s) =>
                   if truthy_str s
                   then Some (if startsWith s "http" then s else base +:+ s)
                   else None
               | _ => None
               end)
    else None.
Proof.
  unfold falsy_or_string, normalize_url.
  destruct x as [[|b|n|r|s|l|l]|]; cbn; try reflexivity.
  - destruct b; reflexivity.
  - destruct (n =? 0); reflexivity.
  - rewrite orb_true_r. destruct (truthy_str s); reflexivity.
Qed.

Lemma pending_column (x : option Json) :
  text_column (js_nullish x (JStr "pending"))
  = if null_or_string x
    then Some (match x with
               | Some (JStr s) => s
               | _ => "pending"
               end)
    else None.
Proof. destruct x as [[|b|n|r|s|l|l]|]; reflexivity. Qed.

Lemma external_id_column (x : option Json) :
  text_column_null (js_nullish x JNull)
  = if null_or_string x
    then Some (match x with
               | Some (JStr s) => Some s
               | _ => None
               end)
    else None.
Proof. exact (text_null_column x None). Qed.

Lemma initial_analysis_usable (aid wid : string) (t : Time)
  (analyzeData : option AnalyzeData) :
  initial_analysis aid wid t analyzeData
  = if usable analyzeData
    then Some (mkAnalysis aid wid
                 (match chain ad_workspace_id analyzeData with
                  | Some (JStr s) => Some s
                  | _ => None
                  end)
                 (match chain ad_status analyzeData with
                  | Some (JStr s) => s
                  | _ => "pending"
                  end)
                 None None None
                 (match chain ad_status_url analyzeData with
                  | Some (JStr s) =>
                      if truthy_str s
                      then Some (if startsWith s "http" then s
                                 else base +:+ s)
                      else None
                  | _ => None
                  end)
                 (match chain ad_result_url analyzeData with
                  | Some (JStr s) =>
                      if truthy_str s
                      then Some (if startsWith s "http" then s
                                 else base +:+ s)
                      else None
                  | _ => None
                  end)
                 None t None t)
    else None.
Proof.
  unfold initial_analysis.
  rewrite !url_column, pending_column, external_id_column.
  destruct analyzeData as [ad|]; [|reflexivity].
  unfold usable. cbn [chain].
  destruct (falsy_or_string (ad_status_url ad));
    [|rewrite !andb_false_r; reflexivity].
  destruct (falsy_or_string (ad_result_url ad));
    [|rewrite !andb_false_r; reflexivity].
  destruct (null_or_string (ad_workspace_id ad)); [|reflexivity].
  destruct (null_or_string (ad_status ad)); reflexivity.
Qed.

Lemma analysis_id_used_analyses (aid : string) (d : Db)
  (us : gmap string User) (wss : gmap string Workspace) :
  analysis_id_used aid (mkDb us wss (analyses d)) = analysis_id_used aid d.
Proof. reflexivity. Qed.

(** What a valid create request of a user with a row in [User] does, by the
    fate of the submit call. *)
Lemma createWorkspace_cases e req d email name repo :
  valid_create_request req email name repo -> has_user d email ->
  db_wf d -> fresh_id e d -> fresh_analysis_id e d ->
  let w := new_workspace e email name repo in
  let plain :=
    (Val (mkResponse 201 (PWorkspace w)), with_workspace w d,
     [EvCreateWorkspace (new_workspace_id e); EvPost analyze_endpoint]) in
  createWorkspace e req d
  = match analyze_reply e (trim repo) (new_workspace_id e) with
    | NetworkError => plain
    | Resp ok analyzeData =>
        match initial_analysis (new_analysis_id e) (new_workspace_id e)
                (now e) analyzeData with
        | Some a =>
            (Val (mkResponse 201
                    (PCreated w
                       (mkCreatedSummary (an_id a) (status a) (status_url a)
                          (result_url a) false))),
             with_analysis w a d,
             [EvCreateWorkspace (new_workspace_id e);
              EvPost analyze_endpoint;
              EvCreateAnalysis (new_workspace_id e)])
        | None => plain
        end
    end.
Proof.
  intros (Hm & Hs & He & Hb & Hn & Hnt & Hr & Hg) [u Hu] Hwf Hfresh Hfa w.
  pose proof (wf_fresh_analysis e d Hwf Hfresh) as Hna.
  unfold fresh_id in Hfresh. unfold fresh_analysis_id in Hfa.
  hsimpl. rewrite Hm, String.eqb_refl, Hs, He, Hb. hsimpl.
  rewrite Hn, Hnt, Hr, Hg. hsimpl.
  rewrite Hu, Hfresh. hsimpl.
  destruct (analyze_reply e (trim repo) (new_workspace_id e)) as [|ok ad];
    hsimpl; [reflexivity|].
  unfold initial_analysis.
  destruct (normalize_url (chain ad_status_url ad)) as [su|]; hsimpl;
    [|reflexivity].
  destruct (normalize_url (chain ad_result_url ad)) as [ru|]; hsimpl;
    [|reflexivity].
  destruct (text_column_null (js_nullish (chain ad_workspace_id ad) JNull))
    as [ext|]; hsimpl; [|reflexivity].
  destruct (text_column (js_nullish (chain ad_status ad) (JStr "pending")))
    as [st|]; hsimpl; [|reflexivity].
  rewrite analysis_id_used_analyses, Hfa, Hna, lookup_insert_eq. hsimpl.
  reflexivity.
Qed.

(** C7 (as the code has it).  If, once the workspace is stored, the
    submission to the analyzer throws (the analyzer cannot be reached, or
    its JSON answer carries a property the handler stumbles over: a truthy
    status_url or result_url that is no string, a status or workspace_id
    that is neither null nor a string), the workspace is created all the
    same: the response is 201 with the workspace, the workspace is in the
    store, no Analysis record exists for it, and the error goes no further
    than the handler's inner [catch].  An answer with a non-success status
    is no failure: whatever the status, an answer that is not JSON, or
    whose properties the handler can use, gets its Analysis record.  The
    request is a valid one of a caller who has a row in [User], and the
    identifiers that the store hands out are not in use. *)
Theorem C7_failed_submission_keeps_workspace e req d email name repo :
  valid_create_request req email name repo -> has_user d email ->
  db_wf d -> fresh_id e d -> fresh_analysis_id e d ->
  let w := new_workspace e email name repo in
  let wid := new_workspace_id e in
  (analyze_reply e (trim repo) wid = NetworkError \/
   (exists ok ad, analyze_reply e (trim repo) wid = Resp ok (Some ad) /\
      usable (Some ad) = false) ->
   createWorkspace e req d
   = (Val (mkResponse 201 (PWorkspace w)), with_workspace w d,
      [EvCreateWorkspace wid; EvPost analyze_endpoint]) /\
   workspaces (with_workspace w d) !! wid = Some w /\
   analyses (with_workspace w d) !! wid = None) /\
  (forall ok body,
     analyze_reply e (trim repo) wid = Resp ok body -> usable body = true ->
     exists a cs,
       createWorkspace e req d
       = (Val (mkResponse 201 (PCreated w cs)), with_analysis w a d,
          [EvCreateWorkspace wid; EvPost analyze_endpoint;
           EvCreateAnalysis wid]) /\
       workspaces (with_analysis w a d) !! wid = Some w /\
       analyses (with_analysis w a d) !! wid = Some a).
Proof.
  intros Hv Hu Hwf Hfresh Hfa w wid. subst wid.
  rewrite (createWorkspace_cases e req d email name repo Hv Hu Hwf Hfresh
             Hfa).
  split.
  - intros Hthrow.
    assert (analyses (with_workspace w d) !! new_workspace_id e = None)
      as Hna by exact (wf_fresh_analysis e d Hwf Hfresh).
    destruct Hthrow as [-> | (ok & ad & -> & Hbad)].
    + split; [reflexivity|]. split; [apply lookup_insert_eq|exact Hna].
    + rewrite initial_analysis_usable, Hbad.
      split; [reflexivity|]. split; [apply lookup_insert_eq|exact Hna].
  - intros ok body -> Hok. rewrite initial_analysis_usable, Hok.
    do 2 eexists. split; [reflexivity|].
    split; apply lookup_insert_eq.
Qed.

Lemma db_no_analysis_wf : db_wf Sample.db_no_analysis.
Proof.
  intros id [a Ha]. cbn in Ha. rewrite lookup_empty in Ha. discriminate.
Qed.

Lemma alice_has_user : has_user Sample.db_no_analysis Sample.alice.
Proof. eexists. vm_compute. reflexivity. Qed.

Lemma C7_failed_submission_keeps_workspace_witness :
  let w := mkWorkspace "w2" "demo" "https://github.com/x/y" Sample.alice
             300 300 in
  (createWorkspace Sample.offline Sample.post_demo Sample.db_no_analysis
   = (Val (mkResponse 201 (PWorkspace w)),
      with_workspace w Sample.db_no_analysis,
      [EvCreateWorkspace "w2"; EvPost analyze_endpoint]) /\
   workspaces (with_workspace w Sample.db_no_analysis) !! "w2" = Some w /\
   analyses (with_workspace w Sample.db_no_analysis) !! "w2" = None) /\
  (createWorkspace Sample.answering_odd Sample.post_demo
     Sample.db_no_analysis
   = (Val (mkResponse 201 (PWorkspace w)),
      with_workspace w Sample.db_no_analysis,
      [EvCreateWorkspace "w2"; EvPost analyze_endpoint]) /\
   workspaces (with_workspace w Sample.db_no_analysis) !! "w2" = Some w /\
   analyses (with_workspace w Sample.db_no_analysis) !! "w2" = None) /\
  (exists a cs,
     createWorkspace Sample.failing Sample.post_demo Sample.db_no_analysis
     = (Val (mkResponse 201 (PCreated w cs)),
        with_analysis w a Sample.db_no_analysis,
        [EvCreateWorkspace "w2"; EvPost analyze_endpoint;
         EvCreateAnalysis "w2"]) /\
     workspaces (with_analysis w a Sample.db_no_analysis) !! "w2" = Some w /\
     analyses (with_analysis w a Sample.db_no_analysis) !! "w2" = Some a).
Proof.
  split; [|split].
  - apply (proj1 (C7_failed_submission_keeps_workspace Sample.offline
                    Sample.post_demo Sample.db_no_analysis Sample.alice
                    "demo" "https://github.com/x/y"
                    ltac:(repeat split; reflexivity) alice_has_user
                    db_no_analysis_wf ltac:(reflexivity)
                    ltac:(reflexivity))).
    left. reflexivity.
  - apply (proj1 (C7_failed_submission_keeps_workspace Sample.answering_odd
                    Sample.post_demo Sample.db_no_analysis Sample.alice
                    "demo" "https://github.com/x/y"
                    ltac:(repeat split; reflexivity) alice_has_user
                    db_no_analysis_wf ltac:(reflexivity)
                    ltac:(reflexivity))).
    right. exists true, Sample.odd_ad. split; reflexivity.
  - apply (proj2 (C7_failed_submission_keeps_workspace Sample.failing
                    Sample.post_demo Sample.db_no_analysis Sample.alice
                    "demo" "https://github.com/x/y"
                    ltac:(repeat split; reflexivity) alice_has_user
                    db_no_analysis_wf ltac:(reflexivity)
                    ltac:(reflexivity)) false None);
      reflexivity.
Defined.

(** C7 as stated fails: a submission that the analyzer turns down with a
    non-success response is not treated as a failure; the workspace is
    created (201) and an Analysis record exists for it. *)
Lemma C7_counterexample :
  analyze_reply Sample.failing "https://github.com/x/y" "w2"
  = Resp false None /\
  (exists p,
     fst (fst (createWorkspace Sample.failing Sample.post_demo
                 Sample.db_no_analysis))
     = Val (mkResponse 201 p)) /\
  analyses (snd (fst (createWorkspace Sample.failing Sample.post_demo
                        Sample.db_no_analysis))) !! "w2"
  = Some (mkAnalysis "a2" "w2" None "pending" None None None None None None
            300 None 300).
Proof.
  split; [reflexivity|]. split; [eexists|]; vm_compute; reflexivity.
Qed.

(** *** URL normalisation *)

Lemma prefix_app_l (p1 p2 u : string) :
  String.prefix (p1 +:+ p2) u = true -> String.prefix p1 u = true.
Proof.
  revert u. induction p1 as [|c p1 IH]; intros u.
  - intros _. destruct u; reflexivity.
  - change (String c p1 +:+ p2) with (String c (p1 +:+ p2)).
    destruct u as [|c' u]; cbn; [discriminate|].
    destruct (ascii_dec c c'); [apply IH|discriminate].
Qed.

Lemma relative_path_truthy (p : string) :
  relative_path p = true ->
  truthy_str p = true /\ startsWith p "http" = false.
Proof.
  unfold relative_path, startsWith.
  destruct p as [|c p]; [intros H; vm_compute in H; discriminate|].
  change (String.prefix "/" (String c p))
    with (if ascii_dec "/" c then String.prefix "" p else false).
  destruct (ascii_dec "/" c) as [<-|]; [|discriminate].
  intros _. split; reflexivity.
Qed.

Lemma absolute_url_truthy (u : string) :
  absolute_url u = true ->
  truthy_str u = true /\ startsWith u "http" = true.
Proof.
  unfold absolute_url, startsWith. intros H.
  assert (String.prefix "http" u = true) as Hp.
  { apply orb_true_iff in H as [H|H].
    - apply (prefix_app_l "http" "://"), H.
    - apply (prefix_app_l "http" "s://"), H. }
  split; [|exact Hp].
  destruct u; [vm_compute in Hp; discriminate|reflexivity].
Qed.

(** C8 (as the code has it).  When the Analysis is created, a status_url or
    result_url that the analyzer returned as a non-empty string is stored
    by one rule: a string that starts with [http] is stored as it is, and
    any other string is stored with the analyzer's base
    [http://0.0.0.0:8000] put in front of it.  So a path with a leading
    slash (["/api/status/abc"]) is stored as [<base>/api/status/abc], and
    an absolute URL whose scheme is [http] or [https] in small letters is
    stored unchanged.  A property that is absent or falsy is stored as
    null.  The request is a valid one of a caller who has a row in [User],
    the identifiers that the store hands out are not in use, and the
    analyzer's answer is one the handler can use. *)
Theorem C8_urls_normalized_at_creation e req d email name repo ok ad :
  valid_create_request req email name repo -> has_user d email ->
  db_wf d -> fresh_id e d -> fresh_analysis_id e d ->
  analyze_reply e (trim repo) (new_workspace_id e) = Resp ok (Some ad) ->
  usable (Some ad) = true ->
  exists a,
    analyses (snd (fst (createWorkspace e req d))) !! new_workspace_id e
    = Some a /\
    (forall u, ad_status_url ad = Some (JStr u) -> truthy_str u = true ->
       status_url a = Some (if startsWith u "http" then u else base +:+ u)) /\
    (forall u, ad_result_url ad = Some (JStr u) -> truthy_str u = true ->
       result_url a = Some (if startsWith u "http" then u else base +:+ u)) /\
    (truthy_result (ad_status_url ad) = false -> status_url a = None) /\
    (truthy_result (ad_result_url ad) = false -> result_url a = None) /\
    (forall p, ad_status_url ad = Some (JStr p) -> relative_path p = true ->
       status_url a = Some (base +:+ p)) /\
    (forall u, ad_status_url ad = Some (JStr u) -> absolute_url u = true ->
       status_url a = Some u) /\
    (forall p, ad_result_url ad = Some (JStr p) -> relative_path p = true ->
       result_url a = Some (base +:+ p)) /\
    (forall u, ad_result_url ad = Some (JStr u) -> absolute_url u = true ->
       result_url a = Some u) /\
    (ad_status_url ad = Some (JStr "/api/status/abc") ->
       status_url a = Some "http://0.0.0.0:8000/api/status/abc").
Proof.
  intros Hv Hu Hwf Hfresh Hfa Hrep Hok.
  rewrite (createWorkspace_cases e req d email name repo Hv Hu Hwf Hfresh
             Hfa), Hrep, initial_analysis_usable, Hok.
  eexists.
  cbn [fst snd with_analysis analyses new_workspace workspace_id chain].
  split; [apply lookup_insert_eq|].
  cbn [status_url result_url].
  assert (forall x u, x = Some (JStr u) -> truthy_str u = true ->
            match x with
            | Some (JStr s) =>
                if truthy_str s
                then Some (if startsWith s "http" then s else base +:+ s)
                else None
            | _ => None
            end = Some (if startsWith u "http" then u else base +:+ u))
    as Hurl by (intros x u -> ->; reflexivity).
  assert (forall x, truthy_result x = false ->
            match x with
            | Some (JStr s) =>
                if truthy_str s
                then Some (if startsWith s "http" then s else base +:+ s)
                else None
            | _ => None
            end = None)
    as Hnone
    by (intros [[|b|n|r|s|l|l]|]; cbn; try reflexivity; intros ->;
        reflexivity).
  split; [intros u; apply Hurl|]. split; [intros u; apply Hurl|].
  split; [apply Hnone|]. split; [apply Hnone|].
  split; [|split; [|split; [|split]]].
  - intros p Hx Hp. destruct (relative_path_truthy p Hp) as [Ht Hh].
    rewrite (Hurl _ p Hx Ht), Hh. reflexivity.
  - intros u Hx Hp. destruct (absolute_url_truthy u Hp) as [Ht Hh].
    rewrite (Hurl _ u Hx Ht), Hh. reflexivity.
  - intros p Hx Hp. destruct (relative_path_truthy p Hp) as [Ht Hh].
    rewrite (Hurl _ p Hx Ht), Hh. reflexivity.
  - intros u Hx Hp. destruct (absolute_url_truthy u Hp) as [Ht Hh].
    rewrite (Hurl _ u Hx Ht), Hh. reflexivity.
  - intros Hx. rewrite (Hurl _ _ Hx eq_refl). reflexivity.
Qed.

Lemma C8_urls_normalized_at_creation_witness :
  exists a,
    analyses (snd (fst (createWorkspace Sample.accepting Sample.post_demo
                          Sample.db_no_analysis))) !! "w2" = Some a /\
    status_url a = Some "http://0.0.0.0:8000/api/status/abc" /\
    result_url a = Some "https://analyzer.example/api/result/abc".
Proof.
  destruct (C8_urls_normalized_at_creation Sample.accepting Sample.post_demo
              Sample.db_no_analysis Sample.alice "demo"
              "https://github.com/x/y" true Sample.accepted_ad
              ltac:(repeat split; reflexivity) alice_has_user
              db_no_analysis_wf ltac:(reflexivity) ltac:(reflexivity)
              ltac:(reflexivity) ltac:(reflexivity))
    as (a & Ha & H1 & H2 & _).
  exists a. split; [exact Ha|]. split.
  - exact (H1 "/api/status/abc" eq_refl eq_refl).
  - exact (H2 "https://analyzer.example/api/result/abc" eq_refl eq_refl).
Defined.

(** C8 as stated fails.  The analyzer names the relative path
    [api/status/abc], without a leading slash, and the absolute URL
    [HTTPS://analyzer.example/api/result/abc], its scheme in capitals.  The
    path is not stored as [<base>/api/status/abc], and the absolute URL is
    not stored unchanged: both get the base glued in front. *)
Lemma C8_counterexample :
  analyze_reply Sample.answering_loose "https://github.com/x/y" "w2"
  = Resp true (Some Sample.loose_ad) /\
  ad_status_url Sample.loose_ad = Some (JStr "api/status/abc") /\
  ad_result_url Sample.loose_ad
  = Some (JStr "HTTPS://analyzer.example/api/result/abc") /\
  exists a,
    analyses (snd (fst (createWorkspace Sample.answering_loose
                          Sample.post_demo Sample.db_no_analysis))) !! "w2"
    = Some a /\
    status_url a = Some "http://0.0.0.0:8000api/status/abc" /\
    status_url a <> Some "http://0.0.0.0:8000/api/status/abc" /\
    result_url a
    = Some "http://0.0.0.0:8000HTTPS://analyzer.example/api/result/abc" /\
    result_url a <> Some "HTTPS://analyzer.example/api/result/abc".
Proof.
  split; [reflexivity|]. split; [reflexivity|]. split; [reflexivity|].
  eexists. split; [vm_compute; reflexivity|].
  repeat split; try reflexivity; discriminate.
Qed.

(** C10 (as the code has it).  The create endpoint never looks at the HTTP
    status of the analyzer's answer: what it stores depends on the body
    alone.  When the submit request does not throw and the body is not
    JSON, an Analysis record is stored with status [pending] and null
    external id, status_url and result_url.  When the body is JSON and the
    handler can use its properties (workspace_id and status absent, null or
    a string; status_url and result_url falsy or a string), the record is
    built from the body, also under a non-success status.  The workspace is
    left without an Analysis record when the submit request throws, and
    also when the body has a property of another type, on which the handler
    throws inside the same [try].  The request is a valid one of a caller
    who has a row in [User], and the identifiers that the store hands out
    are not in use. *)
Theorem C10_submit_status_code_ignored e req d email name repo :
  valid_create_request req email name repo -> has_user d email ->
  db_wf d -> fresh_id e d -> fresh_analysis_id e d ->
  let wid := new_workspace_id e in
  let d' := snd (fst (createWorkspace e req d)) in
  (forall e' ok ok' body,
     analyze_reply e (trim repo) wid = Resp ok body ->
     analyze_reply e' (trim repo) wid = Resp ok' body ->
     now e' = now e -> new_workspace_id e' = wid ->
     new_analysis_id e' = new_analysis_id e ->
     createWorkspace e' req d = createWorkspace e req d) /\
  (forall ok,
     analyze_reply e (trim repo) wid = Resp ok None ->
     analyses d' !! wid
     = Some (mkAnalysis (new_analysis_id e) wid None "pending" None None
               None None None None (now e) None (now e))) /\
  (forall ok ad,
     analyze_reply e (trim repo) wid = Resp ok (Some ad) ->
     usable (Some ad) = true ->
     exists a, analyses d' !! wid = Some a /\
       external_workspace_id a
       = match ad_workspace_id ad with
         | Some (JStr s) => Some s
         | _ => None
         end /\
       status a
       = match ad_status ad with
         | Some (JStr s) => s
         | _ => "pending"
         end /\
       status_url a
       = match ad_status_url ad with
         | Some (JStr s) =>
             if truthy_str s
             then Some (if startsWith s "http" then s else base +:+ s)
             else None
         | _ => None
         end /\
       result_url a
       = match ad_result_url ad with
         | Some (JStr s) =>
             if truthy_str s
             then Some (if startsWith s "http" then s else base +:+ s)
             else None
         | _ => None
         end /\
       progress a = None /\ message a = None /\ current_step a = None /\
       result a = None /\ completedAt a = None) /\
  (analyses d' !! wid = None <->
   analyze_reply e (trim repo) wid = NetworkError \/
   exists ok ad, analyze_reply e (trim repo) wid = Resp ok (Some ad) /\
     usable (Some ad) = false).
Proof.
  intros Hv Hu Hwf Hfresh Hfa wid d'. subst wid d'.
  pose proof (wf_fresh_analysis e d Hwf Hfresh) as Hna.
  split; [|rewrite (createWorkspace_cases e req d email name repo Hv Hu Hwf
                      Hfresh Hfa)].
  - intros e' ok ok' body Hrep Hrep' Hnow Hwid Haid.
    assert (fresh_id e' d) as Hfresh'
        by (unfold fresh_id; rewrite Hwid; exact Hfresh).
    assert (fresh_analysis_id e' d) as Hfa'
        by (unfold fresh_analysis_id; rewrite Haid; exact Hfa).
    rewrite (createWorkspace_cases e req d email name repo Hv Hu Hwf Hfresh
               Hfa).
    rewrite (createWorkspace_cases e' req d email name repo Hv Hu Hwf
               Hfresh' Hfa').
    unfold new_workspace. rewrite Hwid, Hnow, Haid, Hrep, Hrep'.
    reflexivity.
  - destruct (analyze_reply e (trim repo) (new_workspace_id e))
      as [|ok0 body0].
    + cbn [fst snd with_workspace analyses].
      repeat split; try discriminate; auto.
    + rewrite initial_analysis_usable.
      destruct (usable body0) eqn:Hok;
        cbn [fst snd with_analysis with_workspace analyses new_workspace
             workspace_id].
      * rewrite lookup_insert_eq. repeat split.
        -- intros ok [= _ ->]. reflexivity.
        -- intros ok ad [= _ ->] _. eexists. split; [reflexivity|].
           repeat split; reflexivity.
        -- discriminate.
        -- intros [H | (ok & ad & [= _ ->] & H)]; [discriminate|].
           congruence.
      * repeat split.
        -- intros ok [= _ ->]. discriminate.
        -- intros ok ad [= _ ->] H. congruence.
        -- intros _. right. destruct body0 as [ad|]; [|discriminate].
           eauto.
        -- intros _. exact Hna.
Qed.

Lemma C10_submit_status_code_ignored_witness :
  createWorkspace Sample.refusing Sample.post_demo Sample.db_no_analysis
  = createWorkspace Sample.accepting Sample.post_demo Sample.db_no_analysis /\
  analyses (snd (fst (createWorkspace Sample.failing Sample.post_demo
                        Sample.db_no_analysis))) !! "w2"
  = Some (mkAnalysis "a2" "w2" None "pending" None None None None None None
            300 None 300) /\
  exists a,
    analyses (snd (fst (createWorkspace Sample.refusing Sample.post_demo
                          Sample.db_no_analysis))) !! "w2" = Some a /\
    external_workspace_id a = Some "ext-1" /\ status a = "pending" /\
    status_url a = Some "http://0.0.0.0:8000/api/status/abc" /\
    result_url a = Some "https://analyzer.example/api/result/abc".
Proof.
  split; [|split].
  - apply (proj1 (C10_submit_status_code_ignored Sample.accepting
                    Sample.post_demo Sample.db_no_analysis Sample.alice
                    "demo" "https://github.com/x/y"
                    ltac:(repeat split; reflexivity) alice_has_user
                    db_no_analysis_wf ltac:(reflexivity)
                    ltac:(reflexivity))
             Sample.refusing true false (Some Sample.accepted_ad));
      reflexivity.
  - apply (proj1 (proj2 (C10_submit_status_code_ignored Sample.failing
                           Sample.post_demo Sample.db_no_analysis
                           Sample.alice "demo" "https://github.com/x/y"
                           ltac:(repeat split; reflexivity) alice_has_user
                           db_no_analysis_wf ltac:(reflexivity)
                           ltac:(reflexivity))) false).
    reflexivity.
  - destruct (proj1 (proj2 (proj2 (C10_submit_status_code_ignored
                                     Sample.refusing Sample.post_demo
                                     Sample.db_no_analysis Sample.alice
                                     "demo" "https://github.com/x/y"
                                     ltac:(repeat split; reflexivity)
                                     alice_has_user db_no_analysis_wf
                                     ltac:(reflexivity)
                                     ltac:(reflexivity))))
                false Sample.accepted_ad eq_refl eq_refl)
      as (a & Ha & Hext & Hst & Hsu & Hru & _).
    exists a. split; [exact Ha|]. split; [exact Hext|].
    split; [exact Hst|]. split; [exact Hsu|exact Hru].
Defined.

(** C10 as stated fails.  The analyzer answers the submission with a JSON
    body whose status_url is the number 5.  The fetch does not throw, yet no
    Analysis record is stored: the handler throws on the number inside its
    inner [try], and answers 201 with the workspace alone. *)
Lemma C10_counterexample :
  analyze_reply Sample.answering_odd "https://github.com/x/y" "w2"
  = Resp true (Some Sample.odd_ad) /\
  ad_status_url Sample.odd_ad = Some (JNum 5) /\
  fst (fst (createWorkspace Sample.answering_odd Sample.post_demo
              Sample.db_no_analysis))
  = Val (mkResponse 201
           (PWorkspace
              (mkWorkspace "w2" "demo" "https://github.com/x/y"
                 Sample.alice 300 300))) /\
  analyses (snd (fst (createWorkspace Sample.answering_odd Sample.post_demo
                        Sample.db_no_analysis))) !! "w2" = None.
Proof.
  split; [reflexivity|]. split; [reflexivity|].
  split; vm_compute; reflexivity.
Qed.

(** ** Invariants of the tables *)

Section Triples.

Variable I : Db -> Prop.

Lemma triple_ret {A : Type} (a : A) (Q : A -> Prop) :
  Q a -> triple I (ret a) Q.
Proof. intros HQ e w HI. cbn. auto. Qed.

Lemma triple_throw {A : Type} (Q : A -> Prop) : triple I (@throw A) Q.
Proof. intros e w HI. cbn. auto. Qed.

Lemma triple_bind {A B : Type} (m : M A) (k : A -> M B)
  (Q : A -> Prop) (R : B -> Prop) :
  triple I m Q -> (forall a, Q a -> triple I (k a) R) ->
  triple I (bind m k) R.
Proof.
  intros Hm Hk e w HI. unfold bind.
  destruct (Hm e w HI) as [HI' HQ].
  destruct (m e w) as [[a|] w']; cbn in *.
  - apply (Hk a HQ e w' HI').
  - auto.
Qed.

Lemma triple_try_catch {A : Type} (m h : M A) (Q : A -> Prop) :
  triple I m Q -> triple I h Q -> triple I (try_catch m h) Q.
Proof.
  intros Hm Hh e w HI. unfold try_catch.
  destruct (Hm e w HI) as [HI' HQ].
  destruct (m e w) as [[a|] w']; cbn in *.
  - auto.
  - apply (Hh e w' HI').
Qed.

Lemma triple_emit (ev : Event) : triple I (emit ev) (fun _ => True).
Proof. intros e w HI. split; [exact HI|exact Logic.I]. Qed.

Lemma triple_ask {A : Type} (f : Env -> A) : triple I (ask f) (fun _ => True).
Proof. intros e w HI. split; [exact HI|exact Logic.I]. Qed.

Lemma triple_get_db : triple I get_db I.
Proof. intros e w HI. split; [exact HI|exact (proj1 HI)]. Qed.

Lemma triple_put_db (d : Db) : I d -> triple I (put_db d) (fun _ => True).
Proof.
  intros Hd e w [_ Hseen]. split; [|exact Logic.I]. split; [exact Hd|].
  cbn. apply Forall_app. split; [exact Hseen|]. repeat constructor. exact Hd.
Qed.

Lemma triple_fetch {A : Type} (ev : Event) (reply : Env -> Fetched A) :
  triple I (fetch ev reply) (fun _ => True).
Proof.
  unfold fetch. eapply triple_bind; [apply triple_emit|intros _ _].
  eapply triple_bind; [apply triple_ask|intros r _].
  destruct r; [apply triple_throw|apply triple_ret; exact Logic.I].
Qed.

Lemma triple_eval {A : Type} (x : option A) :
  triple I (eval x) (fun _ => True).
Proof. destruct x; [apply triple_ret; exact Logic.I|apply triple_throw]. Qed.

Lemma triple_analysis_findUnique (wid : string) :
  triple I (analysis_findUnique wid) (fun _ => True).
Proof.
  unfold analysis_findUnique.
  eapply triple_bind; [apply triple_get_db|intros d _].
  apply triple_ret. exact Logic.I.
Qed.

Lemma triple_workspace_findUnique (wid : string) :
  triple I (workspace_findUnique wid) (fun _ => True).
Proof.
  unfold workspace_findUnique.
  eapply triple_bind; [apply triple_get_db|intros d _].
  apply triple_ret. exact Logic.I.
Qed.

Lemma triple_user_findUnique (email : string) :
  triple I (user_findUnique email) (fun _ => True).
Proof.
  unfold user_findUnique.
  eapply triple_bind; [apply triple_get_db|intros d _].
  apply triple_ret. exact Logic.I.
Qed.

Lemma triple_workspace_findMany (email : string) :
  triple I (workspace_findMany email) (fun _ => True).
Proof.
  unfold workspace_findMany.
  eapply triple_bind; [apply triple_get_db|intros d _].
  apply triple_ret. exact Logic.I.
Qed.

(** What the invariant has to survive: the writes of the handlers. *)
Hypothesis I_user : forall d email t,
  I d -> users d !! email = None ->
  I (mkDb (<[email := mkUser email t t]> (users d)) (workspaces d)
       (analyses d)).

Hypothesis I_merge : forall d wid a t sd a0 f,
  I d -> analyses d !! wid = Some a -> merged_fields sd a0 = Some f ->
  I (mkDb (users d) (workspaces d)
       (<[wid := touch t (set_status_fields f a)]> (analyses d))).

Hypothesis I_result : forall d wid a t t' doc,
  I d -> analyses d !! wid = Some a ->
  I (mkDb (users d) (workspaces d)
       (<[wid := touch t (store_result doc t' a)]> (analyses d))).

Hypothesis I_workspace : forall d w,
  I d -> is_Some (users d !! ws_email w) ->
  workspaces d !! workspace_id w = None ->
  I (mkDb (users d) (<[workspace_id w := w]> (workspaces d)) (analyses d)).

Hypothesis I_analysis : forall d aid wid ext st su ru t,
  I d -> analysis_id_used aid d = false -> analyses d !! wid = None ->
  is_Some (workspaces d !! wid) ->
  I (mkDb (users d) (workspaces d)
       (<[wid := mkAnalysis aid wid ext st None None None su ru None t
                   None t]> (analyses d))).

Lemma triple_user_create (email : string) :
  triple I (user_create email) (fun _ => True).
Proof.
  unfold user_create.
  eapply triple_bind; [apply triple_get_db|intros d Hd].
  eapply triple_bind; [apply triple_ask|intros t _].
  destruct (users d !! email) as [u|] eqn:Hu; [apply triple_throw|].
  eapply triple_bind; [apply triple_emit|intros _ _].
  eapply triple_bind; [|intros _ _; apply triple_ret; exact Logic.I].
  apply triple_put_db, I_user; assumption.
Qed.

Lemma triple_update_merge (wid : string) (sd : StatusData) (a0 : Analysis) :
  triple I
    (analysis_update wid
       (option_map set_status_fields (merged_fields sd a0)))
    (fun _ => True).
Proof.
  destruct (merged_fields sd a0) as [f|] eqn:Hf; [|apply triple_throw].
  cbn [option_map analysis_update].
  eapply triple_bind; [apply triple_get_db|intros d Hd].
  destruct (analyses d !! wid) as [a|] eqn:Ha; [|apply triple_throw].
  eapply triple_bind; [apply triple_ask|intros t _].
  eapply triple_bind; [apply triple_emit|intros _ _].
  eapply triple_put_db, I_merge; eassumption.
Qed.

Lemma triple_update_result (wid : string) (doc : Json) (t : Time) :
  triple I (analysis_update wid (Some (store_result doc t)))
    (fun _ => True).
Proof.
  cbn [analysis_update].
  eapply triple_bind; [apply triple_get_db|intros d Hd].
  destruct (analyses d !! wid) as [a|] eqn:Ha; [|apply triple_throw].
  eapply triple_bind; [apply triple_ask|intros t' _].
  eapply triple_bind; [apply triple_emit|intros _ _].
  apply triple_put_db, I_result; assumption.
Qed.

Lemma triple_workspace_create (name repo email : string) :
  triple I (workspace_create name repo email) (fun _ => True).
Proof.
  unfold workspace_create.
  eapply triple_bind; [apply triple_get_db|intros d Hd].
  eapply triple_bind; [apply triple_ask|intros wid _].
  eapply triple_bind; [apply triple_ask|intros t _].
  destruct (users d !! email) as [u|] eqn:Hu; [|apply triple_throw].
  destruct (workspaces d !! wid) as [w|] eqn:Hw; [apply triple_throw|].
  eapply triple_bind; [apply triple_emit|intros _ _].
  eapply triple_bind; [|intros _ _; apply triple_ret; exact Logic.I].
  apply triple_put_db.
  apply (I_workspace d (mkWorkspace wid name repo email t t));
    [assumption|cbn; rewrite Hu; eauto|assumption].
Qed.

Lemma triple_analysis_create (wid : string) (ext st : Json)
  (su ru : option string) :
  triple I (analysis_create wid ext st su ru) (fun _ => True).
Proof.
  unfold analysis_create.
  destruct (text_column_null ext) as [ext'|]; [|apply triple_throw].
  destruct (text_column st) as [st'|]; [|apply triple_throw].
  eapply triple_bind; [apply triple_get_db|intros d Hd].
  eapply triple_bind; [apply triple_ask|intros aid _].
  eapply triple_bind; [apply triple_ask|intros t _].
  destruct (analysis_id_used aid d) eqn:Hid; [apply triple_throw|].
  destruct (analyses d !! wid) as [a|] eqn:Ha; [apply triple_throw|].
  destruct (workspaces d !! wid) as [w|] eqn:Hw; [|apply triple_throw].
  eapply triple_bind; [apply triple_emit|intros _ _].
  eapply triple_bind; [|intros _ _; apply triple_ret; exact Logic.I].
  apply triple_put_db, I_analysis; [assumption|assumption|assumption|].
  rewrite Hw. eauto.
Qed.

Ltac triple_step :=
  lazymatch goal with
  | |- triple _ (respond _ _) _ => apply triple_ret; exact Logic.I
  | |- triple _ (ret _) _ => apply triple_ret; exact Logic.I
  | |- triple _ throw _ => apply triple_throw
  | |- triple _ (try_catch _ _) _ => apply triple_try_catch
  | |- triple _ (fetch _ _) _ => apply triple_fetch
  | |- triple _ (json _) _ => apply triple_eval
  | |- triple _ (eval _) _ => apply triple_eval
  | |- triple _ (ask _) _ => apply triple_ask
  | |- triple _ (analysis_findUnique _) _ =>
      apply triple_analysis_findUnique
  | |- triple _ (workspace_findUnique _) _ =>
      apply triple_workspace_findUnique
  | |- triple _ (user_findUnique _) _ => apply triple_user_findUnique
  | |- triple _ (workspace_findMany _) _ => apply triple_workspace_findMany
  | |- triple _ (user_create _) _ => apply triple_user_create
  | |- triple _ (analysis_update _ (option_map _ _)) _ =>
      apply triple_update_merge
  | |- triple _ (analysis_update _ (Some _)) _ =>
      apply triple_update_result
  | |- triple _ (workspace_create _ _ _) _ => apply triple_workspace_create
  | |- triple _ (analysis_create _ _ _ _ _) _ =>
      apply triple_analysis_create
  | |- triple _ (bind _ _) _ => eapply triple_bind; [|intros ? ?]
  | |- triple _ (if ?b then _ else _) _ => destruct b
  | |- triple _ (match ?x with _ => _ end) _ => destruct x
  end.

Lemma handler_preserves (ep : Endpoint) (req : Request) :
  triple I (handler ep req) (fun _ => True).
Proof.
  destruct ep; cbn [handler];
    unfold status_handler, workspace_handler, workspace_handler_plain,
      create_handler, create_handler_plain, start_analysis, signin_handler;
    cbv zeta; repeat triple_step; repeat triple_step.
Qed.

Hypothesis I_empty : I empty_db.

Lemma reachable_invariant (d : Db) : db_reachable d -> I d.
Proof.
  induction 1 as [|ep e req d Hd IH]; [exact I_empty|].
  unfold db_after, run.
  destruct (handler_preserves ep req e (mkWorld d [] []))
    as [[H _] _]; [split; [exact IH|constructor]|].
  destruct (handler ep req e (mkWorld d [] [])) as [o w]. exact H.
Qed.

Lemma observable_invariant (d : Db) : db_observable d -> I d.
Proof.
  intros [Hd | (ep & e & req & d0 & Hd0 & Hin)].
  - apply reachable_invariant, Hd.
  - destruct (handler_preserves ep req e (mkWorld d0 [] []))
      as [[_ H] _];
      [split; [apply reachable_invariant, Hd0|constructor]|].
    unfold states_written in Hin.
    rewrite List.Forall_forall in H. apply H, Hin.
Qed.

End Triples.

Lemma rows_ok_insert (P : Analysis -> Prop) (d : Db)
  (us : gmap string User) (wss : gmap string Workspace) (wid : string)
  (a : Analysis) :
  rows_ok P d -> P a -> rows_ok P (mkDb us wss (<[wid := a]> (analyses d))).
Proof.
  intros Hd Ha id a'. cbn [analyses].
  destruct (decide (wid = id)) as [->|Hne].
  - rewrite lookup_insert_eq. intros [= <-]. exact Ha.
  - rewrite lookup_insert_ne by exact Hne. apply Hd.
Qed.

Lemma json_column_not_null (doc : Json) : json_column doc <> Some JNull.
Proof. destruct doc; discriminate. Qed.

(** Where there is a result there is a completion time, in every state
    that can be observed. *)
Lemma observable_completed (d : Db) :
  db_observable d -> rows_ok completed_if_result d.
Proof.
  apply observable_invariant.
  - intros d0 email t Hd _ id a Ha. exact (Hd id a Ha).
  - intros d0 wid a t sd a0 f Hd Ha _. apply rows_ok_insert; [exact Hd|].
    exact (Hd wid a Ha).
  - intros d0 wid a t t' doc Hd Ha. apply rows_ok_insert; [exact Hd|].
    split; [apply json_column_not_null|discriminate].
  - intros d0 w Hd _ _ id a Ha. exact (Hd id a Ha).
  - intros d0 aid wid ext st su ru t Hd _ _ _.
    apply rows_ok_insert; [exact Hd|]. split; [discriminate|].
    intros H. destruct (H eq_refl).
  - intros id a Ha. cbn in Ha. rewrite lookup_empty in Ha. discriminate.
Qed.

Lemma merged_fields_progress (sd : StatusData) (a : Analysis)
  (f : StatusFields) :
  merged_fields sd a = Some f ->
  match f_progress f with
  | Some n => int32 n = true
  | None => True
  end.
Proof.
  unfold merged_fields.
  rewrite status_column, int_null_column, !text_null_column.
  destruct (falsy_or_string (sd_status sd)); [|discriminate].
  destruct (null_or_string (sd_message sd));
    [|destruct (sd_progress sd) as [[|b|n|r|s|l|l]|]; cbn;
      repeat case_match; discriminate].
  destruct (null_or_string (sd_current_step sd));
    [|destruct (sd_progress sd) as [[|b|n|r|s|l|l]|]; cbn;
      repeat case_match; discriminate].
  destruct (sd_progress sd) as [[|b|n|r|s|l|l]|]; cbn;
    try discriminate;
    try (destruct (int32 n) eqn:Hn; cbn; [|discriminate];
         intros [= <-]; exact Hn);
    (destruct (progress a) as [m|];
     [destruct (int32 m) eqn:Hm; cbn; [|discriminate]|cbn];
     intros [= <-]; cbn; auto).
Qed.

(** The INTEGER column holds every progress that is stored. *)
Lemma observable_progress (d : Db) :
  db_observable d -> rows_ok (fun a => progress_ok a = true) d.
Proof.
  apply observable_invariant.
  - intros d0 email t Hd _ id a Ha. exact (Hd id a Ha).
  - intros d0 wid a t sd a0 f Hd Ha Hf. apply rows_ok_insert; [exact Hd|].
    pose proof (merged_fields_progress sd a0 f Hf) as Hp.
    unfold progress_ok. cbn. destruct (f_progress f); auto.
  - intros d0 wid a t t' doc Hd Ha. apply rows_ok_insert; [exact Hd|].
    exact (Hd wid a Ha).
  - intros d0 w Hd _ _ id a Ha. exact (Hd id a Ha).
  - intros d0 aid wid ext st su ru t Hd _ _ _.
    apply rows_ok_insert; [exact Hd|]. reflexivity.
  - intros id a Ha. cbn in Ha. rewrite lookup_empty in Ha. discriminate.
Qed.

(** The foreign keys hold in every database that requests produce. *)
Lemma reachable_wf (d : Db) : db_reachable d -> db_wf d.
Proof.
  apply reachable_invariant.
  - intros d0 email t Hd _. exact Hd.
  - intros d0 wid a t sd a0 f Hd Ha _ id. cbn [analyses workspaces].
    destruct (decide (wid = id)) as [->|Hne].
    + intros _. apply Hd. eauto.
    + rewrite lookup_insert_ne by exact Hne. apply Hd.
  - intros d0 wid a t t' doc Hd Ha id. cbn [analyses workspaces].
    destruct (decide (wid = id)) as [->|Hne].
    + intros _. apply Hd. eauto.
    + rewrite lookup_insert_ne by exact Hne. apply Hd.
  - intros d0 w Hd _ _ id. cbn [analyses workspaces]. intros Ha.
    destruct (decide (workspace_id w = id)) as [->|Hne].
    + rewrite lookup_insert_eq. eauto.
    + rewrite lookup_insert_ne by exact Hne. apply Hd, Ha.
  - intros d0 aid wid ext st su ru t Hd _ _ Hw id. cbn [analyses workspaces].
    destruct (decide (wid = id)) as [->|Hne].
    + intros _. exact Hw.
    + rewrite lookup_insert_ne by exact Hne. apply Hd.
  - intros id [a Ha]. cbn in Ha. rewrite lookup_empty in Ha. discriminate.
Qed.

Lemma observable_owners (d : Db) : db_observable d -> owners_exist d.
Proof.
  apply observable_invariant.
  - intros d0 email t Hd _ id w Hw. cbn [users workspaces] in *.
    destruct (decide (email = ws_email w)) as [->|Hne].
    + rewrite lookup_insert_eq. eauto.
    + rewrite lookup_insert_ne by exact Hne. exact (Hd id w Hw).
  - intros d0 wid a t sd a0 f Hd _ _. exact Hd.
  - intros d0 wid a t t' doc Hd _. exact Hd.
  - intros d0 w Hd Hu _ id w'. cbn [users workspaces].
    destruct (decide (workspace_id w = id)) as [->|Hne].
    + rewrite lookup_insert_eq. intros [= <-]. exact Hu.
    + rewrite lookup_insert_ne by exact Hne. apply Hd.
  - intros d0 aid wid ext st su ru t Hd _ _ _. exact Hd.
  - intros id w Hw. cbn in Hw. rewrite lookup_empty in Hw. discriminate.
Qed.

(** A status check that completes writes twice: the merge, then the result.
    Both states can be observed, and in the first one result and completedAt
    are both still null. *)
Example states_written_on_completion :
  exists d1 a1,
    states_written GetStatus Sample.serving_zero Sample.get_status_w2
      Sample.db_created
    = [d1; Sample.db_zero] /\
    analyses d1 !! "w2" = Some a1 /\
    status a1 = "completed" /\ result a1 = None /\ completedAt a1 = None.
Proof.
  do 2 eexists. split; [vm_compute; reflexivity|].
  split; [vm_compute; reflexivity|]. repeat split; reflexivity.
Qed.

(** C5, where the code departs from it.  Alice signs in and creates a
    workspace; the analyzer accepts the submission, later reports
    [completed], and serves the JSON [null] as the result document.  The
    completion step writes what it got: the status check answers 200, and
    the row it leaves, in tables that requests have produced, has its
    completedAt set and its result null. *)
Theorem C5_completedAt_without_result :
  db_reachable Sample.db_null /\
  result_reply Sample.serving_null "https://analyzer.example/api/result/abc"
  = Resp true (Some JNull) /\
  checkStatus Sample.serving_null Sample.get_status_w2 Sample.db_created
  = (Val (mkResponse 200
            (PStatus (Some (JStr "completed")) (Has Sample.null_row))),
     Sample.db_null,
     [EvGet "http://0.0.0.0:8000/api/status/abc"; EvUpdateAnalysis "w2";
      EvGet "https://analyzer.example/api/result/abc";
      EvUpdateAnalysis "w2"]) /\
  analyses Sample.db_null !! "w2" = Some Sample.null_row /\
  completedAt Sample.null_row = Some 400 /\
  non_null (result Sample.null_row) = false.
Proof.
  split; [do 3 apply reach_request; apply reach_empty|].
  split; [reflexivity|]. split; [vm_compute; reflexivity|].
  split; [vm_compute; reflexivity|]. split; reflexivity.
Qed.

(** ** The polling loop *)

Lemma clear_polling_stopped (p : Page) :
  page_inv p -> stopped (clear_polling p).
Proof.
  unfold page_inv, stopped, clear_polling. intros Hinv.
  destruct (pollingRef p) as [h|] eqn:Href; [|auto].
  cbn. rewrite Hinv. cbn. rewrite Pos.eqb_refl. auto.
Qed.

Lemma stopped_inv (p : Page) : stopped p -> page_inv p.
Proof. unfold stopped, page_inv. intros [-> ->]. reflexivity. Qed.

Lemma pollStatus_inv (p : Page) : page_inv p -> page_inv (pollStatus p).
Proof.
  unfold page_inv, pollStatus. intros Hinv.
  destruct (pollingRef p) as [h|] eqn:Href.
  - rewrite Href. exact Hinv.
  - cbn. rewrite Hinv. reflexivity.
Qed.

Lemma on_loaded_inv (r : Fetched Payload) (p : Page) :
  page_inv p -> page_inv (on_loaded r p).
Proof.
  intros Hinv. unfold on_loaded.
  destruct r as [|[|] [data|]]; try exact Hinv.
  destruct (workspace_of data) as [w|]; [|exact Hinv].
  destruct (wants_polling w); [|exact Hinv].
  apply (pollStatus_inv (setWorkspace (fun _ => Some w) p)), Hinv.
Qed.

(** After the callback has seen an error or a terminal response, the loop
    is off. *)
Lemma on_polled_stops (r : Fetched Payload) (p : Page) :
  page_inv p -> stops r = true -> stopped (on_polled r p).
Proof.
  intros Hinv Hr. unfold on_polled.
  destruct r as [|[|] [data|]]; cbn in Hr.
  - apply (clear_polling_stopped
             (setLoading false (setError "Polling failed" p))), Hinv.
  - rewrite Hr.
    set (q := match analysis_of data with
              | Has a => setWorkspace _ p
              | _ => p
              end).
    assert (page_inv q) as Hq
        by (subst q; destruct (analysis_of data); exact Hinv).
    destruct (negb (carries_result (analysis_of data)));
      apply (clear_polling_stopped q), Hq.
  - apply (clear_polling_stopped
             (setLoading false (setError "Polling failed" p))), Hinv.
  - apply (clear_polling_stopped
             (setError (or_str (error_of data) "Failed to fetch status") p)),
      Hinv.
  - apply (clear_polling_stopped
             (setLoading false (setError "Polling failed" p))), Hinv.
Qed.

Lemma on_polled_inv (r : Fetched Payload) (p : Page) :
  page_inv p -> page_inv (on_polled r p).
Proof.
  intros Hinv. destruct (stops r) eqn:Hr.
  - apply stopped_inv, on_polled_stops; assumption.
  - destruct r as [|[|] [data|]]; try discriminate. cbn in Hr.
    unfold on_polled. rewrite Hr.
    destruct (analysis_of data); exact Hinv.
Qed.

Lemma page_step_inv (p p' : Page) (ev : PageEvent) :
  page_inv p -> page_step p ev = Some p' -> page_inv p'.
Proof.
  intros Hinv Hstep. destruct ev as [|r|h|r|r|]; cbn in Hstep.
  - injection Hstep as <-. exact Hinv.
  - destruct (awaiting_load p); [discriminate|]. injection Hstep as <-.
    apply on_loaded_inv, Hinv.
  - destruct (existsb (Pos.eqb h) (timers p)); [|discriminate].
    injection Hstep as <-. exact Hinv.
  - destruct (awaiting_status p); [discriminate|]. injection Hstep as <-.
    apply on_polled_inv, Hinv.
  - destruct (awaiting_final p); [discriminate|]. injection Hstep as <-.
    destruct r as [|[|] [data|]]; exact Hinv.
  - injection Hstep as <-. apply stopped_inv, clear_polling_stopped, Hinv.
Qed.

Lemma page_run_inv (evs : list PageEvent) (p p' : Page) :
  page_inv p -> page_run p evs = Some p' -> page_inv p'.
Proof.
  revert p. induction evs as [|ev evs IH]; intros p Hinv Hrun; cbn in Hrun.
  - injection Hrun as <-. exact Hinv.
  - destruct (page_step p ev) as [q|] eqn:Hstep; [|discriminate].
    apply (IH q); [eapply page_step_inv; eassumption|exact Hrun].
Qed.

Lemma page_reachable_inv (p : Page) : page_reachable p -> page_inv p.
Proof.
  intros [evs Hrun]. apply (page_run_inv evs initial_page); [reflexivity|].
  exact Hrun.
Qed.

Lemma status_requests_request_workspace (p : Page) :
  status_requests (request ReqWorkspace p) = status_requests p.
Proof.
  unfold status_requests, request. cbn [requests].
  rewrite List.filter_app, length_app. cbn. lia.
Qed.

(** A stopped loop stays stopped, and sends no status request, through
    every event that does not load a workspace anew. *)
Lemma stopped_step (p p' : Page) (ev : PageEvent) :
  stopped p -> is_load ev = false -> page_step p ev = Some p' ->
  stopped p' /\ status_requests p' = status_requests p.
Proof.
  intros [Href Htim] Hev Hstep.
  destruct ev as [|r|h|r|r|]; cbn in Hstep; try discriminate Hev.
  - injection Hstep as <-. split; [split; assumption|].
    apply (status_requests_request_workspace (setLoading true p)).
  - rewrite Htim in Hstep. discriminate.
  - destruct (awaiting_status p) as [|n] eqn:Hn; [discriminate|].
    injection Hstep as <-.
    set (q := set_awaiting (awaiting_load p) n (awaiting_final p) p).
    assert (stopped q) as Hq by (split; assumption).
    unfold on_polled.
    destruct r as [|[|] [data|]].
    + unfold clear_polling. cbn. rewrite Href. split; [split; assumption|].
      reflexivity.
    + set (q' := match analysis_of data with
                 | Has a => setWorkspace _ q
                 | _ => q
                 end).
      assert (stopped q' /\ status_requests q' = status_requests p)
        as [[Href' Htim'] Hreq]
        by (subst q'; destruct (analysis_of data); split; auto).
      destruct (terminal data); [|split; [split|]; assumption].
      unfold clear_polling. rewrite Href'.
      destruct (negb (carries_result (analysis_of data))).
      * split; [split; assumption|].
        rewrite <- Hreq. apply (status_requests_request_workspace q').
      * split; [split; assumption|]. exact Hreq.
    + unfold clear_polling. cbn. rewrite Href. split; [split; assumption|].
      reflexivity.
    + unfold clear_polling. cbn. rewrite Href. split; [split; assumption|].
      reflexivity.
    + unfold clear_polling. cbn. rewrite Href. split; [split; assumption|].
      reflexivity.
  - destruct (awaiting_final p); [discriminate|]. injection Hstep as <-.
    destruct r as [|[|] [data|]]; (split; [split; assumption|reflexivity]).
  - injection Hstep as <-. unfold clear_polling. rewrite Href.
    split; [split; assumption|reflexivity].
Qed.

Lemma stopped_run (evs : list PageEvent) (p p' : Page) :
  stopped p -> existsb is_load evs = false -> page_run p evs = Some p' ->
  stopped p' /\ status_requests p' = status_requests p.
Proof.
  revert p. induction evs as [|ev evs IH]; intros p Hp Hevs Hrun;
    cbn in Hrun, Hevs.
  - injection Hrun as <-. auto.
  - apply orb_false_iff in Hevs as [Hev Hevs].
    destruct (page_step p ev) as [q|] eqn:Hstep; [|discriminate].
    destruct (stopped_step p q ev Hp Hev Hstep) as [Hq Hreq].
    destruct (IH q Hq Hevs Hrun) as [Hp' Hreq'].
    split; [exact Hp'|]. congruence.
Qed.

(** C9 (as the code has it).  Once the interval callback has seen a
    response whose status is [completed] or whose Analysis carries a truthy
    result (one that is not null, false, 0 or the empty string), or any
    transport or backend error, the loop is off: the interval timer is
    cleared and the ref is null, no timer can fire, and no further status
    request leaves the page for as long as no workspace is loaded anew.
    Unmounting the page clears the timer as well. *)
Theorem C9_poll_loop_stops p r p' :
  page_reachable p -> page_step p (Polled r) = Some p' -> stops r = true ->
  stopped p' /\
  (forall h, page_step p' (Tick h) = None) /\
  (forall evs p'',
     existsb is_load evs = false -> page_run p' evs = Some p'' ->
     stopped p'' /\ status_requests p'' = status_requests p') /\
  (forall q, page_step p Unmount = Some q -> stopped q).
Proof.
  intros Hreach Hstep Hr.
  pose proof (page_reachable_inv p Hreach) as Hinv.
  assert (stopped p') as Hp'.
  { cbn in Hstep. destruct (awaiting_status p); [discriminate|].
    injection Hstep as <-. apply on_polled_stops; [exact Hinv|exact Hr]. }
  split; [exact Hp'|]. split; [|split].
  - intros h. cbn. destruct Hp' as [_ ->]. reflexivity.
  - intros evs p'' Hevs Hrun. eapply stopped_run; eassumption.
  - intros q [= <-]. apply clear_polling_stopped, Hinv.
Qed.

Lemma C9_poll_loop_stops_witness :
  page_step Sample.polling (Polled Sample.completed_reply)
  = Some Sample.after_completed /\
  stopped Sample.after_completed.
Proof.
  split; [reflexivity|].
  refine (proj1 (C9_poll_loop_stops Sample.polling Sample.completed_reply
                   Sample.after_completed _ _ _)).
  - exists [Mount; Loaded Sample.loaded; Tick 1%positive]. reflexivity.
  - reflexivity.
  - reflexivity.
Defined.

(** C9 as stated fails.  GET status answers the row [zero_row] with status
    [running]: a response that is not [completed] and whose Analysis carries
    a result that is not null (the number 0).  The callback leaves the timer
    running, and its next tick sends another status request. *)
Lemma C9_counterexample :
  fst (fst (checkStatus Sample.running Sample.get_status_w2 Sample.db_zero))
  = Val (mkResponse 200
           (PStatus (Some (JStr "running"))
              (Has Sample.zero_row_running))) /\
  non_null (result Sample.zero_row_running) = true /\
  page_run initial_page [Mount; Loaded Sample.loaded; Tick 1%positive]
  = Some Sample.polling /\
  page_step Sample.polling (Polled Sample.running_with_zero)
  = Some Sample.after_zero /\
  pollingRef Sample.after_zero = Some 1%positive /\
  timers Sample.after_zero = [1%positive] /\
  exists p,
    page_step Sample.after_zero (Tick 1%positive) = Some p /\
    status_requests p = S (status_requests Sample.after_zero).
Proof.
  split; [vm_compute; reflexivity|].
  split; [reflexivity|]. split; [reflexivity|]. split; [reflexivity|].
  split; [reflexivity|]. split; [reflexivity|].
  eexists. split; reflexivity.
Qed.

(** * The rest of the code *)

(** ** checkStatus on every input *)

Lemma write_row_frame (d : Db) (req : Request) (id : string)
  (a a1 : Analysis) :
  query_id req = QOne id ->
  analyses d !! id = Some a -> same_identity a a1 ->
  let d' := mkDb (users d) (workspaces d) (<[id := a1]> (analyses d)) in
  users d' = users d /\ workspaces d' = workspaces d /\
  (forall id', query_id req <> QOne id' ->
     analyses d' !! id' = analyses d !! id') /\
  (forall id', is_Some (analyses d' !! id') <-> is_Some (analyses d !! id')) /\
  (forall id' a', analyses d' !! id' = Some a' ->
     exists a0, analyses d !! id' = Some a0 /\ same_identity a0 a').
Proof.
  intros Hq Ha Hid. cbn. split; [reflexivity|]. split; [reflexivity|].
  split; [|split].
  - intros id' Hne. apply lookup_insert_ne. congruence.
  - intros id'. destruct (decide (id = id')) as [<-|Hne].
    + rewrite lookup_insert_eq, Ha. split; eauto.
    + rewrite lookup_insert_ne by exact Hne. reflexivity.
  - intros id' a'. destruct (decide (id = id')) as [<-|Hne].
    + rewrite lookup_insert_eq. intros [= <-]. eauto.
    + rewrite lookup_insert_ne by exact Hne. intros Ha'.
      exists a'. split; [exact Ha'|]. repeat split.
Qed.

(** X1.  Whatever the request, the analyzer's answers and the tables,
    checkStatus leaves the users and the workspaces alone, never adds or
    removes an Analysis, changes no row but the one it is asked about, and
    in that row leaves id, workspaceId, external id, the two URLs and
    startedAt as they were. *)
Theorem checkStatus_frame e req d :
  users (snd (fst (checkStatus e req d))) = users d /\
  workspaces (snd (fst (checkStatus e req d))) = workspaces d /\
  (forall id', query_id req <> QOne id' ->
     analyses (snd (fst (checkStatus e req d))) !! id' = analyses d !! id') /\
  (forall id',
     is_Some (analyses (snd (fst (checkStatus e req d))) !! id')
     <-> is_Some (analyses d !! id')) /\
  (forall id' a',
     analyses (snd (fst (checkStatus e req d))) !! id' = Some a' ->
     exists a, analyses d !! id' = Some a /\ same_identity a a').
Proof.
  rewrite checkStatus_is_table. unfold checkStatus_table.
  assert (users d = users d /\ workspaces d = workspaces d /\
          (forall id' : string, query_id req <> QOne id' ->
             analyses d !! id' = analyses d !! id') /\
          (forall id', is_Some (analyses d !! id')
                       <-> is_Some (analyses d !! id')) /\
          (forall id' a', analyses d !! id' = Some a' ->
             exists a, analyses d !! id' = Some a /\ same_identity a a'))
    as Hsame.
  { repeat split; auto. intros id' a' Ha'. exists a'. repeat split; auto. }
  destruct (query_id req) as [|id|l] eqn:Hq; try exact Hsame.
  repeat case_match; subst; cbn [fst snd]; try exact Hsame;
    rewrite <- Hq;
    (eapply write_row_frame; [exact Hq|eassumption|repeat split]).
Qed.

(** X2.  The effects of one checkStatus come in one order only: nothing; or
    the status GET; then the write of the merge; then the result GET; then
    the write of the result.  In particular the analyzer is called at most
    twice, the result is never fetched before the merge is written, and
    nothing is written before the status was fetched.  A request that names
    no single id has no effect at all. *)
Theorem checkStatus_effects_in_order e req d :
  (forall id, query_id req = QOne id ->
     status_effects_shape id (snd (checkStatus e req d))) /\
  ((forall id, query_id req <> QOne id) -> snd (checkStatus e req d) = []).
Proof.
  rewrite checkStatus_is_table.
  unfold checkStatus_table, status_effects_shape. split.
  - intros id Hq. rewrite Hq. repeat case_match; cbn [snd]; eauto 10.
  - intros Hq. destruct (query_id req) as [|id|l] eqn:Hq';
      [reflexivity| |reflexivity].
    destruct (Hq id eq_refl).
Qed.

Lemma checkStatus_effects_in_order_witness :
  status_effects_shape "w2"
    (snd (checkStatus Sample.serving_zero Sample.get_status_w2
            Sample.db_created)) /\
  snd (checkStatus Sample.serving_zero Sample.post_demo Sample.db_created)
  = [].
Proof.
  split.
  - apply (proj1 (checkStatus_effects_in_order Sample.serving_zero
                    Sample.get_status_w2 Sample.db_created) "w2").
    reflexivity.
  - apply (proj2 (checkStatus_effects_in_order Sample.serving_zero
                    Sample.post_demo Sample.db_created)).
    intros id H. discriminate H.
Defined.

Example checkStatus_effects_example :
  snd (checkStatus Sample.serving_zero Sample.get_status_w2
         Sample.db_created)
  = [EvGet "http://0.0.0.0:8000/api/status/abc"; EvUpdateAnalysis "w2";
     EvGet "https://analyzer.example/api/result/abc"; EvUpdateAnalysis "w2"].
Proof. vm_compute. reflexivity. Qed.

(** X3.  Whenever checkStatus answers with an Analysis, that Analysis is the
    row as the tables hold it once the call is over. *)
Theorem checkStatus_answers_stored_row e req d c st a :
  fst (fst (checkStatus e req d)) = Val (mkResponse c (PStatus st (Has a))) ->
  exists id, query_id req = QOne id /\
    analyses (snd (fst (checkStatus e req d))) !! id = Some a.
Proof.
  rewrite checkStatus_is_table. unfold checkStatus_table.
  repeat case_match; subst; cbn [fst snd]; intros [= ? ? ?]; subst;
    try discriminate; eexists; (split; [reflexivity|]);
    try assumption; cbn; apply lookup_insert_eq.
Qed.

Lemma checkStatus_answers_stored_row_witness :
  exists id, query_id Sample.get_status_w2 = QOne id /\
    analyses (snd (fst (checkStatus Sample.serving_zero Sample.get_status_w2
                          Sample.db_created))) !! id
    = Some Sample.zero_row.
Proof.
  apply (checkStatus_answers_stored_row Sample.serving_zero
           Sample.get_status_w2 Sample.db_created 200
           (Some (JStr "completed")) Sample.zero_row).
  vm_compute. reflexivity.
Defined.



Lemma checkStatus_many_cached (es : list Env) req id d a :
  valid_status_request req id -> analyses d !! id = Some a ->
  truthy_result (result a) = true ->
  checkStatus_many es req d
  = (map (fun _ =>
            Val (mkResponse 200
                   (PStatus (Some (JStr "completed")) (Has a))))
       es, d, []).
Proof.
  intros Hv Ha Hr. induction es as [|e es IH]; [reflexivity|].
  cbn [checkStatus_many map].
  rewrite (checkStatus_cached e req id d a Hv Ha Hr), IH. reflexivity.
Qed.

Lemma truthy_json_column (doc : Json) :
  truthy doc = true -> json_column doc = Some doc.
Proof. destruct doc; try reflexivity. discriminate. Qed.

(** X5.  Completion and the cache fit together: when a checkStatus sees
    [completed], the store takes the status response, and the result
    document is truthy, it answers 200 with the completed row (that
    document as result, the time of the call as completedAt), and every
    later checkStatus, whatever the analyzer says by then, gives that same
    answer without calling the analyzer or writing: the result is fetched
    once. *)
Theorem checkStatus_completes_then_caches e es req id d a sd doc :
  valid_status_request req id -> analyses d !! id = Some a ->
  truthy_result (result a) = false -> has_job a = true ->
  progress_ok a = true ->
  status_reply e (statusUrl_of a) = Resp true (Some sd) ->
  is_completed (sd_status sd) = true -> storable sd = true ->
  result_reply e (resultUrl_of a sd) = Resp true (Some doc) ->
  truthy doc = true ->
  exists row,
    let answer :=
      Val (mkResponse 200 (PStatus (Some (JStr "completed")) (Has row))) in
    checkStatus_many (e :: es) req d
    = (answer :: map (fun _ => answer) es,
       mkDb (users d) (workspaces d) (<[id := row]> (analyses d)),
       [EvGet (statusUrl_of a); EvUpdateAnalysis id;
        EvGet (resultUrl_of a sd); EvUpdateAnalysis id]) /\
    result row = Some doc /\ completedAt row = Some (now e) /\
    status row = "completed" /\ same_identity a row.
Proof.
  intros Hv Ha Hr Hj Hp Hrep Hc Hs Hres Hdoc.
  destruct (merged_fields_storable sd a Hs Hp) as [f Hf].
  exists (completed_row e f doc a). cbn zeta.
  assert (result (completed_row e f doc a) = Some doc) as Hrow
      by (cbn; apply truthy_json_column, Hdoc).
  split; [|split; [exact Hrow|repeat split]].
  cbn [checkStatus_many].
  rewrite (checkStatus_completed e req id d a sd f doc Hv Ha Hr Hj Hrep Hf Hc
             Hres).
  rewrite (checkStatus_many_cached es req id _ (completed_row e f doc a) Hv).
  - reflexivity.
  - apply lookup_insert_eq.
  - rewrite Hrow. exact Hdoc.
Qed.

Lemma checkStatus_completes_then_caches_witness :
  exists row,
    checkStatus_many [More.serving; Sample.offline; Sample.failing]
      Sample.get_status_w2 Sample.db_created
    = ([Val (mkResponse 200
               (PStatus (Some (JStr "completed")) (Has row)));
        Val (mkResponse 200
               (PStatus (Some (JStr "completed")) (Has row)));
        Val (mkResponse 200
               (PStatus (Some (JStr "completed")) (Has row)))],
       mkDb (users Sample.db_created) (workspaces Sample.db_created)
         (<[ "w2" := row ]> (analyses Sample.db_created)),
       [EvGet "http://0.0.0.0:8000/api/status/abc"; EvUpdateAnalysis "w2";
        EvGet "https://analyzer.example/api/result/abc";
        EvUpdateAnalysis "w2"]) /\
    result row = Some (JObj [("project_summary", JStr "ok")]) /\
    completedAt row = Some 400.
Proof.
  destruct (checkStatus_completes_then_caches More.serving
              [Sample.offline; Sample.failing] Sample.get_status_w2
              "w2" Sample.db_created
              (mkAnalysis "a2" "w2" (Some "ext-1") "pending" None None None
                 (Some "http://0.0.0.0:8000/api/status/abc")
                 (Some "https://analyzer.example/api/result/abc") None 300
                 None 300)
              Sample.completed_sd
              (JObj [("project_summary", JStr "ok")])
              ltac:(repeat split; reflexivity)
              ltac:(vm_compute; reflexivity) ltac:(reflexivity)
              ltac:(reflexivity) ltac:(reflexivity) ltac:(reflexivity)
              ltac:(reflexivity) ltac:(reflexivity) ltac:(reflexivity)
              ltac:(reflexivity))
    as (row & Hmany & Hres & Hat & _).
  exists row. split; [exact Hmany|]. split; [exact Hres|exact Hat].
Defined.

(** X6.  Where the result is fetched from when the row stores no result
    URL: from [<base>/api/result/<id>] with the external id of the row, or
    failing that whatever the status response has as [workspace_id], printed
    as a template literal prints it; and when neither names an id, from
    [<base>/api/result/undefined].  The result is fetched once the store has
    taken a status response that says [completed]. *)
Theorem checkStatus_result_url_fallback e req id d a sd :
  valid_status_request req id -> analyses d !! id = Some a ->
  truthy_result (result a) = false -> has_job a = true ->
  progress_ok a = true ->
  status_reply e (statusUrl_of a) = Resp true (Some sd) ->
  is_completed (sd_status sd) = true -> storable sd = true ->
  result_url a = None ->
  exists u l,
    snd (checkStatus e req d)
    = EvGet (statusUrl_of a) :: EvUpdateAnalysis id :: EvGet u :: l /\
    (forall x, external_workspace_id a = Some x ->
       u = "http://0.0.0.0:8000/api/result/" +:+ x) /\
    (forall x, external_workspace_id a = None ->
       sd_workspace_id sd = Some (JStr x) ->
       u = "http://0.0.0.0:8000/api/result/" +:+ x) /\
    (forall v, external_workspace_id a = None ->
       sd_workspace_id sd = Some v ->
       u = "http://0.0.0.0:8000/api/result/" +:+ toString v) /\
    (external_workspace_id a = None -> sd_workspace_id sd = None ->
       u = "http://0.0.0.0:8000/api/result/undefined").
Proof.
  intros (Hq & Hid & Hs) Ha Hr Hj Hp Hrep Hc Hst Hru.
  destruct (merged_fields_storable sd a Hst Hp) as [f Hf].
  rewrite checkStatus_is_table. unfold checkStatus_table.
  rewrite Hq, Hid, Hs, Ha, Hr, Hj, Hrep, Hf, Hc. cbn [negb].
  exists (resultUrl_of a sd).
  assert ((forall x, external_workspace_id a = Some x ->
             resultUrl_of a sd = "http://0.0.0.0:8000/api/result/" +:+ x) /\
          (forall x, external_workspace_id a = None ->
             sd_workspace_id sd = Some (JStr x) ->
             resultUrl_of a sd = "http://0.0.0.0:8000/api/result/" +:+ x) /\
          (forall v, external_workspace_id a = None ->
             sd_workspace_id sd = Some v ->
             resultUrl_of a sd
             = "http://0.0.0.0:8000/api/result/" +:+ toString v) /\
          (external_workspace_id a = None -> sd_workspace_id sd = None ->
             resultUrl_of a sd = "http://0.0.0.0:8000/api/result/undefined"))
    as Hu.
  { unfold resultUrl_of. rewrite Hru. repeat split.
    - intros x ->. reflexivity.
    - intros x -> ->. reflexivity.
    - intros v -> ->. reflexivity.
    - intros -> ->. reflexivity. }
  destruct (result_reply e (resultUrl_of a sd)) as [|[|] [doc|]];
    (eexists; split; [reflexivity|exact Hu]).
Qed.

Lemma checkStatus_result_url_fallback_witness :
  exists l,
    snd (checkStatus Sample.result_down Sample.get_status_w2 More.db_bare)
    = EvGet "http://0.0.0.0:8000/api/status/abc" :: EvUpdateAnalysis "w2"
      :: EvGet "http://0.0.0.0:8000/api/result/undefined" :: l.
Proof.
  destruct (checkStatus_result_url_fallback Sample.result_down
              Sample.get_status_w2 "w2" More.db_bare More.bare_row
              Sample.completed_sd
              ltac:(repeat split; reflexivity) ltac:(vm_compute; reflexivity)
              ltac:(reflexivity) ltac:(reflexivity) ltac:(reflexivity)
              ltac:(reflexivity) ltac:(reflexivity) ltac:(reflexivity)
              ltac:(reflexivity))
    as (u & l & Hl & _ & _ & _ & Hu).
  exists l. rewrite <- (Hu eq_refl eq_refl). exact Hl.
Defined.

(** ** All endpoints *)

Lemma try_catch_respond_answers (m : M HttpResponse) (c : Z) (p : Payload)
  e w :
  exists r, fst (try_catch m (respond c p) e w) = Val r.
Proof.
  unfold try_catch. destruct (m e w) as [[r|] w']; cbn; eauto.
Qed.

(** X7.  No exception leaves a handler: whatever the request, the tables
    and the analyzer do, each of the six endpoints answers with a
    response. *)
Theorem every_request_is_answered ep e req d :
  exists r, fst (fst (run (handler ep req) e d)) = Val r.
Proof.
  unfold run.
  assert (exists r, fst (handler ep req e (mkWorld d [] [])) = Val r)
    as [r Hr].
  { destruct ep; cbn [handler];
      unfold status_handler, workspace_handler, workspace_handler_plain,
        create_handler, create_handler_plain, signin_handler;
      repeat case_match;
      first [apply try_catch_respond_answers | cbn; eauto]. }
  exists r. destruct (handler ep req e (mkWorld d [] [])). exact Hr.
Qed.

(** X8.  Without a signed-in user nothing happens: every endpoint answers
    400, 401 or 405, changes no table, and does not call the analyzer. *)
Theorem signed_out_requests_are_inert ep e req d :
  signed_out req ->
  exists r, run (handler ep req) e d = (Val r, d, []) /\
    (code r = 400 \/ code r = 401 \/ code r = 405).
Proof.
  unfold signed_out. intros Hs.
  destruct ep; cbn [handler]; hsimpl.
  - destruct (query_id req) as [|id|l]; [eauto| |eauto].
    destruct (truthy_str id); hsimpl; [|eauto]. rewrite Hs. hsimpl. eauto.
  - destruct (query_id req) as [|id|l]; [eauto| |eauto].
    destruct (truthy_str id); hsimpl; [|eauto].
    destruct (session_email req) as [email|]; hsimpl; [|eauto].
    cbn in Hs. rewrite Hs. hsimpl. eauto.
  - destruct (query_id req) as [|id|l]; [eauto| |eauto].
    destruct (truthy_str id); hsimpl; [|eauto].
    destruct (session_email req) as [email|]; hsimpl; [|eauto].
    cbn in Hs. rewrite Hs. hsimpl. eauto.
  - destruct (method req =? "POST")%string; hsimpl; [|eauto 6].
    destruct (session_email req) as [email|]; hsimpl; [|eauto].
    cbn in Hs. rewrite Hs. hsimpl. eauto.
  - destruct (method req =? "POST")%string; hsimpl; [|eauto 6].
    destruct (session_email req) as [email|]; hsimpl; [|eauto].
    cbn in Hs. rewrite Hs. hsimpl. eauto.
  - destruct (method req =? "POST")%string; hsimpl; [|eauto 6].
    destruct (session_email req) as [email|]; hsimpl; [|eauto].
    cbn in Hs. rewrite Hs. hsimpl. eauto.
Qed.

Lemma signed_out_requests_are_inert_witness :
  exists r,
    run (handler PostWorkspace
           (mkRequest "POST" QMissing None
              (Some (mkBody (Has "demo") (Has "https://github.com/x/y")))))
      Sample.accepting Sample.db_no_analysis
    = (Val r, Sample.db_no_analysis, []) /\
    (code r = 400 \/ code r = 401 \/ code r = 405).
Proof.
  apply (signed_out_requests_are_inert PostWorkspace Sample.accepting
           (mkRequest "POST" QMissing None
              (Some (mkBody (Has "demo") (Has "https://github.com/x/y"))))
           Sample.db_no_analysis).
  reflexivity.
Defined.

Lemma observable_keys_agree (d : Db) : db_observable d -> keys_agree d.
Proof.
  apply observable_invariant.
  - intros d0 email t Hd _. exact Hd.
  - intros d0 wid a t sd a0 f [Hw Ha] Hrow _. split; [exact Hw|].
    intros id a'. cbn [analyses workspaces].
    destruct (decide (wid = id)) as [<-|Hne].
    + rewrite lookup_insert_eq. intros [= <-]. cbn. apply (Ha wid a Hrow).
    + rewrite lookup_insert_ne by exact Hne. apply Ha.
  - intros d0 wid a t t' doc [Hw Ha] Hrow. split; [exact Hw|].
    intros id a'. cbn [analyses workspaces].
    destruct (decide (wid = id)) as [<-|Hne].
    + rewrite lookup_insert_eq. intros [= <-]. cbn. apply (Ha wid a Hrow).
    + rewrite lookup_insert_ne by exact Hne. apply Ha.
  - intros d0 w [Hw Ha] _ Hfresh. split; cbn [analyses workspaces].
    + intros id w'. destruct (decide (workspace_id w = id)) as [<-|Hne].
      * rewrite lookup_insert_eq. intros [= <-]. reflexivity.
      * rewrite lookup_insert_ne by exact Hne. apply Hw.
    + intros id a Hrow. destruct (Ha id a Hrow) as [Hid Hsome].
      split; [exact Hid|].
      destruct (decide (workspace_id w = id)) as [<-|Hne].
      * rewrite lookup_insert_eq. eauto.
      * rewrite lookup_insert_ne by exact Hne. exact Hsome.
  - intros d0 aid wid ext st su ru t [Hw Ha] _ _ Hsome.
    split; [exact Hw|]. intros id a. cbn [analyses workspaces].
    destruct (decide (wid = id)) as [<-|Hne].
    + rewrite lookup_insert_eq. intros [= <-]. cbn. auto.
    + rewrite lookup_insert_ne by exact Hne. apply Ha.
  - split; intros id x Hx; cbn in Hx; rewrite lookup_empty in Hx;
      discriminate.
Qed.

(** X9.  In every state of the tables that requests reach or pass through,
    each workspace sits under its own workspace_id and its owner has a row
    in [User], each Analysis sits under the workspaceId it carries, and that
    workspace exists: at most one Analysis per workspace, none without
    one. *)
Theorem tables_keys_agree d :
  db_observable d ->
  (forall id w, workspaces d !! id = Some w -> workspace_id w = id) /\
  (forall id a, analyses d !! id = Some a ->
     workspaceId a = id /\ is_Some (workspaces d !! id)) /\
  (forall id w, workspaces d !! id = Some w ->
     is_Some (users d !! ws_email w)).
Proof.
  intros Hd. destruct (observable_keys_agree d Hd) as [Hw Ha].
  split; [exact Hw|]. split; [exact Ha|]. exact (observable_owners d Hd).
Qed.

Lemma tables_keys_agree_witness :
  (forall id w, workspaces Sample.db_zero !! id = Some w ->
     workspace_id w = id) /\
  (forall id a, analyses Sample.db_zero !! id = Some a ->
     workspaceId a = id /\ is_Some (workspaces Sample.db_zero !! id)) /\
  (forall id w, workspaces Sample.db_zero !! id = Some w ->
     is_Some (users Sample.db_zero !! ws_email w)).
Proof.
  apply (tables_keys_agree Sample.db_zero).
  left. do 3 apply reach_request. apply reach_empty.
Defined.

(** X29.  In every state of the tables that requests reach or pass
    through, an Analysis that has a result has its completedAt, and no
    result is the JSON [null]: the only write of a result sets completedAt
    with it, and nothing clears completedAt. *)
Theorem result_comes_with_completedAt d id a :
  db_observable d -> analyses d !! id = Some a ->
  (result a <> None -> completedAt a <> None) /\ result a <> Some JNull.
Proof.
  intros Hd Ha. destruct (observable_completed d Hd id a Ha) as [Hn Hc].
  split; assumption.
Qed.

Lemma result_comes_with_completedAt_witness :
  (result Sample.zero_row <> None -> completedAt Sample.zero_row <> None) /\
  result Sample.zero_row <> Some JNull.
Proof.
  apply (result_comes_with_completedAt Sample.db_zero "w2" Sample.zero_row).
  - left. do 3 apply reach_request. apply reach_empty.
  - vm_compute. reflexivity.
Defined.

(** X30.  In every state of the tables that requests reach or pass
    through, the progress of an Analysis is null or an integer of 32 bits:
    what the INTEGER column cannot hold is never written. *)
Theorem stored_progress_fits_the_column d id a n :
  db_observable d -> analyses d !! id = Some a -> progress a = Some n ->
  -2147483648 <= n <= 2147483647.
Proof.
  intros Hd Ha Hn. pose proof (observable_progress d Hd id a Ha) as Hp.
  unfold progress_ok in Hp. rewrite Hn in Hp. unfold int32 in Hp.
  apply andb_true_iff in Hp as [H1 H2]. lia.
Qed.

Lemma stored_progress_fits_the_column_witness :
  -2147483648 <= 100 <= 2147483647.
Proof.
  apply (stored_progress_fits_the_column Sample.db_zero "w2" Sample.zero_row
           100).
  - left. do 3 apply reach_request. apply reach_empty.
  - vm_compute. reflexivity.
  - reflexivity.
Defined.

(** ** GET workspace *)

(** X10.  GET workspace is a pure read, in both revisions: it never changes
    a table and never calls the analyzer, and its answer does not depend on
    the analyzer or the clock. *)
Theorem getWorkspace_is_a_pure_read e e' req d :
  getWorkspace e req d = (fst (fst (getWorkspace e' req d)), d, []) /\
  run (workspace_handler_plain req) e d
  = (fst (fst (run (workspace_handler_plain req) e' d)), d, []).
Proof.
  split; hsimpl;
    (destruct (query_id req) as [|id|l]; hsimpl; [reflexivity| |reflexivity];
     destruct (truthy_str id); hsimpl; [|reflexivity];
     destruct (session_email req) as [email|]; hsimpl; [|reflexivity];
     destruct (truthy_str email); hsimpl; [|reflexivity];
     destruct (workspaces d !! id) as [w|]; hsimpl; [|reflexivity];
     destruct (String.eqb (ws_email w) email); hsimpl; reflexivity).
Qed.

(** X11.  For a signed-in caller, GET workspace answers 200 exactly when the
    workspace exists and belongs to the caller: then the second revision
    sends the workspace with the summary of its Analysis (or none), the
    first the workspace alone; otherwise both answer 404. *)
Theorem getWorkspace_owner_only e req id email d :
  valid_workspace_request req id email ->
  (exists w, owned_by d id email w /\
     fst (fst (getWorkspace e req d))
     = Val (mkResponse 200
              (PWorkspaceAnalysis w (option_map summary_of (analyses d !! id))))
     /\
     fst (fst (run (workspace_handler_plain req) e d))
     = Val (mkResponse 200 (PWorkspace w))) \/
  ((forall w, ~ owned_by d id email w) /\
   fst (fst (getWorkspace e req d))
   = Val (mkResponse 404 (PError "Workspace not found")) /\
   fst (fst (run (workspace_handler_plain req) e d))
   = Val (mkResponse 404 (PError "Workspace not found"))).
Proof.
  intros (Hq & Hid & Hs & He). unfold owned_by.
  hsimpl. rewrite Hq, Hid, Hs, He. hsimpl.
  destruct (workspaces d !! id) as [w|] eqn:Hw; hsimpl.
  - destruct (String.eqb (ws_email w) email) eqn:Hown; hsimpl.
    + left. exists w. auto.
    + right. split; [|auto]. intros w' [[= <-] Hw']. congruence.
  - right. split; [|auto]. intros w' [Hw' _]. discriminate.
Qed.

Lemma getWorkspace_owner_only_witness :
  (exists w, owned_by (Sample.db_with Sample.done) "w1" Sample.alice w /\
     fst (fst (getWorkspace Sample.offline (Sample.get_status Sample.alice)
                 (Sample.db_with Sample.done)))
     = Val (mkResponse 200
              (PWorkspaceAnalysis w
                 (option_map summary_of
                    (analyses (Sample.db_with Sample.done) !! "w1")))) /\
     fst (fst (run (workspace_handler_plain (Sample.get_status Sample.alice))
                 Sample.offline (Sample.db_with Sample.done)))
     = Val (mkResponse 200 (PWorkspace w))) \/
  ((forall w, ~ owned_by (Sample.db_with Sample.done) "w1" Sample.alice w) /\
   fst (fst (getWorkspace Sample.offline (Sample.get_status Sample.alice)
               (Sample.db_with Sample.done)))
   = Val (mkResponse 404 (PError "Workspace not found")) /\
   fst (fst (run (workspace_handler_plain (Sample.get_status Sample.alice))
               Sample.offline (Sample.db_with Sample.done)))
   = Val (mkResponse 404 (PError "Workspace not found"))).
Proof.
  apply (getWorkspace_owner_only Sample.offline
           (Sample.get_status Sample.alice) "w1" Sample.alice
           (Sample.db_with Sample.done)).
  repeat split; reflexivity.
Defined.

(** ** POST workspace *)

Lemma trimStart_starts_clean (s : string) : starts_clean (trimStart s).
Proof.
  induction s as [|c s IH]; cbn; [exact Logic.I|].
  destruct (is_space c) eqn:Hc; [exact IH|exact Hc].
Qed.

Lemma trimEnd_starts_clean (s : string) :
  starts_clean s -> starts_clean (trimEnd s).
Proof.
  destruct s as [|c s]; cbn -[is_space]; [auto|].
  intros Hc. rewrite Hc. exact Hc.
Qed.

Lemma trimEnd_ends_clean (s : string) : ends_clean (trimEnd s).
Proof.
  induction s as [|c s IH]; cbn -[is_space]; [exact Logic.I|].
  destruct (is_space c) eqn:Hc; cbn -[is_space].
  - destruct (trimEnd s) as [|c' r] eqn:Hr; cbn -[is_space];
      [exact Logic.I|exact IH].
  - destruct (trimEnd s) as [|c' r] eqn:Hr; cbn -[is_space];
      [exact Hc|exact IH].
Qed.

Lemma trim_clean (s : string) : starts_clean (trim s) /\ ends_clean (trim s).
Proof.
  unfold trim. split.
  - apply trimEnd_starts_clean, trimStart_starts_clean.
  - apply trimEnd_ends_clean.
Qed.

(** A create request is turned down with the tables untouched, or it is
    valid, its user is there, the identifier is free, and the workspace is
    written, alone or with its Analysis. *)
Lemma createWorkspace_outcome e req d :
  (exists r, createWorkspace e req d = (Val r, d, []) /\ code r <> 201 /\
     forall email name repo,
       ~ (valid_create_request req email name repo /\ has_user d email /\
          fresh_id e d)) \/
  (exists email name repo p l,
     valid_create_request req email name repo /\ has_user d email /\
     fresh_id e d /\
     ((createWorkspace e req d
       = (Val (mkResponse 201 p),
          with_workspace (new_workspace e email name repo) d, l) /\
       p = PWorkspace (new_workspace e email name repo)) \/
      (analyses d !! new_workspace_id e = None /\
       exists ok body a,
         analyze_reply e (trim repo) (new_workspace_id e) = Resp ok body /\
         initial_analysis (new_analysis_id e) (new_workspace_id e) (now e)
           body = Some a /\
         createWorkspace e req d
         = (Val (mkResponse 201 p),
            with_analysis (new_workspace e email name repo) a d, l) /\
         p = PCreated (new_workspace e email name repo)
               (mkCreatedSummary (an_id a) (status a) (status_url a)
                  (result_url a) false)))).
Proof.
  unfold valid_create_request, has_user, fresh_id. hsimpl.
  destruct (method req =? "POST")%string eqn:Hm; hsimpl.
  2:{ left. eexists. split; [reflexivity|]. split; [discriminate|].
      intros email name repo [(Hm' & _) _]. rewrite Hm' in Hm. discriminate. }
  apply String.eqb_eq in Hm.
  destruct (session_email req) as [email|] eqn:Hs; hsimpl.
  2:{ left. eexists. split; [reflexivity|]. split; [discriminate|].
      intros email name repo [(_ & Hs' & _) _]. discriminate. }
  destruct (truthy_str email) eqn:He; hsimpl.
  2:{ left. eexists. split; [reflexivity|]. split; [discriminate|].
      intros email' name repo [(_ & [= <-] & He' & _) _]. congruence. }
  destruct (body req) as [b|] eqn:Hb; hsimpl.
  2:{ left. eexists. split; [reflexivity|]. split; [discriminate|].
      intros email' name repo [(_ & _ & _ & Hb' & _) _]. discriminate. }
  destruct b as [bn br]. hsimpl.
  destruct bn as [| |name]; hsimpl;
    try (left; eexists; (split; [reflexivity|]); (split; [discriminate|]);
         intros email' name' repo' [(_ & _ & _ & Hb' & _) _]; discriminate).
  destruct (truthy_str name) eqn:Hn; hsimpl.
  2:{ left. eexists. split; [reflexivity|]. split; [discriminate|].
      intros email' name' repo' [(_ & _ & _ & [= <- _] & Hn' & _) _].
      congruence. }
  destruct (truthy_str (trim name)) eqn:Hnt; hsimpl.
  2:{ left. eexists. split; [reflexivity|]. split; [discriminate|].
      intros email' name' repo' [(_ & _ & _ & [= <- _] & _ & Hn' & _) _].
      congruence. }
  destruct br as [| |repo]; hsimpl;
    try (left; eexists; (split; [reflexivity|]); (split; [discriminate|]);
         intros email' name' repo' [(_ & _ & _ & Hb' & _) _]; discriminate).
  destruct (truthy_str repo) eqn:Hr; hsimpl.
  2:{ left. eexists. split; [reflexivity|]. split; [discriminate|].
      intros email' name' repo' [(_ & _ & _ & [= _ <-] & _ & _ & Hr' & _) _].
      congruence. }
  destruct (includes repo "github.com") eqn:Hg; hsimpl.
  2:{ left. eexists. split; [reflexivity|]. split; [discriminate|].
      intros email' name' repo'
        [(_ & _ & _ & [= _ <-] & _ & _ & _ & Hg') _].
      congruence. }
  destruct (users d !! email) as [u|] eqn:Hu; hsimpl.
  2:{ left. eexists. split; [reflexivity|]. split; [discriminate|].
      intros email' name' repo' [(_ & [= <-] & _) [[u' Hu'] _]].
      congruence. }
  destruct (workspaces d !! new_workspace_id e) as [w0|] eqn:Hfresh; hsimpl.
  { left. eexists. split; [reflexivity|]. split; [discriminate|].
    intros email' name' repo' [_ [_ Hf]]. congruence. }
  right. exists email, name, repo.
  assert (method req = "POST" /\ Some email = Some email /\
          truthy_str email = true /\
          Some (mkBody (Has name) (Has repo))
          = Some (mkBody (Has name) (Has repo)) /\
          truthy_str name = true /\ truthy_str (trim name) = true /\
          truthy_str repo = true /\ includes repo "github.com" = true)
    as Hvalid by (repeat split; assumption).
  assert (is_Some (users d !! email)) as Hsome by (rewrite Hu; eauto).
  destruct (analyze_reply e (trim repo) (new_workspace_id e))
    as [|ok body] eqn:Hrep; hsimpl.
  { do 2 eexists. split; [exact Hvalid|]. split; [exact Hsome|].
    split; [reflexivity|]. left. split; reflexivity. }
  destruct (normalize_url (chain ad_status_url body)) as [su|] eqn:Hsu;
    hsimpl.
  2:{ do 2 eexists. split; [exact Hvalid|]. split; [exact Hsome|].
      split; [reflexivity|]. left. split; reflexivity. }
  destruct (normalize_url (chain ad_result_url body)) as [ru|] eqn:Hru;
    hsimpl.
  2:{ do 2 eexists. split; [exact Hvalid|]. split; [exact Hsome|].
      split; [reflexivity|]. left. split; reflexivity. }
  destruct (text_column_null (js_nullish (chain ad_workspace_id body) JNull))
    as [ext|] eqn:Hext; hsimpl.
  2:{ do 2 eexists. split; [exact Hvalid|]. split; [exact Hsome|].
      split; [reflexivity|]. left. split; reflexivity. }
  destruct (text_column (js_nullish (chain ad_status body) (JStr "pending")))
    as [st|] eqn:Hst; hsimpl.
  2:{ do 2 eexists. split; [exact Hvalid|]. split; [exact Hsome|].
      split; [reflexivity|]. left. split; reflexivity. }
  rewrite analysis_id_used_analyses.
  destruct (analysis_id_used (new_analysis_id e) d); hsimpl.
  { do 2 eexists. split; [exact Hvalid|]. split; [exact Hsome|].
    split; [reflexivity|]. left. split; reflexivity. }
  rewrite lookup_insert_eq.
  destruct (analyses d !! new_workspace_id e) as [a0|] eqn:Ha; hsimpl.
  - do 2 eexists. split; [exact Hvalid|]. split; [exact Hsome|].
    split; [reflexivity|]. left. split; reflexivity.
  - do 2 eexists. split; [exact Hvalid|]. split; [exact Hsome|].
    split; [reflexivity|].
    right. split; [reflexivity|]. exists ok, body. eexists.
    split; [reflexivity|]. unfold initial_analysis.
    rewrite Hsu, Hru, Hext, Hst. cbn [mbind option_bind].
    split; [reflexivity|]. split; reflexivity.
Qed.

(** X12.  POST workspace is all or nothing.  It answers 201 only to a
    valid request of a user who has a row in [User], and then the new
    workspace is in the table under the new identifier, no user and no row
    of any other workspace has changed.  With any other answer the tables
    are as they were and the analyzer was not called. *)
Theorem createWorkspace_all_or_nothing e req d :
  exists r, fst (fst (createWorkspace e req d)) = Val r /\
    ((code r = 201 /\
      (exists email name repo,
         valid_create_request req email name repo /\ has_user d email /\
         fresh_id e d /\
         workspaces (snd (fst (createWorkspace e req d))) !! new_workspace_id e
         = Some (new_workspace e email name repo)) /\
      users (snd (fst (createWorkspace e req d))) = users d /\
      (forall id, id <> new_workspace_id e ->
         workspaces (snd (fst (createWorkspace e req d))) !! id
         = workspaces d !! id /\
         analyses (snd (fst (createWorkspace e req d))) !! id
         = analyses d !! id)) \/
     (code r <> 201 /\
      snd (fst (createWorkspace e req d)) = d /\
      snd (createWorkspace e req d) = [])).
Proof.
  destruct (createWorkspace_outcome e req d)
    as [(r & Heq & Hc & Hno)
       |(email & name & repo & p & l & Hv & Hu & Hf & Hcase)].
  - exists r. rewrite Heq. split; [reflexivity|]. right. auto.
  - exists (mkResponse 201 p).
    destruct Hcase as [[Heq _] | (Ha & ok & body & a & _ & _ & Heq & _)];
      rewrite Heq; (split; [reflexivity|]); left;
      (split; [reflexivity|]); cbn [fst snd with_workspace with_analysis
                                     workspaces analyses users new_workspace
                                     workspace_id].
    + split; [|split; [reflexivity|]].
      * exists email, name, repo. split; [exact Hv|]. split; [exact Hu|].
        split; [exact Hf|]. apply lookup_insert_eq.
      * intros id Hne. split; [|reflexivity].
        apply lookup_insert_ne. congruence.
    + split; [|split; [reflexivity|]].
      * exists email, name, repo. split; [exact Hv|]. split; [exact Hu|].
        split; [exact Hf|]. apply lookup_insert_eq.
      * intros id Hne.
        split; apply lookup_insert_ne; congruence.
Qed.

(** X13.  The workspace that a 201 stores belongs to the caller and carries
    the name and the repository URL trimmed: the name is not empty, and
    neither field starts or ends with white space. *)
Theorem created_workspace_is_trimmed e req d p :
  fst (fst (createWorkspace e req d)) = Val (mkResponse 201 p) ->
  exists w,
    workspaces (snd (fst (createWorkspace e req d))) !! new_workspace_id e
    = Some w /\
    session_email req = Some (ws_email w) /\
    truthy_str (ws_name w) = true /\
    starts_clean (ws_name w) /\ ends_clean (ws_name w) /\
    starts_clean (github_repository w) /\ ends_clean (github_repository w).
Proof.
  destruct (createWorkspace_outcome e req d)
    as [(r & Heq & Hc & Hno)
       |(email & name & repo & p' & l & Hv & Hu & Hf & Hcase)].
  - rewrite Heq. cbn. intros [= ->]. destruct Hc. reflexivity.
  - intros _. exists (new_workspace e email name repo).
    destruct Hv as (_ & Hs & _ & _ & _ & Hnt & _).
    assert (workspaces (snd (fst (createWorkspace e req d)))
            !! new_workspace_id e = Some (new_workspace e email name repo))
      as Hw.
    { destruct Hcase as [[Heq _] | (Ha & ok & body & a & _ & _ & Heq & _)];
        rewrite Heq; cbn; apply lookup_insert_eq. }
    split; [exact Hw|]. cbn [new_workspace ws_email ws_name github_repository].
    split; [exact Hs|]. split; [exact Hnt|].
    pose proof (trim_clean name) as [? ?].
    pose proof (trim_clean repo) as [? ?]. auto.
Qed.

Lemma created_workspace_is_trimmed_witness :
  exists w,
    workspaces (snd (fst (createWorkspace Sample.accepting More.post_padded
                            Sample.db_no_analysis))) !! "w2" = Some w /\
    ws_name w = "demo" /\ github_repository w = "https://github.com/x/y".
Proof.
  destruct (created_workspace_is_trimmed Sample.accepting More.post_padded
              Sample.db_no_analysis
              (PCreated
                 (mkWorkspace "w2" "demo" "https://github.com/x/y"
                    Sample.alice 300 300)
                 (mkCreatedSummary "a2" "pending"
                    (Some "http://0.0.0.0:8000/api/status/abc")
                    (Some "https://analyzer.example/api/result/abc") false))
              ltac:(vm_compute; reflexivity)) as (w & Hw & _).
  exists w. split; [exact Hw|].
  assert (Some w = Some (mkWorkspace "w2" "demo" "https://github.com/x/y"
                           Sample.alice 300 300)) as [= ->]
    by (rewrite <- Hw; vm_compute; reflexivity).
  split; reflexivity.
Defined.

(** X14.  The second revision of POST workspace only adds to the first: on
    every request both give the same status code and leave the same
    users and workspaces, and the first never touches an Analysis. *)
Theorem create_revisions_agree e req d :
  exists c p1 p2,
    fst (fst (run (create_handler_plain req) e d)) = Val (mkResponse c p1) /\
    fst (fst (createWorkspace e req d)) = Val (mkResponse c p2) /\
    workspaces (snd (fst (createWorkspace e req d)))
    = workspaces (snd (fst (run (create_handler_plain req) e d))) /\
    users (snd (fst (createWorkspace e req d)))
    = users (snd (fst (run (create_handler_plain req) e d))) /\
    analyses (snd (fst (run (create_handler_plain req) e d))) = analyses d.
Proof.
  hsimpl.
  destruct (method req =? "POST")%string; hsimpl; [|eauto 10].
  destruct (session_email req) as [email|]; hsimpl; [|eauto 10].
  destruct (truthy_str email); hsimpl; [|eauto 10].
  destruct (body req) as [[bn br]|]; hsimpl; [|eauto 10].
  destruct bn as [| |name]; hsimpl; [eauto 10|eauto 10|].
  destruct (truthy_str name); hsimpl; [|eauto 10].
  destruct (truthy_str (trim name)); hsimpl; [|eauto 10].
  destruct br as [| |repo]; hsimpl; [eauto 10|eauto 10|].
  destruct (truthy_str repo); hsimpl; [|eauto 10].
  destruct (includes repo "github.com"); hsimpl; [|eauto 10].
  destruct (users d !! email); hsimpl; [|eauto 10].
  destruct (workspaces d !! new_workspace_id e); hsimpl; [eauto 10|].
  destruct (analyze_reply e (trim repo) (new_workspace_id e)) as [|ok body];
    hsimpl; [eauto 10|].
  destruct (normalize_url (chain ad_status_url body)); hsimpl; [|eauto 10].
  destruct (normalize_url (chain ad_result_url body)); hsimpl; [|eauto 10].
  destruct (text_column_null (js_nullish (chain ad_workspace_id body) JNull));
    hsimpl; [|eauto 10].
  destruct (text_column (js_nullish (chain ad_status body) (JStr "pending")));
    hsimpl; [|eauto 10].
  rewrite analysis_id_used_analyses.
  destruct (analysis_id_used (new_analysis_id e) d); hsimpl; [eauto 10|].
  rewrite lookup_insert_eq.
  destruct (analyses d !! new_workspace_id e); hsimpl; eauto 10.
Qed.

Lemma initial_analysis_fresh (aid wid : string) (t : Time)
  (analyzeData : option AnalyzeData) (a : Analysis) :
  initial_analysis aid wid t analyzeData = Some a ->
  an_id a = aid /\ workspaceId a = wid /\ progress a = None /\
  message a = None /\ current_step a = None /\ result a = None /\
  completedAt a = None /\
  normalize_url (chain ad_status_url analyzeData) = Some (status_url a).
Proof.
  unfold initial_analysis.
  destruct (normalize_url (chain ad_status_url analyzeData)) as [su|];
    [|discriminate].
  destruct (normalize_url (chain ad_result_url analyzeData)) as [ru|];
    [|discriminate].
  destruct (text_column_null _) as [ext|]; [|discriminate].
  destruct (text_column _) as [st|]; [|discriminate].
  intros [= <-]. repeat split; reflexivity.
Qed.

(** What a 201 of POST workspace leaves in the tables. *)
Lemma created_tables e req d p :
  fst (fst (createWorkspace e req d)) = Val (mkResponse 201 p) ->
  exists email name repo,
    valid_create_request req email name repo /\ fresh_id e d /\
    workspaces (snd (fst (createWorkspace e req d))) !! new_workspace_id e
    = Some (new_workspace e email name repo) /\
    ((p = PWorkspace (new_workspace e email name repo) /\
      analyses (snd (fst (createWorkspace e req d))) = analyses d) \/
     (exists ok body a,
        analyze_reply e (trim repo) (new_workspace_id e) = Resp ok body /\
        initial_analysis (new_analysis_id e) (new_workspace_id e) (now e)
          body = Some a /\
        p = PCreated (new_workspace e email name repo)
              (mkCreatedSummary (an_id a) (status a) (status_url a)
                 (result_url a) false) /\
        analyses (snd (fst (createWorkspace e req d))) !! new_workspace_id e
        = Some a)).
Proof.
  intros H201.
  destruct (createWorkspace_outcome e req d)
    as [(r & Heq & Hc & _)
       |(email & name & repo & p' & l & Hv & _ & Hf & Hcase)].
  - rewrite Heq in H201. injection H201 as ->. destruct Hc. reflexivity.
  - exists email, name, repo. split; [exact Hv|]. split; [exact Hf|].
    destruct Hcase
      as [[Heq Hp] | (Hnone & ok & body & a & Hrep & Hini & Heq & Hp)].
    + rewrite Heq in *. injection H201 as <-.
      split; [apply lookup_insert_eq|]. left. split; [exact Hp|reflexivity].
    + rewrite Heq in *. injection H201 as <-.
      split; [apply lookup_insert_eq|]. right. exists ok, body, a.
      split; [exact Hrep|]. split; [exact Hini|].
      split; [exact Hp|apply lookup_insert_eq].
Qed.

(** X15.  What POST workspace stores, GET workspace gives back to its owner
    and to nobody else: after a 201, the caller's GET for the new id answers
    200 with the stored workspace and the summary of its fresh Analysis (no
    result, not completed) if one was made, and any other user's GET answers
    404. *)
Theorem created_workspace_is_served_to_owner e req d p email e' req' email' :
  fst (fst (createWorkspace e req d)) = Val (mkResponse 201 p) ->
  session_email req = Some email -> db_wf d ->
  valid_workspace_request req' (new_workspace_id e) email' ->
  let d' := snd (fst (createWorkspace e req d)) in
  (email' = email ->
   exists w s,
     workspaces d' !! new_workspace_id e = Some w /\
     fst (fst (getWorkspace e' req' d'))
     = Val (mkResponse 200 (PWorkspaceAnalysis w s)) /\
     forall a, s = Some a ->
       as_hasResult a = false /\ as_result a = None /\
       as_completedAt a = None) /\
  (String.eqb email email' = false ->
   fst (fst (getWorkspace e' req' d'))
   = Val (mkResponse 404 (PError "Workspace not found"))).
Proof.
  intros H201 Hsess Hwf (Hq & Hid & Hs & He) d'.
  destruct (created_tables e req d p H201)
    as (email0 & name & repo & Hv & Hf & Hw & Hrows).
  assert (email0 = email) as ->.
  { destruct Hv as (_ & Hs0 & _). congruence. }
  fold d' in Hw, Hrows.
  pose proof (wf_fresh_analysis e d Hwf Hf) as Hnone.
  split.
  - intros ->. hsimpl. rewrite Hq, Hid, Hs, He. hsimpl. rewrite Hw. hsimpl.
    cbn [new_workspace ws_email]. rewrite String.eqb_refl. hsimpl.
    do 2 eexists. split; [reflexivity|]. split; [reflexivity|].
    intros a.
    destruct Hrows as [[_ Hsame] | (ok & body & a0 & _ & Hini & _ & Hrow)].
    + rewrite Hsame, Hnone. discriminate.
    + rewrite Hrow. cbn [option_map]. intros [= <-].
      destruct (initial_analysis_fresh _ _ _ _ _ Hini)
        as (_ & _ & _ & _ & _ & Hres & Hat & _).
      cbn. rewrite Hres, Hat. repeat split; reflexivity.
  - intros Hne. hsimpl. rewrite Hq, Hid, Hs, He. hsimpl. rewrite Hw. hsimpl.
    cbn [new_workspace ws_email]. rewrite Hne. reflexivity.
Qed.

Lemma created_workspace_is_served_to_owner_witness :
  fst (fst (getWorkspace Sample.offline (More.get_w2 Sample.bob)
              (snd (fst (createWorkspace Sample.accepting Sample.post_demo
                           Sample.db_no_analysis)))))
  = Val (mkResponse 404 (PError "Workspace not found")).
Proof.
  apply (proj2 (created_workspace_is_served_to_owner Sample.accepting
                  Sample.post_demo Sample.db_no_analysis
                  (PCreated
                     (mkWorkspace "w2" "demo" "https://github.com/x/y"
                        Sample.alice 300 300)
                     (mkCreatedSummary "a2" "pending"
                        (Some "http://0.0.0.0:8000/api/status/abc")
                        (Some "https://analyzer.example/api/result/abc")
                        false))
                  Sample.alice Sample.offline (More.get_w2 Sample.bob)
                  Sample.bob
                  ltac:(vm_compute; reflexivity) ltac:(reflexivity)
                  db_no_analysis_wf ltac:(repeat split; reflexivity))).
  reflexivity.
Defined.

(** ** POST workspace, then checkStatus *)

(** X16.  An Analysis that has neither a status URL nor an external id is
    never looked up at the analyzer: every checkStatus for it, any number of
    times, answers 200 with the stored status ([pending] if that is empty)
    and no Analysis, calls nothing and writes nothing.  This is the row that
    POST workspace makes when the analyzer's answer is not JSON. *)
Theorem unsubmitted_analysis_is_never_polled es req id d a :
  valid_status_request req id -> analyses d !! id = Some a ->
  truthy_result (result a) = false -> has_job a = false ->
  checkStatus_many es req d
  = (map (fun _ =>
            Val (mkResponse 200
                   (PStatus
                      (Some (JStr (or_str (Has (status a)) "pending")))
                      Missing)))
       es, d, []) /\
  (forall aid wid t,
     exists row,
       initial_analysis aid wid t None = Some row /\
       has_job row = false /\ status row = "pending").
Proof.
  intros Hv Ha Hr Hj.
  split; [|intros; eexists; split; [reflexivity|split; reflexivity]].
  induction es as [|e es IH]; [reflexivity|].
  cbn [checkStatus_many map].
  rewrite (checkStatus_not_submitted e req id d a Hv Ha Hr Hj), IH.
  reflexivity.
Qed.

Lemma unsubmitted_analysis_is_never_polled_witness :
  checkStatus_many [Sample.serving_zero; Sample.running] Sample.get_status_w2
    (snd (fst (createWorkspace Sample.failing Sample.post_demo
                 Sample.db_no_analysis)))
  = ([Val (mkResponse 200 (PStatus (Some (JStr "pending")) Missing));
      Val (mkResponse 200 (PStatus (Some (JStr "pending")) Missing))],
     snd (fst (createWorkspace Sample.failing Sample.post_demo
                 Sample.db_no_analysis)), []).
Proof.
  apply (proj1 (unsubmitted_analysis_is_never_polled
                  [Sample.serving_zero; Sample.running] Sample.get_status_w2
                  "w2"
                  (snd (fst (createWorkspace Sample.failing Sample.post_demo
                               Sample.db_no_analysis)))
                  (mkAnalysis "a2" "w2" None "pending" None None None None
                     None None 300 None 300)
                  ltac:(repeat split; reflexivity)
                  ltac:(vm_compute; reflexivity) ltac:(reflexivity)
                  ltac:(reflexivity))).
Defined.

Lemma normalize_url_truthy (x : option Json) (u : string) :
  normalize_url x = Some (Some u) -> truthy_str u = true.
Proof.
  unfold normalize_url.
  destruct x as [[|b|n|r|s|l|l]|]; cbn; try discriminate;
    try (destruct b; discriminate);
    try (destruct (negb (n =? 0)); discriminate).
  destruct (truthy_str s) eqn:Hs; [|discriminate].
  destruct (startsWith s "http"); intros [= <-]; [exact Hs|reflexivity].
Qed.

(** X17.  checkStatus asks where the create endpoint said it would: the
    status URL that the 201 of POST workspace announces for the new
    workspace is the URL that the next checkStatus for it fetches first. *)
Theorem announced_status_url_is_polled e req d w cs u e' req' :
  fst (fst (createWorkspace e req d))
  = Val (mkResponse 201 (PCreated w cs)) ->
  cs_status_url cs = Some u ->
  valid_status_request req' (new_workspace_id e) ->
  exists l,
    snd (checkStatus e' req' (snd (fst (createWorkspace e req d))))
    = EvGet u :: l.
Proof.
  intros H201 Hu (Hq & Hid & Hs).
  destruct (created_tables e req d _ H201)
    as (email & name & repo & _ & _ & _ & Hrows).
  destruct Hrows as [[Hp _] | (ok & body & a & _ & Hini & Hp & Hrow)];
    [discriminate|].
  injection Hp as _ Hcs. subst cs.
  assert (status_url a = Some u) as Hsu by exact Hu.
  destruct (initial_analysis_fresh _ _ _ _ _ Hini)
    as (_ & _ & _ & _ & _ & Hres & _ & Hnorm).
  rewrite Hsu in Hnorm.
  assert (has_job a = true) as Hj.
  { unfold has_job. rewrite Hsu. cbn [truthy_col].
    rewrite (normalize_url_truthy _ u Hnorm). reflexivity. }
  rewrite checkStatus_is_table. unfold checkStatus_table.
  rewrite Hq, Hid, Hs, Hrow, Hj, Hres. cbn [negb truthy_result].
  unfold statusUrl_of. rewrite Hsu.
  repeat case_match; cbn [snd]; eauto.
Qed.

Lemma announced_status_url_is_polled_witness :
  exists l,
    snd (checkStatus Sample.offline Sample.get_status_w2
           (snd (fst (createWorkspace Sample.accepting Sample.post_demo
                        Sample.db_no_analysis))))
    = EvGet "http://0.0.0.0:8000/api/status/abc" :: l.
Proof.
  apply (announced_status_url_is_polled Sample.accepting Sample.post_demo
           Sample.db_no_analysis
           (mkWorkspace "w2" "demo" "https://github.com/x/y" Sample.alice
              300 300)
           (mkCreatedSummary "a2" "pending"
              (Some "http://0.0.0.0:8000/api/status/abc")
              (Some "https://analyzer.example/api/result/abc") false)
           "http://0.0.0.0:8000/api/status/abc" Sample.offline
           Sample.get_status_w2).
  - vm_compute. reflexivity.
  - reflexivity.
  - repeat split; reflexivity.
Defined.

(** ** Sign-in *)

Lemma workspace_items_spec (email : string) (d : Db) (it : WorkspaceItem) :
  In it (map item_of
           (List.filter (fun w => String.eqb (ws_email w) email)
              (map snd (map_to_list (workspaces d))))) <->
  exists id w, workspaces d !! id = Some w /\
    String.eqb (ws_email w) email = true /\ it = item_of w.
Proof.
  rewrite in_map_iff. split.
  - intros (w & <- & Hin). apply filter_In in Hin as [Hin Hown].
    apply in_map_iff in Hin as ([id w'] & Hw & Hin). cbn in Hw. subst w'.
    apply list_elem_of_In, elem_of_map_to_list in Hin. eauto.
  - intros (id & w & Hw & Hown & ->). exists w. split; [reflexivity|].
    apply filter_In. split; [|exact Hown].
    apply in_map_iff. exists (id, w). split; [reflexivity|].
    apply list_elem_of_In, elem_of_map_to_list, Hw.
Qed.

(** X18.  Sign-in lists the caller's workspaces and only those: a POST by a
    signed-in user answers 200 with that user's e-mail and with exactly the
    workspaces whose owner is that e-mail, each with its id, name,
    repository and creation time. *)
Theorem signin_lists_own_workspaces e req d email :
  method req = "POST" -> session_email req = Some email ->
  truthy_str email = true ->
  exists l,
    fst (fst (signIn e req d)) = Val (mkResponse 200 (PSignedIn email l)) /\
    forall it,
      In it l <->
      exists id w, workspaces d !! id = Some w /\
        String.eqb (ws_email w) email = true /\ it = item_of w.
Proof.
  intros Hm Hs He. hsimpl.
  rewrite Hm, String.eqb_refl, Hs, He. hsimpl.
  destruct (users d !! email) as [u|] eqn:Hu; hsimpl; rewrite ?Hu; hsimpl;
    (eexists; split; [reflexivity|]); intros it;
    apply workspace_items_spec.
Qed.

Lemma signin_lists_own_workspaces_witness :
  exists l,
    fst (fst (signIn Sample.offline (Sample.signin_request Sample.alice)
                More.shared))
    = Val (mkResponse 200 (PSignedIn Sample.alice l)) /\
    In (item_of Sample.ws) l /\ ~ In (item_of More.bobs) l.
Proof.
  destruct (signin_lists_own_workspaces Sample.offline
              (Sample.signin_request Sample.alice) More.shared Sample.alice
              ltac:(reflexivity) ltac:(reflexivity) ltac:(reflexivity))
    as (l & Hl & Hin).
  exists l. split; [exact Hl|]. split.
  - apply Hin. exists "w1", Sample.ws. repeat split; reflexivity.
  - intros Hb. apply Hin in Hb as (id & w & Hw & Hown & Hit).
    assert (workspace_id w = "w9") as Hid by (injection Hit; congruence).
    assert (id = "w1" \/ id = "w9") as [-> | ->].
    { unfold More.shared in Hw. cbn [workspaces] in Hw.
      destruct (decide (id = "w9")) as [->|Hne]; [auto|].
      rewrite lookup_insert_ne in Hw by congruence.
      destruct (decide (id = "w1")) as [->|Hne']; [auto|].
      rewrite lookup_singleton_ne in Hw by congruence. discriminate. }
    + vm_compute in Hw. injection Hw as <-. discriminate.
    + vm_compute in Hw. injection Hw as <-. discriminate.
Defined.

(** What sign-in does to the tables. *)
Lemma signIn_outcome e e' req d :
  exists r,
    fst (fst (signIn e req d)) = Val r /\
    let d' := snd (fst (signIn e req d)) in
    workspaces d' = workspaces d /\ analyses d' = analyses d /\
    (forall em u, users d !! em = Some u -> users d' !! em = Some u) /\
    (forall em, session_email req <> Some em ->
       users d' !! em = users d !! em) /\
    signIn e' req d' = (Val r, d', []) /\
    (code r = 200 ->
     exists email, session_email req = Some email /\
       is_Some (users d' !! email)) /\
    (code r <> 200 -> d' = d /\ snd (signIn e req d) = []).
Proof.
  hsimpl.
  destruct (negb (method req =? "POST")%string) eqn:Hm; hsimpl.
  { eexists. split; [reflexivity|]. repeat split; auto; discriminate. }
  destruct (session_email req) as [email|] eqn:Hs; hsimpl.
  2:{ eexists. split; [reflexivity|]. repeat split; auto; discriminate. }
  destruct (negb (truthy_str email)) eqn:He; hsimpl.
  { eexists. split; [reflexivity|]. repeat split; auto; discriminate. }
  destruct (users d !! email) as [u|] eqn:Hu; hsimpl.
  - eexists. split; [reflexivity|]. cbn zeta. rewrite Hu. hsimpl.
    repeat split; auto; try (intros Hc; destruct Hc; reflexivity).
    intros _. exists email. rewrite Hu. eauto.
  - rewrite Hu. hsimpl.
    eexists. split; [reflexivity|]. cbn zeta. rewrite lookup_insert_eq.
    hsimpl. repeat split.
    + intros em u' Hu'. rewrite lookup_insert_ne; [exact Hu'|congruence].
    + intros em Hne. apply lookup_insert_ne. congruence.
    + intros _. exists email. rewrite lookup_insert_eq. eauto.
    + match goal with H : _ <> 200 |- _ => destruct H; reflexivity end.
    + match goal with H : _ <> 200 |- _ => destruct H; reflexivity end.
Qed.

(** X19.  Sign-in writes at most one row, once: it never changes a
    workspace or an Analysis, never changes or removes a user that is
    there, adds the caller's User row only when it is missing, and asked
    again gives the same answer and changes nothing.  When it does not
    answer 200 it changes nothing at all. *)
Theorem signin_is_idempotent e e' req d :
  exists r,
    fst (fst (signIn e req d)) = Val r /\
    let d' := snd (fst (signIn e req d)) in
    workspaces d' = workspaces d /\ analyses d' = analyses d /\
    (forall em u, users d !! em = Some u -> users d' !! em = Some u) /\
    (forall em, session_email req <> Some em ->
       users d' !! em = users d !! em) /\
    signIn e' req d' = (Val r, d', []) /\
    (code r = 200 ->
     exists email, session_email req = Some email /\
       is_Some (users d' !! email)) /\
    (code r <> 200 -> d' = d /\ snd (signIn e req d) = []).
Proof. exact (signIn_outcome e e' req d). Qed.

(** ** Sign-in, then POST workspace *)

(** X28.  POST workspace needs the caller's row in [User].  A valid request
    of a caller without that row is answered 500 with the tables as they
    were and nothing sent to the analyzer; once the caller has signed in,
    the same request is answered 201 and stores the workspace. *)
Theorem create_needs_the_users_row e req d email name repo :
  valid_create_request req email name repo -> fresh_id e d ->
  (users d !! email = None ->
   createWorkspace e req d
   = (Val (mkResponse 500 (PError "Internal server error")), d, [])) /\
  (forall e0 req0,
     method req0 = "POST" -> session_email req0 = Some email ->
     let d1 := snd (fst (signIn e0 req0 d)) in
     exists p,
       fst (fst (createWorkspace e req d1)) = Val (mkResponse 201 p) /\
       workspaces (snd (fst (createWorkspace e req d1))) !! new_workspace_id e
       = Some (new_workspace e email name repo)).
Proof.
  intros Hv Hfresh. split.
  - intros Hu.
    destruct Hv as (Hm & Hs & He & Hb & Hn & Hnt & Hr & Hg).
    hsimpl. rewrite Hm, String.eqb_refl, Hs, He, Hb. hsimpl.
    rewrite Hn, Hnt, Hr, Hg. hsimpl. rewrite Hu. reflexivity.
  - intros e0 req0 Hm0 Hs0 d1.
    destruct (signIn_outcome e0 e0 req0 d)
      as (r & Hr & Hws & _ & _ & _ & _ & H200 & _).
    fold d1 in Hws, H200.
    assert (code r = 200) as Hc.
    { revert Hr. hsimpl. rewrite Hm0, String.eqb_refl, Hs0.
      pose proof Hv as (_ & _ & He & _). hsimpl. rewrite He. hsimpl.
      destruct (users d !! email) eqn:Hu0; hsimpl; rewrite ?Hu0; hsimpl;
        intros H; inversion H; reflexivity. }
    destruct (H200 Hc) as (email' & Hs' & Hu).
    assert (email' = email) as -> by congruence.
    assert (fresh_id e d1) as Hfresh1
        by (unfold fresh_id; rewrite Hws; exact Hfresh).
    destruct (createWorkspace_outcome e req d1)
      as [(r' & _ & _ & Hno)
         |(email1 & name1 & repo1 & p & l & Hv1 & _ & _ & Hcase)].
    + destruct (Hno email name repo). auto.
    + assert (email1 = email /\ name1 = name /\ repo1 = repo)
        as (-> & -> & ->).
      { destruct Hv as (_ & Hs & _ & Hb & _).
        destruct Hv1 as (_ & Hs1 & _ & Hb1 & _).
        rewrite Hs in Hs1. rewrite Hb in Hb1.
        injection Hs1 as <-. injection Hb1 as <- <-. auto. }
      exists p.
      destruct Hcase as [[Heq _] | (_ & ok & body & a & _ & _ & Heq & _)];
        rewrite Heq; (split; [reflexivity|]); cbn; apply lookup_insert_eq.
Qed.

Lemma create_needs_the_users_row_witness :
  createWorkspace Sample.accepting Sample.post_demo empty_db
  = (Val (mkResponse 500 (PError "Internal server error")), empty_db, []) /\
  exists p,
    fst (fst (createWorkspace Sample.accepting Sample.post_demo
                Sample.db_signed))
    = Val (mkResponse 201 p).
Proof.
  destruct (create_needs_the_users_row Sample.accepting Sample.post_demo
              empty_db Sample.alice "demo" "https://github.com/x/y"
              ltac:(repeat split; reflexivity) ltac:(reflexivity))
    as [Hnone Hsigned].
  split; [apply Hnone; reflexivity|].
  destruct (Hsigned Sample.offline (Sample.signin_request Sample.alice)
              eq_refl eq_refl) as (p & Hp & _).
  exists p. exact Hp.
Defined.

(** ** The dashboard form and the create endpoint *)

Lemma startsWith_app (s p1 p2 : string) :
  startsWith s (p1 +:+ p2) = true -> startsWith s p1 = true.
Proof. unfold startsWith. apply prefix_app_l. Qed.

Lemma includes_app (s p1 p2 : string) :
  includes s (p1 +:+ p2) = true -> includes s p1 = true.
Proof.
  induction s as [|c s IH]; cbn [includes]; intros H;
    apply orb_true_iff in H as [H|H]; apply orb_true_iff.
  - left. eapply startsWith_app, H.
  - discriminate.
  - left. eapply startsWith_app, H.
  - right. apply IH, H.
Qed.

Lemma trim_empty_source (s : string) :
  truthy_str (trim s) = true -> truthy_str s = true.
Proof. destruct s; [discriminate|reflexivity]. Qed.

Lemma trimEnd_cons_clean (c : ascii) (s : string) :
  is_space c = false -> trimEnd (String c s) = String c (trimEnd s).
Proof. intros Hc. cbn -[is_space]. rewrite Hc. reflexivity. Qed.

Lemma includes_trim (s : string) (c : ascii) (p : string) :
  is_space c = false -> includes s (String c p) = true ->
  truthy_str (trim s) = true.
Proof.
  intros Hc. unfold trim.
  induction s as [|a s IH]; cbn [includes]; intros H;
    apply orb_true_iff in H as [H|H].
  - discriminate.
  - discriminate.
  - unfold startsWith in H.
    change (String.prefix (String c p) (String a s))
      with (if ascii_dec c a then String.prefix p s else false) in H.
    destruct (ascii_dec c a) as [<-|]; [|discriminate].
    cbn [trimStart]. rewrite Hc, (trimEnd_cons_clean c s Hc). reflexivity.
  - cbn [trimStart]. destruct (is_space a) eqn:Ha.
    + apply IH, H.
    + rewrite (trimEnd_cons_clean a s Ha). reflexivity.
Qed.

Lemma validateForm_accepts (fd : FormData) :
  fst (validateForm fd) = true <->
  truthy_str (fd_name fd) = true /\ truthy_str (trim (fd_name fd)) = true /\
  truthy_str (fd_github_repository fd) = true /\
  includes (fd_github_repository fd) "github.com" = true.
Proof.
  unfold validateForm.
  destruct (truthy_str (trim (fd_name fd))) eqn:Hn; cbn [negb fst].
  2:{ split; [discriminate|]. intros (_ & H & _). discriminate. }
  destruct (includes (fd_github_repository fd) "github.com") eqn:Hg.
  - assert (truthy_str (trim (fd_github_repository fd)) = true) as Hr.
    { apply (includes_trim _ "g"%char "ithub.com"); [reflexivity|exact Hg]. }
    rewrite Hr. cbn. split; [intros _|reflexivity].
    repeat split; auto using trim_empty_source.
  - assert (includes (fd_github_repository fd) "github.com/" = false) as Hg'.
    { destruct (includes (fd_github_repository fd) "github.com/") eqn:H;
        [|reflexivity].
      apply (includes_app _ "github.com" "/") in H. congruence. }
    rewrite Hg'.
    destruct (truthy_str (trim (fd_github_repository fd))); cbn;
      (split; [discriminate|intros (_ & _ & _ & H); discriminate]).
Qed.

(** X20.  The dashboard form and the create endpoint agree on what a valid
    workspace is: for a signed-in user, [handleConnect] sends its POST
    exactly when the create endpoint's checks accept the name and the URL as
    typed.  The form's second test for ["github.com/"] changes nothing, and
    its test for a blank URL never fires on a URL that names github.com. *)
Theorem form_and_endpoint_agree fd email :
  truthy_str email = true ->
  let req := mkRequest "POST" QMissing (Some email)
               (Some (mkBody (Has (fd_name fd))
                        (Has (fd_github_repository fd)))) in
  (handleConnect fd (Some email) = Some req <->
   valid_create_request req email (fd_name fd) (fd_github_repository fd)) /\
  (handleConnect fd (Some email) = None <->
   ~ valid_create_request req email (fd_name fd) (fd_github_repository fd)) /\
  (fst (validateForm fd) = false -> snd (validateForm fd) <> "").
Proof.
  intros He req. unfold handleConnect, valid_create_request.
  pose proof (validateForm_accepts fd) as Hacc.
  destruct (fst (validateForm fd)) eqn:Hv; cbn [method session_email body].
  - destruct Hacc as [Hacc _]. destruct (Hacc eq_refl) as (? & ? & ? & ?).
    split; [|split].
    + split; [intros _; repeat split; assumption|reflexivity].
    + split; [discriminate|]. intros Hno. destruct Hno.
      repeat split; assumption.
    + discriminate.
  - split; [|split].
    + split; [discriminate|].
      intros (_ & _ & _ & _ & H1 & H2 & H3 & H4).
      destruct Hacc as [_ Hacc].
      assert (false = true) by (apply Hacc; auto). discriminate.
    + split; [|reflexivity]. intros _ (_ & _ & _ & _ & H1 & H2 & H3 & H4).
      destruct Hacc as [_ Hacc].
      assert (false = true) by (apply Hacc; auto). discriminate.
    + intros _. unfold validateForm in *.
      repeat case_match; cbn in *; discriminate.
Qed.

Lemma form_and_endpoint_agree_witness :
  handleConnect More.demo_form (Some Sample.alice) = Some Sample.post_demo
  <-> valid_create_request Sample.post_demo Sample.alice "demo"
        "https://github.com/x/y".
Proof.
  apply (form_and_endpoint_agree More.demo_form Sample.alice).
  reflexivity.
Defined.

(** ** The page *)

(** X21.  The re-entrancy guard of [pollStatus] holds: in every state the
    page can be in there is at most one interval timer alive, and it is the
    one [pollingRef] points to. *)
Theorem page_has_one_timer_at_most p :
  page_reachable p ->
  (pollingRef p = None /\ timers p = []) \/
  (exists h, pollingRef p = Some h /\ timers p = [h]).
Proof.
  intros Hp. pose proof (page_reachable_inv p Hp) as Hinv.
  unfold page_inv in Hinv.
  destruct (pollingRef p) as [h|]; [right; eauto|left; auto].
Qed.

Lemma page_has_one_timer_at_most_witness :
  (pollingRef Sample.polling = None /\ timers Sample.polling = []) \/
  (exists h, pollingRef Sample.polling = Some h /\
     timers Sample.polling = [h]).
Proof.
  apply (page_has_one_timer_at_most Sample.polling).
  exists [Mount; Loaded Sample.loaded; Tick 1%positive]. reflexivity.
Defined.

Lemma status_requests_request_status (p : Page) :
  status_requests (request ReqStatus p) = S (status_requests p).
Proof.
  unfold status_requests, request. cbn [requests].
  rewrite List.filter_app, length_app. cbn. lia.
Qed.

Lemma on_loaded_requests (r : Fetched Payload) (p : Page) :
  requests (on_loaded r p) = requests p.
Proof.
  unfold on_loaded. destruct r as [|[|] [data|]]; try reflexivity.
  destruct (workspace_of data) as [w|]; [|reflexivity].
  destruct (wants_polling w); [|reflexivity].
  unfold pollStatus. cbn. destruct (pollingRef p); reflexivity.
Qed.

Lemma clear_polling_requests (p : Page) :
  requests (clear_polling p) = requests p.
Proof. unfold clear_polling. destruct (pollingRef p); reflexivity. Qed.

Lemma on_polled_status_requests (r : Fetched Payload) (p : Page) :
  status_requests (on_polled r p) = status_requests p.
Proof.
  unfold on_polled. destruct r as [|[|] [data|]];
    try (unfold status_requests; cbn [setLoading requests];
         rewrite clear_polling_requests; reflexivity).
  set (q := match analysis_of data with
            | Has a => setWorkspace _ p
            | _ => p
            end).
  assert (requests q = requests p) as Hq
      by (subst q; destruct (analysis_of data); reflexivity).
  destruct (terminal data);
    [|unfold status_requests; rewrite Hq; reflexivity].
  destruct (negb (carries_result (analysis_of data))).
  - change (status_requests (request ReqWorkspace (clear_polling q))
            = status_requests p).
    rewrite status_requests_request_workspace. unfold status_requests.
    rewrite clear_polling_requests, Hq. reflexivity.
  - unfold status_requests. cbn [setLoading requests].
    rewrite clear_polling_requests, Hq. reflexivity.
Qed.

Lemma page_step_status_requests (p p' : Page) (ev : PageEvent) :
  page_step p ev = Some p' ->
  status_requests p' = (status_requests p + ticks [ev])%nat.
Proof.
  intros Hstep. destruct ev as [|r|h|r|r|]; cbn in Hstep.
  - injection Hstep as <-. cbn.
    rewrite Nat.add_0_r.
    apply (status_requests_request_workspace (setLoading true p)).
  - destruct (awaiting_load p); [discriminate|]. injection Hstep as <-.
    unfold status_requests. rewrite on_loaded_requests. cbn. lia.
  - destruct (existsb (Pos.eqb h) (timers p)); [|discriminate].
    injection Hstep as <-. cbn.
    change (status_requests (request ReqStatus p)
            = (status_requests p + 1)%nat).
    rewrite status_requests_request_status. lia.
  - destruct (awaiting_status p); [discriminate|]. injection Hstep as <-.
    rewrite on_polled_status_requests. cbn. unfold status_requests. cbn. lia.
  - destruct (awaiting_final p); [discriminate|]. injection Hstep as <-.
    cbn. destruct r as [|[|] [data|]]; unfold status_requests; cbn; lia.
  - injection Hstep as <-. unfold status_requests.
    rewrite clear_polling_requests. cbn. lia.
Qed.

(** X22.  The page asks for the status once per firing of its timer and at
    no other time: after any run of events the number of status requests
    sent is the number of timer firings in the run. *)
Theorem one_status_request_per_tick evs p :
  page_run initial_page evs = Some p -> status_requests p = ticks evs.
Proof.
  assert (forall evs p0 p1, page_run p0 evs = Some p1 ->
            status_requests p1 = (status_requests p0 + ticks evs)%nat) as H.
  { clear. induction evs as [|ev evs IH]; intros p0 p1 Hrun; cbn in Hrun.
    - injection Hrun as <-. cbn. lia.
    - destruct (page_step p0 ev) as [q|] eqn:Hstep; [|discriminate].
      rewrite (IH q p1 Hrun), (page_step_status_requests p0 q ev Hstep).
      unfold ticks. cbn. destruct ev; cbn; lia. }
  intros Hrun. rewrite (H evs initial_page p Hrun). reflexivity.
Qed.

Lemma one_status_request_per_tick_witness :
  status_requests Sample.polling = 1%nat.
Proof.
  apply (one_status_request_per_tick
           [Mount; Loaded Sample.loaded; Tick 1%positive] Sample.polling).
  reflexivity.
Defined.

(** ** The page and the server *)

(** X23.  The page polls exactly the workspaces that need it.  When GET
    workspace answers the owner, the page that loads the answer starts its
    timer if the workspace has no Analysis or an Analysis without a truthy
    result, and starts none if the result is there; either way it stops
    showing the loading screen. *)
Theorem page_polls_unfinished_workspaces e req id email d w p n :
  valid_workspace_request req id email -> owned_by d id email w ->
  stopped p -> awaiting_load p = S n ->
  exists p',
    page_step p (Loaded (deliver (getWorkspace e req d))) = Some p' /\
    loading p' = false /\
    (truthy_result (analyses d !! id ≫= result) = true -> stopped p') /\
    (truthy_result (analyses d !! id ≫= result) = false ->
     pollingRef p' = Some (next_handle p) /\ timers p' = [next_handle p]).
Proof.
  intros (Hq & Hid & Hs & He) [Hw Hown] [Href Htim] Hn.
  assert (deliver (getWorkspace e req d)
          = Resp true
              (Some (PWorkspaceAnalysis w
                       (option_map summary_of (analyses d !! id))))) as ->.
  { unfold deliver. hsimpl. rewrite Hq, Hid, Hs, He. hsimpl.
    rewrite Hw. hsimpl. rewrite Hown. reflexivity. }
  cbn [page_step]. rewrite Hn. eexists. split; [reflexivity|].
  unfold on_loaded.
  destruct (analyses d !! id) as [a|]; cbn [option_map workspace_of mbind
                                             option_bind].
  - unfold wants_polling. cbn [wd_analysis summary_of as_hasResult].
    destruct (truthy_result (result a)); cbn [negb].
    + split; [reflexivity|]. split; [|discriminate].
      intros _. split; assumption.
    + split; [reflexivity|]. split; [discriminate|]. intros _.
      unfold pollStatus. cbn. rewrite Href. cbn. rewrite Htim. auto.
  - unfold wants_polling. cbn [wd_analysis].
    split; [reflexivity|]. split; [discriminate|]. intros _.
    unfold pollStatus. cbn. rewrite Href. cbn. rewrite Htim. auto.
Qed.

Lemma page_polls_unfinished_workspaces_witness :
  exists p',
    page_step More.mounted
      (Loaded (deliver (getWorkspace Sample.offline
                          (Sample.get_status Sample.alice)
                          (Sample.db_with Sample.submitted))))
    = Some p' /\
    pollingRef p' = Some 1%positive /\ timers p' = [1%positive].
Proof.
  destruct (page_polls_unfinished_workspaces Sample.offline
              (Sample.get_status Sample.alice) "w1" Sample.alice
              (Sample.db_with Sample.submitted) Sample.ws
              More.mounted 0
              ltac:(repeat split; reflexivity) ltac:(split; reflexivity)
              ltac:(split; reflexivity) ltac:(reflexivity))
    as (p' & Hstep & _ & _ & Hpoll).
  exists p'. split; [exact Hstep|]. apply Hpoll. reflexivity.
Defined.

(** Every answer of checkStatus is a 200 or an error with its message. *)
Lemma checkStatus_answer_shape e req d :
  exists r, fst (fst (checkStatus e req d)) = Val r /\
    (code r = 200 \/
     exists msg, payload r = PError msg /\ truthy_str msg = true /\
       is_ok (code r) = false).
Proof.
  rewrite checkStatus_is_table. unfold checkStatus_table.
  repeat case_match; cbn [fst]; eexists; (split; [reflexivity|]); cbn;
    first [left; reflexivity | right; eexists; repeat split].
Qed.

(** X24.  When checkStatus answers with an error (400, 401, 404, 500 or
    502), the page that polled it stops polling at once, stops showing the
    loading screen, and shows the server's own message. *)
Theorem page_shows_the_servers_error e req d p n :
  page_reachable p -> awaiting_status p = S n ->
  exists r p',
    fst (fst (checkStatus e req d)) = Val r /\
    page_step p (Polled (deliver (checkStatus e req d))) = Some p' /\
    (is_ok (code r) = false ->
     stopped p' /\ loading p' = false /\ payload r = PError (error p')).
Proof.
  intros Hp Hn. pose proof (page_reachable_inv p Hp) as Hinv.
  destruct (checkStatus_answer_shape e req d) as (r & Hr & Hshape).
  exists r. cbn [page_step]. rewrite Hn. eexists.
  split; [exact Hr|]. split; [reflexivity|].
  intros Hbad. unfold deliver. rewrite Hr.
  destruct Hshape as [Hc | (msg & Hpay & Hmsg & _)];
    [rewrite Hc in Hbad; discriminate|].
  rewrite Hbad, Hpay.
  set (q := set_awaiting (awaiting_load p) n (awaiting_final p) p).
  split; [|split].
  - apply on_polled_stops; [exact Hinv|reflexivity].
  - unfold on_polled. reflexivity.
  - unfold on_polled. cbn [error_of or_str]. rewrite Hmsg.
    cbn [setLoading error].
    assert (forall q0, error (clear_polling q0) = error q0) as Hclr
        by (intros q0; unfold clear_polling; destruct (pollingRef q0);
            reflexivity).
    rewrite Hclr. reflexivity.
Qed.

Lemma page_shows_the_servers_error_witness :
  exists r p',
    fst (fst (checkStatus Sample.offline (Sample.get_status Sample.alice)
                Sample.db_no_analysis)) = Val r /\
    page_step Sample.polling
      (Polled (deliver (checkStatus Sample.offline
                          (Sample.get_status Sample.alice)
                          Sample.db_no_analysis))) = Some p' /\
    stopped p' /\ error p' = "No analysis record".
Proof.
  destruct (page_shows_the_servers_error Sample.offline
              (Sample.get_status Sample.alice) Sample.db_no_analysis
              Sample.polling 0)
    as (r & p' & Hr & Hstep & Hbad).
  - exists [Mount; Loaded Sample.loaded; Tick 1%positive]. reflexivity.
  - reflexivity.
  - exists r, p'. split; [exact Hr|]. split; [exact Hstep|].
    assert (r = mkResponse 404 (PError "No analysis record")) as ->.
    { assert (Val r = Val (mkResponse 404 (PError "No analysis record")))
        as [= ->]; [rewrite <- Hr; reflexivity|reflexivity]. }
    destruct (Hbad eq_refl) as (Hs & _ & [= Herr]). auto.
Defined.

(** X25.  Progress reaches the page.  While the analyzer reports a status
    other than [completed] and the store takes what it reports, the page
    that polls checkStatus replaces the Analysis it shows by the merged row
    and goes on polling: same timer, no other request sent. *)
Theorem page_shows_progress e req id d a sd p n wd :
  valid_status_request req id -> analyses d !! id = Some a ->
  truthy_result (result a) = false -> has_job a = true ->
  progress_ok a = true ->
  status_reply e (statusUrl_of a) = Resp true (Some sd) ->
  is_completed (sd_status sd) = false -> storable sd = true ->
  awaiting_status p = S n -> workspace p = Some wd ->
  exists p' a',
    page_step p (Polled (deliver (checkStatus e req d))) = Some p' /\
    analyses (snd (fst (checkStatus e req d))) !! id = Some a' /\
    workspace p' = Some (mkWorkspaceData (wd_workspace wd) (VFull a')) /\
    pollingRef p' = pollingRef p /\ timers p' = timers p /\
    requests p' = requests p.
Proof.
  intros Hv Ha Hr Hj Hp Hrep Hc Hs Hn Hwd.
  destruct (merged_fields_storable sd a Hs Hp) as [f Hf].
  unfold deliver.
  rewrite (checkStatus_running e req id d a sd f Hv Ha Hr Hj Hrep Hf Hc).
  cbn [fst snd code payload page_step].
  change (is_ok 200) with true.
  rewrite Hn. exists (on_polled
                        (Resp true
                           (Some (PStatus (sd_status sd)
                                    (Has (merged_row e f a)))))
                        (set_awaiting (awaiting_load p) n (awaiting_final p)
                           p)), (merged_row e f a).
  split; [reflexivity|].
  split; [apply lookup_insert_eq|].
  unfold on_polled, terminal. cbn [analysis_of status_of carries_result].
  rewrite Hc.
  change (truthy_result (result (merged_row e f a)))
    with (truthy_result (result a)).
  rewrite Hr. cbn [orb].
  cbn [setWorkspace set_awaiting workspace pollingRef timers requests].
  rewrite Hwd. auto.
Qed.

Lemma page_shows_progress_witness :
  exists p',
    page_step Sample.polling
      (Polled (deliver (checkStatus Sample.progressing
                          (Sample.get_status Sample.alice)
                          (Sample.db_with Sample.submitted)))) = Some p' /\
    workspace p'
    = Some (mkWorkspaceData Sample.ws
              (VFull (mkAnalysis "a1" "w1" (Some "ext-1") "running"
                        (Some 55) (Some "cloning") None None None None 100
                        None 300))) /\
    timers p' = [1%positive].
Proof.
  destruct (page_shows_progress Sample.progressing
              (Sample.get_status Sample.alice) "w1"
              (Sample.db_with Sample.submitted) Sample.submitted
              Sample.progress_sd Sample.polling 0
              (mkWorkspaceData Sample.ws VNone)
              ltac:(repeat split; reflexivity) ltac:(reflexivity)
              ltac:(reflexivity) ltac:(reflexivity) ltac:(reflexivity)
              ltac:(reflexivity) ltac:(reflexivity) ltac:(reflexivity)
              ltac:(reflexivity) ltac:(reflexivity))
    as (p' & a' & Hstep & Ha' & Hw & _ & Ht & _).
  exists p'. split; [exact Hstep|]. split; [|exact Ht].
  assert (Some a'
          = Some (mkAnalysis "a1" "w1" (Some "ext-1") "running" (Some 55)
                    (Some "cloning") None None None None 100 None 300))
    as [= <-] by (rewrite <- Ha'; vm_compute; reflexivity).
  exact Hw.
Defined.

(** X26.  The result reaches the page.  When checkStatus completes with a
    truthy result document, the store having taken the status response, the
    page that polled it shows the completed row with that document, clears
    its timer, stops showing the loading screen, and sends no further
    request. *)
Theorem page_shows_result e req id d a sd doc p n wd :
  valid_status_request req id -> analyses d !! id = Some a ->
  truthy_result (result a) = false -> has_job a = true ->
  progress_ok a = true ->
  status_reply e (statusUrl_of a) = Resp true (Some sd) ->
  is_completed (sd_status sd) = true -> storable sd = true ->
  result_reply e (resultUrl_of a sd) = Resp true (Some doc) ->
  truthy doc = true ->
  page_reachable p -> awaiting_status p = S n -> workspace p = Some wd ->
  exists p' a',
    page_step p (Polled (deliver (checkStatus e req d))) = Some p' /\
    analyses (snd (fst (checkStatus e req d))) !! id = Some a' /\
    workspace p' = Some (mkWorkspaceData (wd_workspace wd) (VFull a')) /\
    result a' = Some doc /\
    stopped p' /\ loading p' = false /\ requests p' = requests p.
Proof.
  intros Hv Ha Hr Hj Hp Hrep Hc Hs Hres Hdoc Hreach Hn Hwd.
  destruct (merged_fields_storable sd a Hs Hp) as [f Hf].
  pose proof (page_reachable_inv p Hreach) as Hinv.
  unfold deliver.
  rewrite (checkStatus_completed e req id d a sd f doc Hv Ha Hr Hj Hrep Hf Hc
             Hres).
  cbn [fst snd code payload page_step].
  change (is_ok 200) with true.
  rewrite Hn.
  set (r := Resp true
              (Some (PStatus (Some (JStr "completed"))
                       (Has (completed_row e f doc a))))).
  set (q := set_awaiting (awaiting_load p) n (awaiting_final p) p).
  exists (on_polled r q), (completed_row e f doc a).
  assert (result (completed_row e f doc a) = Some doc) as Hrow
      by (cbn; apply truthy_json_column, Hdoc).
  assert (stopped (on_polled r q)) as Hstop
      by (apply on_polled_stops; [exact Hinv|reflexivity]).
  assert (on_polled r q
          = setLoading false
              (clear_polling
                 (setWorkspace
                    (option_map (fun prev =>
                       mkWorkspaceData (wd_workspace prev)
                         (VFull (completed_row e f doc a)))) q))) as Heq.
  { subst r. unfold on_polled, terminal.
    cbn [analysis_of status_of carries_result]. rewrite Hrow.
    cbn [truthy_result]. rewrite Hdoc. reflexivity. }
  split; [reflexivity|]. split; [apply lookup_insert_eq|].
  split; [|split; [exact Hrow|split; [exact Hstop|]]].
  - rewrite Heq. subst q. unfold clear_polling.
    cbn [setWorkspace set_awaiting pollingRef].
    destruct (pollingRef p); cbn; rewrite Hwd; reflexivity.
  - rewrite Heq. subst q. unfold clear_polling.
    cbn [setWorkspace set_awaiting pollingRef].
    destruct (pollingRef p); split; reflexivity.
Qed.

Lemma page_shows_result_witness :
  exists p' a',
    page_step Sample.polling
      (Polled (deliver (checkStatus More.serving Sample.get_status_w2
                          Sample.db_created))) = Some p' /\
    workspace p' = Some (mkWorkspaceData Sample.ws (VFull a')) /\
    result a' = Some (JObj [("project_summary", JStr "ok")]) /\
    stopped p' /\ loading p' = false.
Proof.
  destruct (page_shows_result More.serving Sample.get_status_w2 "w2"
              Sample.db_created
              (mkAnalysis "a2" "w2" (Some "ext-1") "pending" None None None
                 (Some "http://0.0.0.0:8000/api/status/abc")
                 (Some "https://analyzer.example/api/result/abc") None 300
                 None 300)
              Sample.completed_sd (JObj [("project_summary", JStr "ok")])
              Sample.polling 0 (mkWorkspaceData Sample.ws VNone)
              ltac:(repeat split; reflexivity)
              ltac:(vm_compute; reflexivity) ltac:(reflexivity)
              ltac:(reflexivity) ltac:(reflexivity) ltac:(reflexivity)
              ltac:(reflexivity) ltac:(reflexivity) ltac:(reflexivity)
              ltac:(reflexivity)
              ltac:(exists [Mount; Loaded Sample.loaded; Tick 1%positive];
                    reflexivity)
              ltac:(reflexivity) ltac:(reflexivity))
    as (p' & a' & Hstep & _ & Hw & Hres & Hs & Hl & _).
  exists p', a'. split; [exact Hstep|]. split; [exact Hw|].
  split; [exact Hres|]. split; [exact Hs|exact Hl].
Defined.

(** X27.  Unmounting does not call off a load that is under way.  If the
    page is unmounted while [fetchWorkspace] waits for its answer, and the
    answer then brings a workspace that wants polling, a timer is started
    after the cleanup has run. *)
Theorem late_load_starts_a_timer_after_unmount p n data w :
  page_reachable p -> awaiting_load p = S n ->
  workspace_of data = Some w -> wants_polling w = true ->
  exists q q',
    page_step p Unmount = Some q /\ stopped q /\
    page_step q (Loaded (Resp true (Some data))) = Some q' /\
    pollingRef q' = Some (next_handle p) /\ timers q' = [next_handle p].
Proof.
  intros Hp Hn Hw Hpoll. pose proof (page_reachable_inv p Hp) as Hinv.
  destruct (clear_polling_stopped p Hinv) as [Href Htim].
  assert (awaiting_load (clear_polling p) = S n /\
          next_handle (clear_polling p) = next_handle p) as [Hn' Hnext].
  { unfold clear_polling. destruct (pollingRef p); auto. }
  exists (clear_polling p). eexists.
  split; [reflexivity|]. split; [split; assumption|].
  cbn [page_step]. rewrite Hn'. split; [reflexivity|].
  unfold on_loaded. rewrite Hw, Hpoll. unfold pollStatus.
  cbn. rewrite Href. cbn. rewrite Htim, Hnext. auto.
Qed.

Lemma late_load_starts_a_timer_after_unmount_witness :
  exists q q',
    page_step More.mounted Unmount = Some q /\
    stopped q /\
    page_step q (Loaded Sample.loaded) = Some q' /\
    pollingRef q' = Some 1%positive /\ timers q' = [1%positive].
Proof.
  apply (late_load_starts_a_timer_after_unmount
           More.mounted 0
           (PWorkspaceAnalysis Sample.ws None)
           (mkWorkspaceData Sample.ws VNone)).
  - exists [Mount]. reflexivity.
  - reflexivity.
  - reflexivity.
  - reflexivity.
Defined.
